(** * DataBackup reconciler: a shallow embedding of
      pkg/controllers/v1alpha1/databackup/implement.go

    The three reconcile functions and [generateDataBackupValueFile] are
    written as computations over an explicit [World]: the objects the
    cluster client stores, the answers of the external collaborators
    (helm, runtime probes, environment, clock), and the trace of the calls
    made.  A Go panic is an outcome of its own; a Go [error] is a value. *)

From Stdlib Require Import ZArith String Ascii List Bool Lia DecimalString.
From stdpp Require Import base option strings list gmap.

Local Open Scope string_scope.
Local Open Scope Z_scope.
Local Open Scope list_scope.

(** ** Go's [strings] and [strconv], as far as the file uses them *)

Module strings.

(** [strings.HasPrefix(s, prefix)] *)
Definition HasPrefix (s pre : string) : bool := String.prefix pre s.

(** The scan behind [strings.Split] for a non-empty separator: [cur] is
    the piece being read, [skip] the bytes of a matched separator still
    to be dropped. *)
Fixpoint splitGo (sep : string) (skip : nat) (cur s : string) : list string :=
  match s with
  | EmptyString => [cur]
  | String c s' =>
      match skip with
      | S k => splitGo sep k cur s'
      | O =>
          if String.prefix sep s
          then cur :: splitGo sep (String.length sep - 1) "" s'
          else splitGo sep 0 (cur +:+ String c "") s'
      end
  end.

(** With an empty separator Go explodes the string (byte-wise here). *)
Fixpoint explode (s : string) : list string :=
  match s with
  | EmptyString => []
  | String c s' => String c "" :: explode s'
  end.

(** [strings.Split(s, sep)] *)
Definition Split (s sep : string) : list string :=
  match sep with
  | EmptyString => explode s
  | _ => splitGo sep 0 "" s
  end.

(** [strings.Contains(s, substr)] *)
Fixpoint Contains (s sub : string) : bool :=
  String.prefix sub s ||
  match s with
  | EmptyString => false
  | String _ s' => Contains s' sub
  end.

End strings.

Module strconv.
(** [strconv.Itoa] *)
Definition Itoa (i : Z) : string := NilZero.string_of_int (Z.to_int i).
End strconv.

(** ** Data model *)

(** [time.Time] and [time.Duration], both in nanoseconds. *)
Definition Time := Z.
Definition Duration := Z.

Module time.
Definition Second : Duration := 1000000000.
End time.

(** A Go [error] value; a nil [error] is [None : option error]. *)
Inductive error := Err (msg : string).

#[global] Instance error_eq_dec : EqDecision error.
Proof. solve_decision. Defined.

(** [common.Phase] of a DataBackup. *)
Inductive Phase := PhaseNone | PhasePending | PhaseExecuting | PhaseComplete | PhaseFailed.

(** [common.Complete] and [common.Failed], the condition types written here. *)
Inductive ConditionType := Complete | Failed.

(** [v1.ConditionStatus] *)
Inductive ConditionStatus := ConditionTrue | ConditionFalse | ConditionUnknown.

(** [v1.PodPhase] *)
Inductive PodPhase := PodPending | PodRunning | PodSucceeded | PodFailed | PodUnknown.

#[global] Instance Phase_eq_dec : EqDecision Phase.
Proof. solve_decision. Defined.
#[global] Instance ConditionType_eq_dec : EqDecision ConditionType.
Proof. solve_decision. Defined.
#[global] Instance ConditionStatus_eq_dec : EqDecision ConditionStatus.
Proof. solve_decision. Defined.
#[global] Instance PodPhase_eq_dec : EqDecision PodPhase.
Proof. solve_decision. Defined.

(** [metav1.ObjectMeta]: the fields the reconciler and the cluster client
    read.  [ResourceVersion] is the token of optimistic concurrency. *)
Module ObjectMeta.
Record t := {
  Name : string;
  Namespace : string;
  ResourceVersion : N;
  CreationTimestamp : Time;
  DeletionTimestamp : option Time;
  Finalizers : list string
}.
#[global] Instance eq_dec : EqDecision t.
Proof. solve_decision. Defined.

Definition withFinalizers (m : t) (fs : list string) : t :=
  {| Name := Name m; Namespace := Namespace m;
     ResourceVersion := ResourceVersion m;
     CreationTimestamp := CreationTimestamp m;
     DeletionTimestamp := DeletionTimestamp m; Finalizers := fs |}.

Definition withResourceVersion (m : t) (v : N) : t :=
  {| Name := Name m; Namespace := Namespace m; ResourceVersion := v;
     CreationTimestamp := CreationTimestamp m;
     DeletionTimestamp := DeletionTimestamp m; Finalizers := Finalizers m |}.

(** namespace and name, the key of an object in the store *)
Definition key (m : t) : string * string := (Namespace m, Name m).
End ObjectMeta.

(** [v1alpha1.Condition] *)
Module Condition.
Record t := {
  Type_ : ConditionType;
  Status : ConditionStatus;
  Reason : string;
  Message : string;
  LastProbeTime : Time;
  LastTransitionTime : Time
}.
#[global] Instance eq_dec : EqDecision t.
Proof. solve_decision. Defined.
End Condition.

(** [v1alpha1.User]: [UID] and [GID] are pointers in Go. *)
Module User.
Record t := { UID : option Z; GID : option Z }.
#[global] Instance eq_dec : EqDecision t.
Proof. solve_decision. Defined.
End User.

Module DataBackupSpec.
Record t := { Dataset : string; BackupPath : string; RunAs : option User.t }.
#[global] Instance eq_dec : EqDecision t.
Proof. solve_decision. Defined.
End DataBackupSpec.

Module DataBackupStatus.
Record t := { Phase : Phase; Duration : Duration; Conditions : list Condition.t }.
#[global] Instance eq_dec : EqDecision t.
Proof. solve_decision. Defined.
End DataBackupStatus.

(** [v1alpha1.DataBackup] *)
Module DataBackup.
Record t := {
  ObjectMeta : ObjectMeta.t;
  Spec : DataBackupSpec.t;
  Status : DataBackupStatus.t
}.
#[global] Instance eq_dec : EqDecision t.
Proof. solve_decision. Defined.

(** promoted fields of the embedded ObjectMeta *)
Definition Name (b : t) : string := ObjectMeta.Name (ObjectMeta b).
Definition Namespace (b : t) : string := ObjectMeta.Namespace (ObjectMeta b).
Definition CreationTimestamp (b : t) : Time := ObjectMeta.CreationTimestamp (ObjectMeta b).

Definition withStatus (b : t) (s : DataBackupStatus.t) : t :=
  {| ObjectMeta := ObjectMeta b; Spec := Spec b; Status := s |}.
Definition withObjectMeta (b : t) (m : ObjectMeta.t) : t :=
  {| ObjectMeta := m; Spec := Spec b; Status := Status b |}.

Definition withConditions (b : t) (cs : list Condition.t) : t :=
  withStatus b {| DataBackupStatus.Phase := DataBackupStatus.Phase (Status b);
                  DataBackupStatus.Duration := DataBackupStatus.Duration (Status b);
                  DataBackupStatus.Conditions := cs |}.
Definition withPhase (b : t) (p : Phase) : t :=
  withStatus b {| DataBackupStatus.Phase := p;
                  DataBackupStatus.Duration := DataBackupStatus.Duration (Status b);
                  DataBackupStatus.Conditions := DataBackupStatus.Conditions (Status b) |}.
Definition withDuration (b : t) (d : Duration) : t :=
  withStatus b {| DataBackupStatus.Phase := DataBackupStatus.Phase (Status b);
                  DataBackupStatus.Duration := d;
                  DataBackupStatus.Conditions := DataBackupStatus.Conditions (Status b) |}.
End DataBackup.

(** [v1alpha1.Runtime], a runtime bound to a dataset. *)
Module Runtime.
Record t := {
  Name : string;
  Namespace : string;
  Category : string;
  Type_ : string;
  MasterReplicas : Z
}.
#[global] Instance eq_dec : EqDecision t.
Proof. solve_decision. Defined.
End Runtime.

Module DatasetStatus.
Record t := { DataBackupRef : string; Runtimes : list Runtime.t }.
#[global] Instance eq_dec : EqDecision t.
Proof. solve_decision. Defined.

Definition withDataBackupRef (s : t) (ref : string) : t :=
  {| DataBackupRef := ref; Runtimes := Runtimes s |}.
End DatasetStatus.

(** [v1alpha1.Dataset] *)
Module Dataset.
Record t := { ObjectMeta : ObjectMeta.t; Status : DatasetStatus.t }.
#[global] Instance eq_dec : EqDecision t.
Proof. solve_decision. Defined.

Definition Name (d : t) : string := ObjectMeta.Name (ObjectMeta d).
Definition Namespace (d : t) : string := ObjectMeta.Namespace (ObjectMeta d).

Definition withStatus (d : t) (s : DatasetStatus.t) : t :=
  {| ObjectMeta := ObjectMeta d; Status := s |}.
Definition withObjectMeta (d : t) (m : ObjectMeta.t) : t :=
  {| ObjectMeta := m; Status := Status d |}.
End Dataset.

(** [v1alpha1.AlluxioRuntime]: the part of its spec read for the run-as
    identity and the init-users image. *)
Module InitUsersSpec.
Record t := { Image : string; ImageTag : string; ImagePullPolicy : string }.
Definition zero : t := {| Image := ""; ImageTag := ""; ImagePullPolicy := "" |}.
End InitUsersSpec.

Module AlluxioRuntimeSpec.
Record t := { RunAs : option User.t; InitUsers : InitUsersSpec.t }.
Definition zero : t := {| RunAs := None; InitUsers := InitUsersSpec.zero |}.
End AlluxioRuntimeSpec.

Module AlluxioRuntime.
Record t := { Spec : AlluxioRuntimeSpec.t }.
Definition zero : t := {| Spec := AlluxioRuntimeSpec.zero |}.
End AlluxioRuntime.

(** [v1.Pod]: phase and status conditions. *)
Module PodCondition.
Record t := { LastTransitionTime : Time }.
End PodCondition.

Module PodStatus.
Record t := { Phase : PodPhase; Conditions : list PodCondition.t }.
End PodStatus.

Module Pod.
Record t := { Name : string; Namespace : string; Status : PodStatus.t }.
End Pod.

(** [ctrl.Result] *)
Module Result.
Record t := { Requeue : bool; RequeueAfter : Duration }.
#[global] Instance eq_dec : EqDecision t.
Proof. solve_decision. Defined.
Definition zero : t := {| Requeue := false; RequeueAfter := 0 |}.
End Result.

(** The values written into the chart's value file. *)
Module cdatabackup.
Record DataBackup := {
  Namespace : string;
  Dataset : string;
  Name : string;
  NodeName : string;
  Image : string;
  JavaEnv : string;
  Workdir : string;
  RuntimeType : string;
  PVCName : string;
  Path : string
}.
Record UserInfo := { User : Z; Group : Z; FSGroup : Z }.
Record InitUsers := {
  Enabled : bool;
  InitImage : string;
  InitImageTag : string;
  InitImagePullPolicy : string;
  EnvUsers : string;
  Dir : string
}.
Record DataBackupValue := {
  dataBackup : DataBackup;
  userInfo : UserInfo;
  initUsers : InitUsers
}.
End cdatabackup.

(** [reconcileRequestContext]: the request, the dataset read by the caller
    before dispatching, and the request's namespace. *)
Module reconcileRequestContext.
Record t := {
  DataBackup : DataBackup.t;
  Dataset : Dataset.t;
  Namespace : string
}.
End reconcileRequestContext.

(** ** Declarations of the repository that implement.go imports

    The constants of package [common] and of package [databackup], and the
    pure helpers of package [utils] whose bodies are not part of the file:
    they are parameters of the development. *)

Module common.
Class Constants := {
  AlluxioRuntime : string;
  GooseFSRuntime : string;
  AccelerateCategory : string;
  (** [common.PathScheme.String()] and [common.VolumeScheme.String()] *)
  PathScheme : string;
  VolumeScheme : string;
  AlluxioRuntimeImageEnv : string;
  GooseFSRuntimeImageEnv : string;
  DefaultAlluxioRuntimeImage : string;
  DefaultGooseFSRuntimeImage : string;
  DefaultInitImageEnv : string;
  RuntimeNotReady : string;
  (** [cdatabackup.Finalizer] and [cdatabackup.DatabackupChart] *)
  Finalizer : string;
  DatabackupChart : string
}.
End common.

Module utils.
Class Helpers := {
  GetDataBackupRef : string -> string -> string;
  GetDataBackupReleaseName : string -> string;
  GetDataBackupPodName : string -> string;
  GetAddressOfMaster : option Pod.t -> string * string * Z;
  ParseBackupRestorePath : string -> string * string * option error;
  GetInitUserEnv : User.t -> string;
  GetBackupUserDir : string -> string -> string;
  GetChartsDirectory : string;
  (** what [GetRuntimeByCategory] hands back beside index -1: [None] for
      a nil pointer, [Some r] for a value *)
  RuntimeNotFound : option Runtime.t
}.

(** Modelled from the spec: the four requeue helpers of package utils
    (not in the file), the scheduling directives "requeue-immediately,
    requeue-after-interval(duration), or no-requeue"; an error handed to
    [RequeueIfError] is returned beside an empty result, which the
    framework retries with backoff. *)
Definition RequeueIfError (err : option error) : Result.t * option error :=
  (Result.zero, err).

Definition RequeueImmediately : Result.t * option error :=
  ({| Result.Requeue := true; Result.RequeueAfter := 0 |}, None).

Definition RequeueAfterInterval (interval : Duration) : Result.t * option error :=
  ({| Result.Requeue := false; Result.RequeueAfter := interval |}, None).

Definition NoRequeue : Result.t * option error := RequeueIfError None.

Fixpoint findRuntime (runtimes : list Runtime.t) (category : string) (i : Z)
  : option (Z * Runtime.t) :=
  match runtimes with
  | [] => None
  | r :: rest =>
      if String.eqb (Runtime.Category r) category then Some (i, r)
      else findRuntime rest category (i + 1)
  end.

(** Modelled from the spec: [utils.GetRuntimeByCategory] (not in the
    file).  The dataset's "list of bound storage-runtime bindings, each
    tagged with a category": the first binding of the category with its
    index, and index -1 when there is none. *)
Definition GetRuntimeByCategory `{Helpers} (runtimes : list Runtime.t) (category : string)
  : Z * option Runtime.t :=
  match findRuntime runtimes category 0 with
  | Some (i, r) => (i, Some r)
  | None => (-1, RuntimeNotFound)
  end.

(** Modelled from the spec: [utils.CalculateDuration] (not in the file),
    the "wall-clock span from creation to terminal transition". *)
Definition CalculateDuration (creationTime finishTime : Time) : Duration :=
  finishTime - creationTime.

(** Modelled from the spec: [utils.HasDeletionTimestamp] (not in the
    file): the request "is marked for deletion". *)
Definition HasDeletionTimestamp (m : ObjectMeta.t) : bool :=
  match ObjectMeta.DeletionTimestamp m with Some _ => true | None => false end.

(** Modelled from the spec: [utils.RemoveString] (not in the file), used
    to "remove the finalizer marker from the request". *)
Definition RemoveString (slice : list string) (s : string) : list string :=
  List.filter (fun item => negb (String.eqb item s)) slice.
End utils.

(** ** The world outside the reconciler *)

(** Calls that leave the process, with their arguments. *)
Inductive Call :=
| helm_DeleteReleaseIfExists (name ns : string)
| helm_CheckRelease (name ns : string)
| helm_InstallRelease (name ns valueFile chart : string)
| utils_GetDataset (name ns : string)
| client_Get_AlluxioRuntime (ns name : string)
| client_Update_DataBackup (b : DataBackup.t)
| client_Status_Update_DataBackup (b : DataBackup.t)
| client_Status_Update_Dataset (d : Dataset.t)
| kubeclient_GetPodByName (name ns : string)
| alluxio_Ready (pod container ns : string)
| goosefs_Ready (pod container ns : string)
| alluxio_MasterPodName (pod container ns : string)
| goosefs_MasterPodName (pod container ns : string)
| docker_GetWorkerImage (dataset runtimeType ns : string)
| ioutil_TempFile (dir pattern : string)
| ioutil_WriteFile (name data : string) (perm : Z).

(** An event of the recorder: object, type, reason, message. *)
Record Event := {
  evObject : string * string;
  evType : string;
  evReason : string;
  evMessage : string
}.

(** A line of the logger (key/value pairs dropped). *)
Inductive LogEntry :=
| LogInfo (logger : string) (verbosity : nat) (msg : string)
| LogError (logger : string) (err : error) (msg : string).

Record World := {
  (** objects held by the cluster store, by (namespace, name) *)
  datasets : gmap (string * string) Dataset.t;
  databackups : gmap (string * string) DataBackup.t;
  alluxioRuntimes : gmap (string * string) AlluxioRuntime.t;
  pods : gmap (string * string) Pod.t;
  (** installed helm releases, by (namespace, name) *)
  releases : gset (string * string);
  (** files written *)
  files : gmap string string;
  (** a call that fails in this world, and its error *)
  faults : Call -> option error;
  (** answers of the runtime probes *)
  alluxioReady : string -> string -> string -> bool;
  goosefsReady : string -> string -> string -> bool;
  alluxioMasterPodName : string -> string -> string -> string * option error;
  goosefsMasterPodName : string -> string -> string -> string * option error;
  (** answers of package docker, of the process environment and of yaml *)
  workerImage : string -> string -> string -> string * string;
  imageRepoFromEnv : string -> string;
  imageTagFromEnv : string -> string;
  parseInitImage : string -> string -> string -> string -> string * string * string;
  getenv : string -> string;
  tempDir : string;
  tempFileName : string -> string -> string;
  yamlMarshal : cdatabackup.DataBackupValue -> string * option error;
  (** the clock: the time returned by the n-th reading *)
  clock : nat -> Time;
  ticks : nat;
  (** what the reconciler did *)
  trace : list Call;
  events : list Event;
  logs : list LogEntry
}.

Definition set_datasets (f : gmap (string * string) Dataset.t -> gmap (string * string) Dataset.t) (w : World) : World :=
  {| datasets := f (datasets w); databackups := databackups w;
     alluxioRuntimes := alluxioRuntimes w; pods := pods w; releases := releases w;
     files := files w; faults := faults w; alluxioReady := alluxioReady w;
     goosefsReady := goosefsReady w; alluxioMasterPodName := alluxioMasterPodName w;
     goosefsMasterPodName := goosefsMasterPodName w; workerImage := workerImage w;
     imageRepoFromEnv := imageRepoFromEnv w; imageTagFromEnv := imageTagFromEnv w;
     parseInitImage := parseInitImage w; getenv := getenv w; tempDir := tempDir w;
     tempFileName := tempFileName w; yamlMarshal := yamlMarshal w;
     clock := clock w; ticks := ticks w; trace := trace w; events := events w;
     logs := logs w |}.

Definition set_databackups (f : gmap (string * string) DataBackup.t -> gmap (string * string) DataBackup.t) (w : World) : World :=
  {| datasets := datasets w; databackups := f (databackups w);
     alluxioRuntimes := alluxioRuntimes w; pods := pods w; releases := releases w;
     files := files w; faults := faults w; alluxioReady := alluxioReady w;
     goosefsReady := goosefsReady w; alluxioMasterPodName := alluxioMasterPodName w;
     goosefsMasterPodName := goosefsMasterPodName w; workerImage := workerImage w;
     imageRepoFromEnv := imageRepoFromEnv w; imageTagFromEnv := imageTagFromEnv w;
     parseInitImage := parseInitImage w; getenv := getenv w; tempDir := tempDir w;
     tempFileName := tempFileName w; yamlMarshal := yamlMarshal w;
     clock := clock w; ticks := ticks w; trace := trace w; events := events w;
     logs := logs w |}.

Definition set_releases (f : gset (string * string) -> gset (string * string)) (w : World) : World :=
  {| datasets := datasets w; databackups := databackups w;
     alluxioRuntimes := alluxioRuntimes w; pods := pods w; releases := f (releases w);
     files := files w; faults := faults w; alluxioReady := alluxioReady w;
     goosefsReady := goosefsReady w; alluxioMasterPodName := alluxioMasterPodName w;
     goosefsMasterPodName := goosefsMasterPodName w; workerImage := workerImage w;
     imageRepoFromEnv := imageRepoFromEnv w; imageTagFromEnv := imageTagFromEnv w;
     parseInitImage := parseInitImage w; getenv := getenv w; tempDir := tempDir w;
     tempFileName := tempFileName w; yamlMarshal := yamlMarshal w;
     clock := clock w; ticks := ticks w; trace := trace w; events := events w;
     logs := logs w |}.

Definition set_files (f : gmap string string -> gmap string string) (w : World) : World :=
  {| datasets := datasets w; databackups := databackups w;
     alluxioRuntimes := alluxioRuntimes w; pods := pods w; releases := releases w;
     files := f (files w); faults := faults w; alluxioReady := alluxioReady w;
     goosefsReady := goosefsReady w; alluxioMasterPodName := alluxioMasterPodName w;
     goosefsMasterPodName := goosefsMasterPodName w; workerImage := workerImage w;
     imageRepoFromEnv := imageRepoFromEnv w; imageTagFromEnv := imageTagFromEnv w;
     parseInitImage := parseInitImage w; getenv := getenv w; tempDir := tempDir w;
     tempFileName := tempFileName w; yamlMarshal := yamlMarshal w;
     clock := clock w; ticks := ticks w; trace := trace w; events := events w;
     logs := logs w |}.

Definition set_ticks (f : nat -> nat) (w : World) : World :=
  {| datasets := datasets w; databackups := databackups w;
     alluxioRuntimes := alluxioRuntimes w; pods := pods w; releases := releases w;
     files := files w; faults := faults w; alluxioReady := alluxioReady w;
     goosefsReady := goosefsReady w; alluxioMasterPodName := alluxioMasterPodName w;
     goosefsMasterPodName := goosefsMasterPodName w; workerImage := workerImage w;
     imageRepoFromEnv := imageRepoFromEnv w; imageTagFromEnv := imageTagFromEnv w;
     parseInitImage := parseInitImage w; getenv := getenv w; tempDir := tempDir w;
     tempFileName := tempFileName w; yamlMarshal := yamlMarshal w;
     clock := clock w; ticks := f (ticks w); trace := trace w; events := events w;
     logs := logs w |}.

Definition set_trace (f : list Call -> list Call) (w : World) : World :=
  {| datasets := datasets w; databackups := databackups w;
     alluxioRuntimes := alluxioRuntimes w; pods := pods w; releases := releases w;
     files := files w; faults := faults w; alluxioReady := alluxioReady w;
     goosefsReady := goosefsReady w; alluxioMasterPodName := alluxioMasterPodName w;
     goosefsMasterPodName := goosefsMasterPodName w; workerImage := workerImage w;
     imageRepoFromEnv := imageRepoFromEnv w; imageTagFromEnv := imageTagFromEnv w;
     parseInitImage := parseInitImage w; getenv := getenv w; tempDir := tempDir w;
     tempFileName := tempFileName w; yamlMarshal := yamlMarshal w;
     clock := clock w; ticks := ticks w; trace := f (trace w); events := events w;
     logs := logs w |}.

Definition set_events (f : list Event -> list Event) (w : World) : World :=
  {| datasets := datasets w; databackups := databackups w;
     alluxioRuntimes := alluxioRuntimes w; pods := pods w; releases := releases w;
     files := files w; faults := faults w; alluxioReady := alluxioReady w;
     goosefsReady := goosefsReady w; alluxioMasterPodName := alluxioMasterPodName w;
     goosefsMasterPodName := goosefsMasterPodName w; workerImage := workerImage w;
     imageRepoFromEnv := imageRepoFromEnv w; imageTagFromEnv := imageTagFromEnv w;
     parseInitImage := parseInitImage w; getenv := getenv w; tempDir := tempDir w;
     tempFileName := tempFileName w; yamlMarshal := yamlMarshal w;
     clock := clock w; ticks := ticks w; trace := trace w; events := f (events w);
     logs := logs w |}.

Definition set_logs (f : list LogEntry -> list LogEntry) (w : World) : World :=
  {| datasets := datasets w; databackups := databackups w;
     alluxioRuntimes := alluxioRuntimes w; pods := pods w; releases := releases w;
     files := files w; faults := faults w; alluxioReady := alluxioReady w;
     goosefsReady := goosefsReady w; alluxioMasterPodName := alluxioMasterPodName w;
     goosefsMasterPodName := goosefsMasterPodName w; workerImage := workerImage w;
     imageRepoFromEnv := imageRepoFromEnv w; imageTagFromEnv := imageTagFromEnv w;
     parseInitImage := parseInitImage w; getenv := getenv w; tempDir := tempDir w;
     tempFileName := tempFileName w; yamlMarshal := yamlMarshal w;
     clock := clock w; ticks := ticks w; trace := trace w; events := events w;
     logs := f (logs w) |}.

(** ** Computations: state passing over the world, with Go's panic *)

Inductive Outcome (A : Type) :=
| Returned (a : A)
| Panicked (msg : string).
Arguments Returned {A} a.
Arguments Panicked {A} msg.

Definition M (A : Type) : Type := World -> Outcome A * World.

#[global] Instance M_ret : MRet M := fun A a w => (Returned a, w).

#[global] Instance M_bind : MBind M := fun A B f m w =>
  match m w with
  | (Returned a, w') => f a w'
  | (Panicked msg, w') => (Panicked msg, w')
  end.

Definition panic {A} (msg : string) : M A := fun w => (Panicked msg, w).

Definition gets {A} (f : World -> A) : M A := fun w => (Returned (f w), w).

Definition modify (f : World -> World) : M unit := fun w => (Returned tt, f w).

(** the call is written to the trace before it is answered *)
Definition called (c : Call) : M unit := modify (set_trace (fun t => t ++ [c])).

(** [time.Now()] *)
Definition Now : M Time :=
  t ← gets (fun w => clock w (ticks w));
  modify (set_ticks S);;
  mret t.

Definition logInfo (logger : string) (v : nat) (msg : string) : M unit :=
  modify (set_logs (fun l => l ++ [LogInfo logger v msg])).

Definition logError (logger : string) (e : error) (msg : string) : M unit :=
  modify (set_logs (fun l => l ++ [LogError logger e msg])).

(** [r.Recorder.Eventf(&ctx.DataBackup, eventtype, reason, message)] *)
Definition Eventf (b : DataBackup.t) (ty reason msg : string) : M unit :=
  modify (set_events (fun l => l ++
    [{| evObject := ObjectMeta.key (DataBackup.ObjectMeta b);
        evType := ty; evReason := reason; evMessage := msg |}])).

(** [v1.EventTypeNormal] *)
Definition EventTypeNormal : string := "Normal".

(** Indexing a slice: out of range is a run-time panic. *)
Definition index {A} (l : list A) (i : Z) : M A :=
  if (i <? 0)%Z then panic "index out of range"
  else match l !! Z.to_nat i with
       | Some x => mret x
       | None => panic "index out of range"
       end.

(** Dereferencing a pointer: nil is a run-time panic. *)
Definition deref {A} (p : option A) : M A :=
  match p with
  | Some x => mret x
  | None => panic "invalid memory address or nil pointer dereference"
  end.

(** ** The collaborators *)

(** Modelled from the spec: the cluster resource client (not in the file),
    "read/write access with optimistic-concurrency semantics (write fails
    if the resource changed since read)".  A status update replaces the
    status of the stored object and moves its version on; it is refused,
    and the store left as it was, when the call fails in this world, when
    the object is gone, or when the version submitted is not the stored
    one. *)
Module client.

Definition bump (m : ObjectMeta.t) : ObjectMeta.t :=
  ObjectMeta.withResourceVersion m (N.succ (ObjectMeta.ResourceVersion m)).

(** The store's verdict on a conditional write: the error it is refused
    with, or none.  [fault] is the failure of the call in this world,
    [stored] the version held (none when the object is gone),
    [submitted] the version the caller read. *)
Definition verdict (fault : option error) (stored : option N) (submitted : N) : option error :=
  match fault with
  | Some e => Some e
  | None =>
      match stored with
      | None => Some (Err "not found")
      | Some v =>
          if decide (v = submitted) then None
          else Some (Err "the object has been modified")
      end
  end.

Definition refusesDataset (w : World) (d : Dataset.t) : option error :=
  verdict (faults w (client_Status_Update_Dataset d))
    ((fun cur => ObjectMeta.ResourceVersion (Dataset.ObjectMeta cur))
       <$> datasets w !! ObjectMeta.key (Dataset.ObjectMeta d))
    (ObjectMeta.ResourceVersion (Dataset.ObjectMeta d)).

Definition refusesStatus (w : World) (b : DataBackup.t) : option error :=
  verdict (faults w (client_Status_Update_DataBackup b))
    ((fun cur => ObjectMeta.ResourceVersion (DataBackup.ObjectMeta cur))
       <$> databackups w !! ObjectMeta.key (DataBackup.ObjectMeta b))
    (ObjectMeta.ResourceVersion (DataBackup.ObjectMeta b)).

Definition refusesUpdate (w : World) (b : DataBackup.t) : option error :=
  verdict (faults w (client_Update_DataBackup b))
    ((fun cur => ObjectMeta.ResourceVersion (DataBackup.ObjectMeta cur))
       <$> databackups w !! ObjectMeta.key (DataBackup.ObjectMeta b))
    (ObjectMeta.ResourceVersion (DataBackup.ObjectMeta b)).

(** what the store holds after an accepted status update *)
Definition storeDatasetStatus (d cur : Dataset.t) : Dataset.t :=
  {| Dataset.ObjectMeta := bump (Dataset.ObjectMeta cur);
     Dataset.Status := Dataset.Status d |}.

Definition storeStatus (b cur : DataBackup.t) : DataBackup.t :=
  {| DataBackup.ObjectMeta := bump (DataBackup.ObjectMeta cur);
     DataBackup.Spec := DataBackup.Spec cur;
     DataBackup.Status := DataBackup.Status b |}.

(** and after an accepted update: metadata and spec are replaced, the
    status is kept *)
Definition storeUpdate (b cur : DataBackup.t) : DataBackup.t :=
  {| DataBackup.ObjectMeta := bump (DataBackup.ObjectMeta b);
     DataBackup.Spec := DataBackup.Spec b;
     DataBackup.Status := DataBackup.Status cur |}.

(** [r.Client.Status().Update(ctx, dataset)] *)
Definition Status_Update_Dataset (d : Dataset.t) : M (option error) :=
  called (client_Status_Update_Dataset d);;
  refusal ← gets (fun w => refusesDataset w d);
  match refusal with
  | Some e => mret (Some e)
  | None =>
      modify (set_datasets
        (alter (storeDatasetStatus d) (ObjectMeta.key (Dataset.ObjectMeta d))));;
      mret None
  end.

(** [r.Status().Update(ctx, databackup)] *)
Definition Status_Update_DataBackup (b : DataBackup.t) : M (option error) :=
  called (client_Status_Update_DataBackup b);;
  refusal ← gets (fun w => refusesStatus w b);
  match refusal with
  | Some e => mret (Some e)
  | None =>
      modify (set_databackups
        (alter (storeStatus b) (ObjectMeta.key (DataBackup.ObjectMeta b))));;
      mret None
  end.

(** [r.Update(ctx, &ctx.DataBackup)] *)
Definition Update_DataBackup (b : DataBackup.t) : M (option error) :=
  called (client_Update_DataBackup b);;
  refusal ← gets (fun w => refusesUpdate w b);
  match refusal with
  | Some e => mret (Some e)
  | None =>
      modify (set_databackups
        (alter (storeUpdate b) (ObjectMeta.key (DataBackup.ObjectMeta b))));;
      mret None
  end.

(** [r.Get] of the AlluxioRuntime named like the dataset. *)
Definition Get_AlluxioRuntime (ns name : string) : M (option AlluxioRuntime.t * option error) :=
  called (client_Get_AlluxioRuntime ns name);;
  w ← gets (fun w => w);
  match faults w (client_Get_AlluxioRuntime ns name) with
  | Some e => mret (None, Some e)
  | None =>
      match alluxioRuntimes w !! (ns, name) with
      | None => mret (None, Some (Err "not found"))
      | Some r => mret (Some r, None)
      end
  end.

(** Modelled from the spec: [utils.GetDataset] (not in the file), the
    client's [get] for the Dataset kind. *)
Definition GetDataset (name ns : string) : M (option Dataset.t * option error) :=
  called (utils_GetDataset name ns);;
  w ← gets (fun w => w);
  match faults w (utils_GetDataset name ns) with
  | Some e => mret (None, Some e)
  | None =>
      match datasets w !! (ns, name) with
      | None => mret (None, Some (Err "not found"))
      | Some d => mret (Some d, None)
      end
  end.
End client.

(** Modelled from the spec: package kubeclient (not in the file), "get pod
    by name" and the terminal pod "has succeeded" / "has failed".  A pod
    that is absent is answered by a nil pod, with an error when the world
    lists the call as failing. *)
Module kubeclient.
Definition GetPodByName (name ns : string) : M (option Pod.t * option error) :=
  called (kubeclient_GetPodByName name ns);;
  w ← gets (fun w => w);
  match faults w (kubeclient_GetPodByName name ns) with
  | Some e => mret (None, Some e)
  | None => mret (pods w !! (ns, name), None)
  end.

Definition IsSucceededPod (pod : option Pod.t) : bool :=
  match pod with
  | Some p => bool_decide (PodStatus.Phase (Pod.Status p) = PodSucceeded)
  | None => false
  end.

Definition IsFailedPod (pod : option Pod.t) : bool :=
  match pod with
  | Some p => bool_decide (PodStatus.Phase (Pod.Status p) = PodFailed)
  | None => false
  end.
End kubeclient.

(** Modelled from the spec: the package/release installer (not in the
    file): "exists(releaseName, namespace)", "install(...) -> error",
    "uninstall(releaseName, namespace) -> error (no-op if absent)". *)
Module helm.
Definition DeleteReleaseIfExists (name ns : string) : M (option error) :=
  called (helm_DeleteReleaseIfExists name ns);;
  w ← gets (fun w => w);
  match faults w (helm_DeleteReleaseIfExists name ns) with
  | Some e => mret (Some e)
  | None => modify (set_releases (fun s => s ∖ {[ (ns, name) ]}));; mret None
  end.

Definition CheckRelease (name ns : string) : M (bool * option error) :=
  called (helm_CheckRelease name ns);;
  w ← gets (fun w => w);
  match faults w (helm_CheckRelease name ns) with
  | Some e => mret (false, Some e)
  | None => mret (bool_decide ((ns, name) ∈ releases w), None)
  end.

Definition InstallRelease (name ns valueFile chart : string) : M (option error) :=
  called (helm_InstallRelease name ns valueFile chart);;
  w ← gets (fun w => w);
  match faults w (helm_InstallRelease name ns valueFile chart) with
  | Some e => mret (Some e)
  | None => modify (set_releases (fun s => s ∪ {[ (ns, name) ]}));; mret None
  end.
End helm.

(** Modelled from the spec: the runtime probes (not in the file), per
    storage-runtime type "isReady() -> bool" and "activeMasterPodName() ->
    string | error"; the world holds their answers. *)
Module operations.
Definition Ready (podName containerName ns : string) : M bool :=
  called (alluxio_Ready podName containerName ns);;
  gets (fun w => alluxioReady w podName containerName ns).

Definition MasterPodName (podName containerName ns : string) : M (string * option error) :=
  called (alluxio_MasterPodName podName containerName ns);;
  gets (fun w => alluxioMasterPodName w podName containerName ns).
End operations.

Module goosefs.
Definition Ready (podName containerName ns : string) : M bool :=
  called (goosefs_Ready podName containerName ns);;
  gets (fun w => goosefsReady w podName containerName ns).

Definition MasterPodName (podName containerName ns : string) : M (string * option error) :=
  called (goosefs_MasterPodName podName containerName ns);;
  gets (fun w => goosefsMasterPodName w podName containerName ns).
End goosefs.

(** Modelled from the spec: package docker (not in the file): the "worker
    container image name/tag from the currently running storage-runtime
    worker's image" and the "environment-supplied override"; the world
    holds their answers. *)
Module docker.
Definition GetWorkerImage (dataset runtimeType ns : string) : M (string * string) :=
  called (docker_GetWorkerImage dataset runtimeType ns);;
  gets (fun w => workerImage w dataset runtimeType ns).

Definition GetImageRepoFromEnv (envName : string) : M string :=
  gets (fun w => imageRepoFromEnv w envName).

Definition GetImageTagFromEnv (envName : string) : M string :=
  gets (fun w => imageTagFromEnv w envName).

Definition ParseInitImage (image tag policy envName : string) : M (string * string * string) :=
  gets (fun w => parseInitImage w image tag policy envName).
End docker.

(** [os] and [ioutil]: environment and temporary files. *)
Module os.
Definition Getenv (name : string) : M string := gets (fun w => getenv w name).
Definition TempDir : M string := gets tempDir.
End os.

Module ioutil.
(** [ioutil.TempFile(dir, pattern)]: the name of the file created. *)
Definition TempFile (dir pattern : string) : M (string * option error) :=
  called (ioutil_TempFile dir pattern);;
  w ← gets (fun w => w);
  match faults w (ioutil_TempFile dir pattern) with
  | Some e => mret ("", Some e)
  | None =>
      let name := tempFileName w dir pattern in
      modify (set_files (insert name ""));;
      mret (name, None)
  end.

Definition WriteFile (name data : string) (perm : Z) : M (option error) :=
  called (ioutil_WriteFile name data perm);;
  w ← gets (fun w => w);
  match faults w (ioutil_WriteFile name data perm) with
  | Some e => mret (Some e)
  | None => modify (set_files (insert name data));; mret None
  end.
End ioutil.

Module yaml.
Definition Marshal (v : cdatabackup.DataBackupValue) : M (string * option error) :=
  gets (fun w => yamlMarshal w v).
End yaml.

(** ** The reconciler (implement.go) *)

Section Reconciler.
Context `{!common.Constants, !utils.Helpers}.

(** Modelled from the spec: [releaseLockOnTargetDataset] (a method of the
    reconciler defined in another file of the package): "release the
    dataset lock if held by this request — absence/mismatch is not an
    error"; releasing "clears DataBackupRef", through a conditional
    write. *)
Definition releaseLockOnTargetDataset (ctx : reconcileRequestContext.t) : M (option error) :=
  let databackup := reconcileRequestContext.DataBackup ctx in
  let name := DataBackupSpec.Dataset (DataBackup.Spec databackup) in
  let ns := DataBackup.Namespace databackup in
  called (utils_GetDataset name ns);;
  w ← gets (fun w => w);
  match faults w (utils_GetDataset name ns) with
  | Some e => mret (Some e)
  | None =>
      match datasets w !! (ns, name) with
      | None => mret None
      | Some dataset =>
          if String.eqb (DatasetStatus.DataBackupRef (Dataset.Status dataset))
               (utils.GetDataBackupRef (DataBackup.Name databackup) ns)
          then client.Status_Update_Dataset
                 (Dataset.withStatus dataset
                    (DatasetStatus.withDataBackupRef (Dataset.Status dataset) ""))
          else mret None
      end
  end.

(** [ReconcileDataBackupDeletion] (implement.go, lines 68-96) *)
Definition ReconcileDataBackupDeletion (ctx : reconcileRequestContext.t)
  : M (Result.t * option error) :=
  let log := "ReconcileDataBackupDeletion" in
  let databackup := reconcileRequestContext.DataBackup ctx in
  (* 1. Delete release if exists *)
  let releaseName := utils.GetDataBackupReleaseName (DataBackup.Name databackup) in
  err ← helm.DeleteReleaseIfExists releaseName (DataBackup.Namespace databackup);
  match err with
  | Some e =>
      logError log e "can't delete release";;
      mret (utils.RequeueIfError err)
  | None =>
      (* 2. Release lock on target dataset if necessary *)
      err ← releaseLockOnTargetDataset ctx;
      match err with
      | Some e =>
          logError log e "can't release lock on target dataset";;
          mret (utils.RequeueIfError err)
      | None =>
          (* 3. remove finalizer *)
          if utils.HasDeletionTimestamp (DataBackup.ObjectMeta databackup) then
            let meta := DataBackup.ObjectMeta databackup in
            let databackup' :=
              DataBackup.withObjectMeta databackup
                (ObjectMeta.withFinalizers meta
                   (utils.RemoveString (ObjectMeta.Finalizers meta) common.Finalizer)) in
            err ← client.Update_DataBackup databackup';
            match err with
            | Some e =>
                logError log e "failed to remove finalizer";;
                mret (utils.RequeueIfError err)
            | None =>
                logInfo log 0 "Finalizer is removed";;
                mret utils.NoRequeue
            end
          else mret utils.NoRequeue
      end
  end.

(** line 105: [len(conflictDataBackupRef) != 0 && conflictDataBackupRef != myDataBackupRef] *)
Definition conflicting (ctx : reconcileRequestContext.t) : bool :=
  let targetDataset := reconcileRequestContext.Dataset ctx in
  let databackup := reconcileRequestContext.DataBackup ctx in
  let conflictDataBackupRef := DatasetStatus.DataBackupRef (Dataset.Status targetDataset) in
  let myDataBackupRef :=
    utils.GetDataBackupRef (DataBackup.Name databackup) (DataBackup.Namespace databackup) in
  negb (Nat.eqb (String.length conflictDataBackupRef) 0)
  && negb (String.eqb conflictDataBackupRef myDataBackupRef).

(** line 162: the path starts with neither scheme *)
Definition pathNotSupported (ctx : reconcileRequestContext.t) : bool :=
  let path := DataBackupSpec.BackupPath
                (DataBackup.Spec (reconcileRequestContext.DataBackup ctx)) in
  negb (strings.HasPrefix path common.PathScheme)
  && negb (strings.HasPrefix path common.VolumeScheme).

(** the single condition written with a Failed phase *)
Definition failedCondition (reason message : string) (probe transition : Time) : Condition.t :=
  {| Condition.Type_ := Failed;
     Condition.Status := ConditionTrue;
     Condition.Reason := reason;
     Condition.Message := message;
     Condition.LastProbeTime := probe;
     Condition.LastTransitionTime := transition |}.

(** [reconcilePendingDataBackup] (implement.go, lines 99-205) *)
Definition reconcilePendingDataBackup (ctx : reconcileRequestContext.t)
  : M (Result.t * option error) :=
  let log := "reconcilePendingDataBackup" in
  let targetDataset := reconcileRequestContext.Dataset ctx in
  let databackup := reconcileRequestContext.DataBackup ctx in
  (* 1. Check if there's any Backuping pods(conflict DataBackup) *)
  let myDataBackupRef :=
    utils.GetDataBackupRef (DataBackup.Name databackup) (DataBackup.Namespace databackup) in
  if conflicting ctx then
    logInfo log 1 "Found other DataBackups that is in Executing phase, will backoff";;
    probe ← Now;
    transition ← Now;
    let databackupToUpdate :=
      DataBackup.withPhase
        (DataBackup.withConditions databackup
           [failedCondition "conflictDataBackupRef"
              "Found other DataBackup that is in Executing phase" probe transition])
        PhaseFailed in
    err ← client.Status_Update_DataBackup databackupToUpdate;
    match err with
    | Some _ => mret (utils.RequeueIfError err)
    | None => mret utils.RequeueImmediately
    end
  else
    (* 2. Check if the bounded runtime is ready *)
    let '(index, boundedRuntime) :=
      utils.GetRuntimeByCategory (DatasetStatus.Runtimes (Dataset.Status targetDataset))
        common.AccelerateCategory in
    (if index =? -1
     then logInfo log 0 "bounded runtime with Accelerate Category is not found on the target dataset"
     else mret tt);;
    runtime ← deref boundedRuntime;
    ready ←
      (if String.eqb (Runtime.Type_ runtime) common.AlluxioRuntime then
         operations.Ready (Dataset.Name targetDataset +:+ "-master-0") "alluxio-master"
           (Dataset.Namespace targetDataset)
       else if String.eqb (Runtime.Type_ runtime) common.GooseFSRuntime then
         goosefs.Ready (Dataset.Name targetDataset +:+ "-master-0") "goosefs-master"
           (Dataset.Namespace targetDataset)
       else
         logError log (Err "RuntimeNotSupported") "The runtime is not supported yet";;
         Eventf databackup EventTypeNormal common.RuntimeNotReady
           "Bounded accelerate runtime not supported";;
         mret false);
    if negb ready then
      logInfo log 1 "Bounded accelerate runtime not ready";;
      Eventf databackup EventTypeNormal common.RuntimeNotReady
        "Bounded accelerate runtime not ready";;
      mret (utils.RequeueAfterInterval (20 * time.Second))
    else if pathNotSupported ctx then
      (* 3. check the path *)
      logError log (Err "PathNotSupported") "don't support path in this form";;
      probe ← Now;
      transition ← Now;
      let databackupToUpdate :=
        DataBackup.withPhase
          (DataBackup.withConditions databackup
             [failedCondition "PathNotSupported"
                "Only support pvc and local path now" probe transition])
          PhaseFailed in
      err ← client.Status_Update_DataBackup databackupToUpdate;
      match err with
      | Some _ => mret (utils.RequeueIfError err)
      | None => mret utils.RequeueImmediately
      end
    else
      (* 3. lock the target dataset *)
      logInfo log 0 "No conflicts detected, try to lock the target dataset";;
      let datasetToUpdate :=
        Dataset.withStatus targetDataset
          (DatasetStatus.withDataBackupRef (Dataset.Status targetDataset) myDataBackupRef) in
      lockErr ←
        (if negb (bool_decide (Dataset.Status targetDataset = Dataset.Status datasetToUpdate))
         then client.Status_Update_Dataset datasetToUpdate
         else mret None);
      match lockErr with
      | Some _ =>
          logInfo log 1 "fail to get target dataset's lock, will requeue";;
          mret (utils.RequeueAfterInterval (20 * time.Second))
      | None =>
          (* 4. update phase to Executing *)
          logInfo log 0 "Get lock on target dataset, try to update phase";;
          let dataBackupToUpdate := DataBackup.withPhase databackup PhaseExecuting in
          err ← client.Status_Update_DataBackup dataBackupToUpdate;
          match err with
          | Some e =>
              logError log e "failed to update cdatabackup's status to Executing, will retry";;
              mret (utils.RequeueIfError err)
          | None =>
              logInfo log 1 "update cdatabackup's status to Executing successfully";;
              mret utils.RequeueImmediately
          end
      end.

(** lines 385-391 and 405-411: the image environment variable and the
    default image of the runtime type; both variables are declared with
    Go's zero value and keep it for any other type. *)
Definition imageDefaults (runtimeType : string) : string * string :=
  if String.eqb runtimeType common.AlluxioRuntime then
    (common.AlluxioRuntimeImageEnv, common.DefaultAlluxioRuntimeImage)
  else if String.eqb runtimeType common.GooseFSRuntime then
    (common.GooseFSRuntimeImageEnv, common.DefaultGooseFSRuntimeImage)
  else ("", "").

(** lines 384-402.  [inl] is the function's early return, [inr] the
    image name it goes on with. *)
Definition resolveImageName (log : string) (runtimeType imageName : string)
  : M (string * option error + string) :=
  if Nat.eqb (String.length imageName) 0 then
    let '(imageEnv, defaultImage) := imageDefaults runtimeType in
    imageName ← docker.GetImageRepoFromEnv imageEnv;
    if Nat.eqb (String.length imageName) 0 then
      let defaultImageInfo := strings.Split defaultImage ":" in
      if (length defaultImageInfo <? 1)%nat then
        logError log (Err "ImageInfo") "invalid default databackup image!";;
        mret (inl ("", None))
      else
        imageName ← index defaultImageInfo 0;
        mret (inr imageName)
    else mret (inr imageName)
  else mret (inr imageName).

(** lines 404-422 *)
Definition resolveImageTag (log : string) (runtimeType imageTag : string)
  : M (string * option error + string) :=
  if Nat.eqb (String.length imageTag) 0 then
    let '(imageEnv, defaultImage) := imageDefaults runtimeType in
    imageTag ← docker.GetImageTagFromEnv imageEnv;
    if Nat.eqb (String.length imageTag) 0 then
      let defaultImageInfo := strings.Split defaultImage ":" in
      if (length defaultImageInfo <? 1)%nat then
        logError log (Err "ImageInfo") "invalid default databackup image!";;
        mret (inl ("", None))
      else
        imageTag ← index defaultImageInfo 1;
        mret (inr imageTag)
    else mret (inr imageTag)
  else mret (inr imageTag).

(** lines 367-382: worker image, java options and runtime type *)
Definition runtimeSettings (log : string) (databackup : DataBackup.t)
    (boundedRuntime : Runtime.t) (ip : string) (rpcPort : Z)
  : M (string * string * string * string) :=
  let dataset := DataBackupSpec.Dataset (DataBackup.Spec databackup) in
  if String.eqb (Runtime.Type_ boundedRuntime) common.AlluxioRuntime then
    '(imageName, imageTag) ←
      docker.GetWorkerImage dataset common.AlluxioRuntime (DataBackup.Namespace databackup);
    mret (imageName, imageTag,
          "-Dalluxio.master.hostname=" +:+ ip +:+ " -Dalluxio.master.rpc.port="
            +:+ strconv.Itoa rpcPort,
          common.AlluxioRuntime)
  else if String.eqb (Runtime.Type_ boundedRuntime) common.GooseFSRuntime then
    '(imageName, imageTag) ←
      docker.GetWorkerImage dataset common.GooseFSRuntime (DataBackup.Namespace databackup);
    mret (imageName, imageTag,
          "-Dgoosefs.master.hostname=" +:+ ip +:+ " -Dgoosefs.master.rpc.port="
            +:+ strconv.Itoa rpcPort,
          common.GooseFSRuntime)
  else
    logError log (Err "RuntimeNotSupported") "The runtime is not supported yet";;
    Eventf databackup EventTypeNormal common.RuntimeNotReady
      "Bounded accelerate runtime not supported";;
    mret ("", "", "", "").

(** lines 424-501: from the resolved image to the value file *)
Definition writeValueFile (databackup : DataBackup.t)
    (nodeName imageName imageTag javaEnv runtimeType : string)
  : M (string * option error) :=
  let image := imageName +:+ ":" +:+ imageTag in
  workdir ← os.Getenv "FLUID_WORKDIR";
  let workdir := if String.eqb workdir "" then "/tmp" else workdir in
  let '(pvcName, path, err) :=
    utils.ParseBackupRestorePath (DataBackupSpec.BackupPath (DataBackup.Spec databackup)) in
  match err with
  | Some _ => mret ("", err)
  | None =>
      let dataBackup :=
        {| cdatabackup.Namespace := DataBackup.Namespace databackup;
           cdatabackup.Dataset := DataBackupSpec.Dataset (DataBackup.Spec databackup);
           cdatabackup.Name := DataBackup.Name databackup;
           cdatabackup.NodeName := nodeName;
           cdatabackup.Image := image;
           cdatabackup.JavaEnv := javaEnv;
           cdatabackup.Workdir := workdir;
           cdatabackup.RuntimeType := runtimeType;
           cdatabackup.PVCName := pvcName;
           cdatabackup.Path := path |} in
      (* get the runAs and initUsers imageInfo from runtime *)
      '(got, err) ← client.Get_AlluxioRuntime (DataBackup.Namespace databackup)
                      (DataBackupSpec.Dataset (DataBackup.Spec databackup));
      let runtime := default AlluxioRuntime.zero got in
      let runAs :=
        match err with
        | None => AlluxioRuntimeSpec.RunAs (AlluxioRuntime.Spec runtime)
        | Some _ => None
        end in
      (* databackup.Spec.RunAs > runtime.Spec.RunAs > root *)
      let runAs :=
        match DataBackupSpec.RunAs (DataBackup.Spec databackup) with
        | Some u => Some u
        | None => runAs
        end in
      '(userInfo, enabled, envUsers, dir) ←
        match runAs with
        | Some u =>
            uid ← deref (User.UID u);
            gid ← deref (User.GID u);
            mret ({| cdatabackup.User := uid; cdatabackup.Group := gid;
                     cdatabackup.FSGroup := 0 |},
                  true, utils.GetInitUserEnv u,
                  utils.GetBackupUserDir (cdatabackup.Namespace dataBackup)
                    (cdatabackup.Name dataBackup))
        | None =>
            mret ({| cdatabackup.User := 0; cdatabackup.Group := 0;
                     cdatabackup.FSGroup := 0 |}, false, "", "")
        end;
      let initSpec := AlluxioRuntimeSpec.InitUsers (AlluxioRuntime.Spec runtime) in
      '(initImage, initTag, initPolicy) ←
        docker.ParseInitImage (InitUsersSpec.Image initSpec) (InitUsersSpec.ImageTag initSpec)
          (InitUsersSpec.ImagePullPolicy initSpec) common.DefaultInitImageEnv;
      let dataBackupValue :=
        {| cdatabackup.dataBackup := dataBackup;
           cdatabackup.userInfo := userInfo;
           cdatabackup.initUsers :=
             {| cdatabackup.Enabled := enabled;
                cdatabackup.InitImage := initImage;
                cdatabackup.InitImageTag := initTag;
                cdatabackup.InitImagePullPolicy := initPolicy;
                cdatabackup.EnvUsers := envUsers;
                cdatabackup.Dir := dir |} |} in
      '(data, err) ← yaml.Marshal dataBackupValue;
      match err with
      | Some _ => mret ("", err)
      | None =>
          tmp ← os.TempDir;
          '(valueFile, err) ←
            ioutil.TempFile tmp
              (DataBackup.Namespace databackup +:+ "-" +:+ DataBackup.Name databackup
                 +:+ "-" +:+ cdatabackup.RuntimeType dataBackup +:+ "-backuper-values.yaml");
          match err with
          | Some _ => mret ("", err)
          | None =>
              err ← ioutil.WriteFile valueFile data 256;
              match err with
              | Some _ => mret ("", err)
              | None => mret (valueFile, None)
              end
          end
      end
  end.

(** lines 384-501: from the worker image, java options and runtime type
    found for the bound runtime to the value file *)
Definition deriveFromSettings (log : string) (databackup : DataBackup.t) (nodeName : string)
    (settings : string * string * string * string) : M (string * option error) :=
  let '(imageName, imageTag, javaEnv, runtimeType) := settings in
  nameStep ← resolveImageName log runtimeType imageName;
  match nameStep with
  | inl early => mret early
  | inr imageName =>
      tagStep ← resolveImageTag log runtimeType imageTag;
      match tagStep with
      | inl early => mret early
      | inr imageTag =>
          writeValueFile databackup nodeName imageName imageTag javaEnv runtimeType
      end
  end.

(** [generateDataBackupValueFile] (implement.go, lines 351-502).  The
    results are named in Go: a bare [return] hands back the current
    [valueFileName], still empty, and the current [err]. *)
Definition generateDataBackupValueFile (ctx : reconcileRequestContext.t)
    (masterPod : option Pod.t) : M (string * option error) :=
  let log := "generateDataBackupValueFile" in
  let databackup := reconcileRequestContext.DataBackup ctx in
  let '(nodeName, ip, rpcPort) := utils.GetAddressOfMaster masterPod in
  '(targetDataset, err) ←
    client.GetDataset (DataBackupSpec.Dataset (DataBackup.Spec databackup))
      (DataBackup.Namespace databackup);
  match err with
  | Some _ => mret ("", err)
  | None =>
      targetDataset ← deref targetDataset;
      let '(index, boundedRuntime) :=
        utils.GetRuntimeByCategory (DatasetStatus.Runtimes (Dataset.Status targetDataset))
          common.AccelerateCategory in
      if index =? -1 then
        mret ("", Some (Err "bounded runtime with Accelerate Category is not found on the target dataset"))
      else
        boundedRuntime ← deref boundedRuntime;
        settings ← runtimeSettings log databackup boundedRuntime ip rpcPort;
        deriveFromSettings log databackup nodeName settings
  end.

(** lines 291-345: the status written once the backup pod is terminal.
    [reason] and [message] are those of the branch taken. *)
Definition finishDataBackup (log : string) (databackup : DataBackup.t) (backupPod : Pod.t)
    (phase : Phase) (condType : ConditionType) (reason message failure success : string)
  : M (Result.t * option error) :=
  let databackupToUpdate := DataBackup.withPhase databackup phase in
  let conditions := PodStatus.Conditions (Pod.Status backupPod) in
  finishTime ←
    (if negb (Nat.eqb (length conditions) 0) then
       first ← index conditions 0;
       mret (PodCondition.LastTransitionTime first)
     else
       (* fail to get successTime, use current time as default *)
       Now);
  let databackupToUpdate :=
    DataBackup.withDuration databackupToUpdate
      (utils.CalculateDuration (DataBackup.CreationTimestamp databackupToUpdate) finishTime) in
  probe ← Now;
  let databackupToUpdate :=
    DataBackup.withConditions databackupToUpdate
      [{| Condition.Type_ := condType;
          Condition.Status := ConditionTrue;
          Condition.Reason := reason;
          Condition.Message := message;
          Condition.LastProbeTime := probe;
          Condition.LastTransitionTime := finishTime |}] in
  err ← client.Status_Update_DataBackup databackupToUpdate;
  match err with
  | Some e =>
      logError log e failure;;
      mret (utils.RequeueIfError err)
  | None =>
      logInfo log 1 success;;
      mret utils.RequeueImmediately
  end.

(** lines 210-245: the name of the master pod, and the error of the
    leader query when there was one *)
Definition masterPodName (log : string) (ctx : reconcileRequestContext.t)
  : M (string * option error) :=
  let targetDataset := reconcileRequestContext.Dataset ctx in
  let databackup := reconcileRequestContext.DataBackup ctx in
  let '(index, boundedRuntime) :=
    utils.GetRuntimeByCategory (DatasetStatus.Runtimes (Dataset.Status targetDataset))
      common.AccelerateCategory in
  (if index =? -1
   then logInfo log 0 "bounded runtime with Accelerate Category is not found on the target dataset"
   else mret tt);;
  boundedRuntime ← deref boundedRuntime;
  if Runtime.MasterReplicas boundedRuntime <=? 1 then
    mret (Dataset.Name targetDataset +:+ "-master-0", None)
  else if String.eqb (Runtime.Type_ boundedRuntime) common.AlluxioRuntime then
    operations.MasterPodName (Dataset.Name targetDataset +:+ "-master-0") "alluxio-master"
      (Dataset.Namespace targetDataset)
  else if String.eqb (Runtime.Type_ boundedRuntime) common.GooseFSRuntime then
    goosefs.MasterPodName (Dataset.Name targetDataset +:+ "-master-0") "goosefs-master"
      (Dataset.Namespace targetDataset)
  else
    logError log (Err "RuntimeNotSupported") "The runtime is not supported yet";;
    Eventf databackup EventTypeNormal common.RuntimeNotReady
      "Bounded accelerate runtime not supported";;
    mret ("", None).

(** lines 247-347: the reconciliation once the master pod is named *)
Definition reconcileWithMaster (log : string) (ctx : reconcileRequestContext.t)
    (podName : string) : M (Result.t * option error) :=
  let databackup := reconcileRequestContext.DataBackup ctx in
  let ns := reconcileRequestContext.Namespace ctx in
  '(masterPod, err) ← kubeclient.GetPodByName podName ns;
  match err with
  | Some e =>
      logError log e "Failed to get master";;
      mret (utils.RequeueIfError err)
  | None =>
  (* 2. create backup Pod if not exist *)
  let releaseName := utils.GetDataBackupReleaseName (DataBackup.Name databackup) in
  '(existed, err) ← helm.CheckRelease releaseName ns;
  match err with
  | Some e =>
      logError log e "failed to check if release exists";;
      mret (utils.RequeueIfError err)
  | None =>
  if negb existed then
    (* 2. install the helm chart if not exists and requeue *)
    logInfo log 0 "DataBackup helm chart not installed yet, will install";;
    '(valueFileName, err) ← generateDataBackupValueFile ctx masterPod;
    match err with
    | Some e =>
        logError log e "failed to generate databackup chart's value file";;
        mret (utils.RequeueIfError err)
    | None =>
        (* index of runtimeType in value filename is 2 *)
        let valueFileNameSplit := strings.Split valueFileName "-" in
        runtimeType ← index valueFileNameSplit (Z.of_nat (length valueFileNameSplit) - 3);
        let chartName :=
          utils.GetChartsDirectory +:+ "/" +:+ common.DatabackupChart +:+ "/" +:+ runtimeType in
        err ← helm.InstallRelease releaseName ns valueFileName chartName;
        match err with
        | Some e =>
            logError log e "failed to install databackup chart";;
            mret (utils.RequeueIfError err)
        | None =>
            logInfo log 0 "DataBackup helm chart successfully installed";;
            mret (utils.RequeueAfterInterval (20 * time.Second))
        end
    end
  else
    (* 3. Check running status of the DataBackup Pod *)
    let backupPodName := utils.GetDataBackupPodName (DataBackup.Name databackup) in
    '(backupPod, err) ← kubeclient.GetPodByName backupPodName ns;
    match err with
    | Some e =>
        logError log e "Failed to get databackup-pod";;
        mret (utils.RequeueIfError err)
    | None =>
        if kubeclient.IsSucceededPod backupPod then
          pod ← deref backupPod;
          finishDataBackup log databackup pod PhaseComplete Complete
            "BackupSuccessful" "Backup Pod exec successfully and finish"
            "the backup pod has completd, but failed to update the databackup"
            "Update phase of the databackup to Complete successfully"
        else if kubeclient.IsFailedPod backupPod then
          pod ← deref backupPod;
          finishDataBackup log databackup pod PhaseFailed Failed
            "BackupFailed" "Backup Pod exec failed and exit"
            "the backup pod has failed, but failed to update the databackup"
            "Update phase of the databackup to Failed successfully"
        else mret (utils.RequeueAfterInterval (20 * time.Second))
    end
  end end.

(** [reconcileExecutingDataBackup] (implement.go, lines 208-347) *)
Definition reconcileExecutingDataBackup (ctx : reconcileRequestContext.t)
  : M (Result.t * option error) :=
  let log := "reconcileExecutingDataBackup" in
  (* 1. get the master Pod *)
  '(podName, err) ← masterPodName log ctx;
  match err with
  | Some e =>
      logError log e "failed to get master pod name, will retry";;
      mret (utils.RequeueIfError err)
  | None => reconcileWithMaster log ctx podName
  end.

(** lines 128-150: the answer of step 2 of the Pending phase, whether
    the bound runtime is ready *)
Definition boundedRuntimeReady (ctx : reconcileRequestContext.t) (w : World) : bool :=
  let targetDataset := reconcileRequestContext.Dataset ctx in
  match (utils.GetRuntimeByCategory (DatasetStatus.Runtimes (Dataset.Status targetDataset))
           common.AccelerateCategory).2 with
  | Some runtime =>
      if String.eqb (Runtime.Type_ runtime) common.AlluxioRuntime then
        alluxioReady w (Dataset.Name targetDataset +:+ "-master-0") "alluxio-master"
          (Dataset.Namespace targetDataset)
      else if String.eqb (Runtime.Type_ runtime) common.GooseFSRuntime then
        goosefsReady w (Dataset.Name targetDataset +:+ "-master-0") "goosefs-master"
          (Dataset.Namespace targetDataset)
      else false
  | None => false
  end.

(** lines 187-188: the dataset submitted to take the lock *)
Definition datasetToUpdate (ctx : reconcileRequestContext.t) : Dataset.t :=
  let targetDataset := reconcileRequestContext.Dataset ctx in
  let databackup := reconcileRequestContext.DataBackup ctx in
  Dataset.withStatus targetDataset
    (DatasetStatus.withDataBackupRef (Dataset.Status targetDataset)
       (utils.GetDataBackupRef (DataBackup.Name databackup) (DataBackup.Namespace databackup))).

(** lines 189-194: the error the conditional write of the lock is refused
    with; none when it is accepted, and when the status read already
    names the request and nothing is written *)
Definition lockRefusal (ctx : reconcileRequestContext.t) (w : World) : option error :=
  if bool_decide (Dataset.Status (reconcileRequestContext.Dataset ctx)
                  = Dataset.Status (datasetToUpdate ctx))
  then None
  else client.refusesDataset w (datasetToUpdate ctx).

End Reconciler.

(** ** Observations *)

(** the outcome of a computation and the world it leaves *)
Definition outcome {A} (m : M A) (w : World) : Outcome A := (m w).1.
Definition after {A} (m : M A) (w : World) : World := (m w).2.

Definition isDatasetWrite (c : Call) : bool :=
  match c with client_Status_Update_Dataset _ => true | _ => false end.

Definition isLeaderQuery (c : Call) : bool :=
  match c with
  | alluxio_MasterPodName _ _ _ | goosefs_MasterPodName _ _ _ => true
  | _ => false
  end.

(** the calls of the lock release: reading the dataset, writing its status *)
Definition isLockStep (c : Call) : bool :=
  match c with
  | utils_GetDataset _ _ | client_Status_Update_Dataset _ => true
  | _ => false
  end.

(** the DataBackup statuses submitted among the calls [cs] *)
Fixpoint statusWrites (cs : list Call) : list DataBackup.t :=
  match cs with
  | [] => []
  | client_Status_Update_DataBackup b :: rest => b :: statusWrites rest
  | _ :: rest => statusWrites rest
  end.

(** A computation only adds to the trace, to the log and to the events,
    and every call it adds satisfies [P]. *)
Definition grows (P : Call -> bool) {A} (m : M A) : Prop :=
  forall w,
    (exists cs, trace (after m w) = trace w ++ cs /\ forallb P cs = true) /\
    (exists ls, logs (after m w) = logs w ++ ls) /\
    (exists es, events (after m w) = events w ++ es).

Definition notLeaderQuery (c : Call) : bool := negb (isLeaderQuery c).

(** the Dataset statuses submitted among the calls [cs] *)
Fixpoint datasetWrites (cs : list Call) : list Dataset.t :=
  match cs with
  | [] => []
  | client_Status_Update_Dataset d :: rest => d :: datasetWrites rest
  | _ :: rest => datasetWrites rest
  end.

Definition isInstall (c : Call) : bool :=
  match c with helm_InstallRelease _ _ _ _ => true | _ => false end.

Definition notInstall (c : Call) : bool := negb (isInstall c).

Definition isRequestUpdate (c : Call) : bool :=
  match c with client_Update_DataBackup _ => true | _ => false end.

(** the calls that only ask: reads of the store, of helm and of the
    runtimes *)
Definition isQuery (c : Call) : bool :=
  match c with
  | utils_GetDataset _ _ | client_Get_AlluxioRuntime _ _ | kubeclient_GetPodByName _ _
  | helm_CheckRelease _ _ | docker_GetWorkerImage _ _ _
  | alluxio_Ready _ _ _ | goosefs_Ready _ _ _
  | alluxio_MasterPodName _ _ _ | goosefs_MasterPodName _ _ _ => true
  | _ => false
  end.

(** The world without what the reconciler leaves behind: the cluster,
    the collaborators' answers and the clock, with the trace, the log and
    the events emptied. *)
Definition cluster (w : World) : World :=
  set_trace (fun _ => []) (set_logs (fun _ => []) (set_events (fun _ => []) w)).

(** A computation leaves the part [f] of the world as it found it. *)
Definition unchanged {B} (f : World -> B) {A} (m : M A) : Prop :=
  forall w, f (after m w) = f w.

(** Every result a computation returns satisfies [Q]. *)
Definition yields {A} (Q : A -> Prop) (m : M A) : Prop :=
  forall w a, outcome m w = Returned a -> Q a.

(** ** A concrete cluster

    Dataset default/hbase served by a single-master Alluxio runtime, and
    the requests default/backup1 and default/backup2 against it. *)
Module Scenario.

Definition constants : common.Constants :=
  {| common.AlluxioRuntime := "alluxio";
     common.GooseFSRuntime := "goosefs";
     common.AccelerateCategory := "Accelerate";
     common.PathScheme := "pvc://";
     common.VolumeScheme := "local://";
     common.AlluxioRuntimeImageEnv := "ALLUXIO_RUNTIME_IMAGE_ENV";
     common.GooseFSRuntimeImageEnv := "GOOSEFS_RUNTIME_IMAGE_ENV";
     common.DefaultAlluxioRuntimeImage := "registry.example.com/alluxio/alluxio:2.3.0";
     common.DefaultGooseFSRuntimeImage := "registry.example.com/goosefs/goosefs:v1.0.1";
     common.DefaultInitImageEnv := "DEFAULT_INIT_IMAGE_ENV";
     common.RuntimeNotReady := "RuntimeNotReady";
     common.Finalizer := "fluid-databackup-controller-finalizer";
     common.DatabackupChart := "fluid-databackup" |}.

(** the same constants with a default Alluxio image that has no tag *)
Definition constantsNoTag : common.Constants :=
  {| common.AlluxioRuntime := "alluxio";
     common.GooseFSRuntime := "goosefs";
     common.AccelerateCategory := "Accelerate";
     common.PathScheme := "pvc://";
     common.VolumeScheme := "local://";
     common.AlluxioRuntimeImageEnv := "ALLUXIO_RUNTIME_IMAGE_ENV";
     common.GooseFSRuntimeImageEnv := "GOOSEFS_RUNTIME_IMAGE_ENV";
     common.DefaultAlluxioRuntimeImage := "registry.example.com/alluxio/alluxio";
     common.DefaultGooseFSRuntimeImage := "registry.example.com/goosefs/goosefs:v1.0.1";
     common.DefaultInitImageEnv := "DEFAULT_INIT_IMAGE_ENV";
     common.RuntimeNotReady := "RuntimeNotReady";
     common.Finalizer := "fluid-databackup-controller-finalizer";
     common.DatabackupChart := "fluid-databackup" |}.

Definition helpers : utils.Helpers :=
  {| utils.GetDataBackupRef := fun name ns => ns +:+ "/" +:+ name;
     utils.GetDataBackupReleaseName := fun name => name +:+ "-charts";
     utils.GetDataBackupPodName := fun name => name +:+ "-pod";
     utils.GetAddressOfMaster := fun _ => ("node-1", "10.0.0.1", 19998);
     utils.ParseBackupRestorePath := fun path => ("claim", "/sub", None);
     utils.GetInitUserEnv := fun _ => "";
     utils.GetBackupUserDir := fun ns name => "/tmp/backupuser/" +:+ ns +:+ "/" +:+ name;
     utils.GetChartsDirectory := "/charts";
     utils.RuntimeNotFound := None |}.

Definition runtimeOf (type : string) (replicas : Z) : Runtime.t :=
  {| Runtime.Name := "hbase"; Runtime.Namespace := "default";
     Runtime.Category := "Accelerate"; Runtime.Type_ := type;
     Runtime.MasterReplicas := replicas |}.

Definition dataset (ref : string) (runtimes : list Runtime.t) : Dataset.t :=
  {| Dataset.ObjectMeta :=
       {| ObjectMeta.Name := "hbase"; ObjectMeta.Namespace := "default";
          ObjectMeta.ResourceVersion := 7; ObjectMeta.CreationTimestamp := 100;
          ObjectMeta.DeletionTimestamp := None; ObjectMeta.Finalizers := [] |};
     Dataset.Status :=
       {| DatasetStatus.DataBackupRef := ref; DatasetStatus.Runtimes := runtimes |} |}.

Definition request (name path : string) (phase : Phase) (deleted : option Time) : DataBackup.t :=
  {| DataBackup.ObjectMeta :=
       {| ObjectMeta.Name := name; ObjectMeta.Namespace := "default";
          ObjectMeta.ResourceVersion := 1; ObjectMeta.CreationTimestamp := 1000;
          ObjectMeta.DeletionTimestamp := deleted;
          ObjectMeta.Finalizers := ["fluid-databackup-controller-finalizer"] |};
     DataBackup.Spec :=
       {| DataBackupSpec.Dataset := "hbase"; DataBackupSpec.BackupPath := path;
          DataBackupSpec.RunAs := None |};
     DataBackup.Status :=
       {| DataBackupStatus.Phase := phase; DataBackupStatus.Duration := 0;
          DataBackupStatus.Conditions := [] |} |}.

Definition context (b : DataBackup.t) (d : Dataset.t) : reconcileRequestContext.t :=
  {| reconcileRequestContext.DataBackup := b;
     reconcileRequestContext.Dataset := d;
     reconcileRequestContext.Namespace := "default" |}.

Definition pod (name : string) (phase : PodPhase) (conditions : list Time) : Pod.t :=
  {| Pod.Name := name; Pod.Namespace := "default";
     Pod.Status :=
       {| PodStatus.Phase := phase;
          PodStatus.Conditions :=
            List.map (fun t => {| PodCondition.LastTransitionTime := t |}) conditions |} |}.

Definition noFault : Call -> option error := fun _ => None.

(** the request's own status cannot be written *)
Definition statusFault : Call -> option error := fun c =>
  match c with
  | client_Status_Update_DataBackup _ => Some (Err "connection refused")
  | _ => None
  end.

(** A world storing dataset [d], requests [bs] and pods [ps], with the
    releases [rs] installed, the failures [fl], a runtime that answers
    [ready] and names [leader] as its leading master, no image known for
    the workers and an empty environment.  The clock starts at 5000. *)
Definition world (d : Dataset.t) (bs : list DataBackup.t) (ps : list Pod.t)
    (rs : list string) (fl : Call -> option error) (ready : bool)
    (leader : string * option error) : World :=
  {| datasets := {[ ObjectMeta.key (Dataset.ObjectMeta d) := d ]};
     databackups :=
       list_to_map (List.map (fun b => (ObjectMeta.key (DataBackup.ObjectMeta b), b)) bs);
     alluxioRuntimes := ∅;
     pods := list_to_map (List.map (fun p => ((Pod.Namespace p, Pod.Name p), p)) ps);
     releases := list_to_set (List.map (fun r => ("default", r)) rs);
     files := ∅;
     faults := fl;
     alluxioReady := fun _ _ _ => ready;
     goosefsReady := fun _ _ _ => ready;
     alluxioMasterPodName := fun _ _ _ => leader;
     goosefsMasterPodName := fun _ _ _ => leader;
     workerImage := fun _ _ _ => ("", "");
     imageRepoFromEnv := fun _ => "";
     imageTagFromEnv := fun _ => "";
     parseInitImage := fun image tag policy _ => (image, tag, policy);
     getenv := fun _ => "";
     tempDir := "/tmp";
     tempFileName := fun dir pattern => dir +:+ "/" +:+ pattern +:+ "123456";
     yamlMarshal := fun _ => ("dataBackup: {}", None);
     clock := fun n => 5000 + Z.of_nat n;
     ticks := 0;
     trace := [];
     events := [];
     logs := [] |}.

Definition alluxio1 : list Runtime.t := [runtimeOf "alluxio" 1].
Definition R1 : DataBackup.t := request "backup1" "pvc://claim/sub" PhasePending None.
Definition R2 : DataBackup.t := request "backup2" "pvc://claim/sub" PhasePending None.
Definition Rbad : DataBackup.t := request "backup3" "s3://bucket/sub" PhasePending None.

(** R1 and R2 are Pending; the dataset is free, or held by R1. *)
Definition free : Dataset.t := dataset "" alluxio1.
Definition heldByR1 : Dataset.t := dataset "default/backup1" alluxio1.

Definition wFree : World := world free [R1; R2; Rbad] [] [] noFault true ("", None).
Definition wHeld : World := world heldByR1 [R1; R2] [] [] noFault true ("", None).
Definition wHeldStatusFault : World :=
  world heldByR1 [R1; R2] [] [] statusFault true ("", None).
Definition wFreeStatusFault : World :=
  world free [R1; R2] [] [] statusFault true ("", None).
Definition wNotReady : World := world free [R1; R2; Rbad] [] [] noFault false ("", None).

(** R1 is Executing, its release is installed and its pod has succeeded;
    the pod's first condition dates from 4000, the request from 1000. *)
Definition executing : DataBackup.t := request "backup1" "pvc://claim/sub" PhaseExecuting None.
Definition wSucceeded : World :=
  world heldByR1 [executing]
    [pod "hbase-master-0" PodRunning [200]; pod "backup1-pod" PodSucceeded [4000; 4500]]
    ["backup1-charts"] noFault true ("", None).

(** R1 is Executing and nothing is installed yet. *)
Definition wLaunch : World :=
  world heldByR1 [executing] [pod "hbase-master-0" PodRunning [200]] [] noFault true ("", None).

(** R1 is being deleted while it holds the lock. *)
Definition deleted : DataBackup.t :=
  request "backup1" "pvc://claim/sub" PhaseExecuting (Some 9000).
Definition wDeleted : World :=
  world heldByR1 [deleted] [] ["backup1-charts"] noFault true ("", None).

(** the dataset has no bound runtime; it is bound to a runtime of
    another type *)
Definition unbound : Dataset.t := dataset "default/backup1" [].
Definition jindo : Dataset.t := dataset "default/backup1" [runtimeOf "jindo" 1].
Definition wUnbound : World := world unbound [executing] [] [] noFault true ("", None).
Definition wJindo : World := world jindo [executing] [] [] noFault true ("", None).

(** the phase the store holds for a request *)
Definition storedPhase (w : World) (b : DataBackup.t) : option Phase :=
  (fun cur => DataBackupStatus.Phase (DataBackup.Status cur))
    <$> databackups w !! ObjectMeta.key (DataBackup.ObjectMeta b).


(** the lock the store holds for a dataset *)
Definition storedRef (w : World) (d : Dataset.t) : option string :=
  (fun cur => DatasetStatus.DataBackupRef (Dataset.Status cur))
    <$> datasets w !! ObjectMeta.key (Dataset.ObjectMeta d).

(** the dataset as the store holds it once R1 has taken the lock *)
Definition lockedByR1 : Dataset.t :=
  {| Dataset.ObjectMeta :=
       {| ObjectMeta.Name := "hbase"; ObjectMeta.Namespace := "default";
          ObjectMeta.ResourceVersion := 8; ObjectMeta.CreationTimestamp := 100;
          ObjectMeta.DeletionTimestamp := None; ObjectMeta.Finalizers := [] |};
     Dataset.Status :=
       {| DatasetStatus.DataBackupRef := "default/backup1";
          DatasetStatus.Runtimes := alluxio1 |} |}.

(** R1 is Executing, its release is installed and its pod still runs. *)
Definition wRunning : World :=
  world heldByR1 [executing]
    [pod "hbase-master-0" PodRunning [200]; pod "backup1-pod" PodRunning [3000]]
    ["backup1-charts"] noFault true ("", None).

(** the master pod cannot be looked up *)
Definition masterFault : Call -> option error := fun c =>
  match c with
  | kubeclient_GetPodByName "hbase-master-0" _ => Some (Err "connection refused")
  | _ => None
  end.
Definition wMasterFault : World :=
  world heldByR1 [executing] [] ["backup1-charts"] masterFault true ("", None).

(** a request that runs as a user without a UID *)
Definition asNobody : DataBackup.t :=
  {| DataBackup.ObjectMeta := DataBackup.ObjectMeta executing;
     DataBackup.Spec :=
       {| DataBackupSpec.Dataset := "hbase"; DataBackupSpec.BackupPath := "pvc://claim/sub";
          DataBackupSpec.RunAs := Some {| User.UID := None; User.GID := Some 1000 |} |};
     DataBackup.Status := DataBackup.Status executing |}.

End Scenario.

(** ** Properties *)

(** Runs a computation symbolically: the monad and the collaborators are
    unfolded, the changes to the world stay a chain of setters, read
    through by the fields. *)
Ltac exec :=
  lazy beta iota zeta delta
    [outcome after mbind M_bind mret M_ret Now logInfo logError Eventf called modify gets panic
     deref index
     client.Status_Update_DataBackup client.Status_Update_Dataset client.Update_DataBackup
     client.refusesDataset client.refusesStatus client.refusesUpdate
     client.Get_AlluxioRuntime client.GetDataset kubeclient.GetPodByName
     helm.DeleteReleaseIfExists helm.CheckRelease helm.InstallRelease
     operations.Ready operations.MasterPodName goosefs.Ready goosefs.MasterPodName
     docker.GetWorkerImage docker.GetImageRepoFromEnv docker.GetImageTagFromEnv
     docker.ParseInitImage os.Getenv os.TempDir ioutil.TempFile ioutil.WriteFile yaml.Marshal];
  cbn [fst snd negb datasets databackups alluxioRuntimes pods releases files faults alluxioReady
     goosefsReady alluxioMasterPodName goosefsMasterPodName workerImage imageRepoFromEnv
     imageTagFromEnv parseInitImage getenv tempDir tempFileName yamlMarshal clock ticks trace
     events logs
     set_datasets set_databackups set_releases set_files set_ticks set_trace set_events set_logs].

(** Case analysis on an innermost scrutinee of the goal. *)
Ltac case_inner :=
  match goal with
  | |- context [match ?x with _ => _ end] =>
      lazymatch x with
      | context [match _ with _ => _ end] => fail
      | _ => destruct x eqn:?
      end
  end.

(** Every path of a computation. *)
Ltac branches := repeat (first [ progress exec | case_inner ]).

(** The elements of an explicit list. *)
Ltac elems H :=
  repeat match type of H with
    | _ ∈ [] => apply elem_of_nil in H; destruct H
    | _ ∈ _ :: _ => apply elem_of_cons in H; destruct H as [->|H]
    end.

(** Closes a goal [exists cs, trace w' = trace w ++ cs /\ P cs] once the
    trace of [w'] has been computed. *)
Ltac trace_suffix :=
  eexists; split;
  [ rewrite <- ?app_assoc; try reflexivity; symmetry; apply app_nil_r | ].

Example Split_image : strings.Split "alluxio/alluxio:2.3.0" ":" = ["alluxio/alluxio"; "2.3.0"].
Proof. reflexivity. Qed.

Example Split_no_colon : strings.Split "alluxio" ":" = ["alluxio"].
Proof. reflexivity. Qed.

Example Split_empty : strings.Split "" ":" = [""].
Proof. reflexivity. Qed.

Example Split_dashes : strings.Split "ns-a--b" "-" = ["ns"; "a"; ""; "b"].
Proof. reflexivity. Qed.

Example Split_long_sep : strings.Split "a::b:c::" "::" = ["a"; "b:c"; ""].
Proof. reflexivity. Qed.

Example Itoa_port : strconv.Itoa 19998 = "19998".
Proof. reflexivity. Qed.

Lemma length_zero_iff (s : string) : Nat.eqb (String.length s) 0 = true <-> s = "".
Proof. destruct s; simpl; split; intros; congruence. Qed.

Lemma verdict_None fault stored submitted :
  client.verdict fault stored submitted = None ->
  fault = None /\ stored = Some submitted.
Proof.
  unfold client.verdict. destruct fault; [discriminate|].
  destruct stored; [|discriminate]. case_decide; [|discriminate].
  intros _; subst; auto.
Qed.

Section Pending.
Context `{!common.Constants, !utils.Helpers}.

Lemma conflicting_iff ctx :
  conflicting ctx = true <->
  DatasetStatus.DataBackupRef (Dataset.Status (reconcileRequestContext.Dataset ctx)) <> "" /\
  DatasetStatus.DataBackupRef (Dataset.Status (reconcileRequestContext.Dataset ctx))
  <> utils.GetDataBackupRef (DataBackup.Name (reconcileRequestContext.DataBackup ctx))
       (DataBackup.Namespace (reconcileRequestContext.DataBackup ctx)).
Proof.
  unfold conflicting.
  rewrite andb_true_iff, !negb_true_iff, String.eqb_neq.
  rewrite <- not_true_iff_false, length_zero_iff. tauto.
Qed.

(** C1, as amended.  A Pending request conflicts exactly when the
    dataset's DataBackupRef is non-empty and is not the request's own
    reference.  A conflicting request makes one call, the update of its
    status to Phase = Failed with the single condition of reason
    "conflictDataBackupRef", and the dataset is left as it was; when the
    store accepts the update the stored status is that one and the
    reconciler requeues immediately, when it refuses it the error is
    returned and the stored request is unchanged.  A request that does
    not conflict only ever submits the Executing phase or the
    PathNotSupported failure. *)
Theorem pending_conflict (ctx : reconcileRequestContext.t) (w : World) :
  let databackup := reconcileRequestContext.DataBackup ctx in
  let ref := DatasetStatus.DataBackupRef (Dataset.Status (reconcileRequestContext.Dataset ctx)) in
  let mine := utils.GetDataBackupRef (DataBackup.Name databackup) (DataBackup.Namespace databackup) in
  let w' := after (reconcilePendingDataBackup ctx) w in
  (conflicting ctx = true <-> ref <> "" /\ ref <> mine) /\
  (conflicting ctx = true ->
     exists b c,
       trace w' = trace w ++ [client_Status_Update_DataBackup b] /\
       datasets w' = datasets w /\
       DataBackup.ObjectMeta b = DataBackup.ObjectMeta databackup /\
       DataBackupStatus.Phase (DataBackup.Status b) = PhaseFailed /\
       DataBackupStatus.Conditions (DataBackup.Status b) = [c] /\
       Condition.Type_ c = Failed /\
       Condition.Reason c = "conflictDataBackupRef" /\
       match client.refusesStatus w b with
       | None =>
           outcome (reconcilePendingDataBackup ctx) w = Returned utils.RequeueImmediately /\
           exists cur,
             databackups w' !! ObjectMeta.key (DataBackup.ObjectMeta databackup) = Some cur /\
             DataBackup.Status cur = DataBackup.Status b
       | Some e =>
           outcome (reconcilePendingDataBackup ctx) w
             = Returned (utils.RequeueIfError (Some e)) /\
           databackups w' = databackups w
       end) /\
  (conflicting ctx = false ->
     exists cs,
       trace w' = trace w ++ cs /\
       forall b, b ∈ statusWrites cs ->
         DataBackupStatus.Phase (DataBackup.Status b) = PhaseExecuting \/
         (DataBackupStatus.Phase (DataBackup.Status b) = PhaseFailed /\
          exists c, DataBackupStatus.Conditions (DataBackup.Status b) = [c] /\
                    Condition.Reason c = "PathNotSupported")).
Proof.
  intros databackup ref mine w'. split; [apply conflicting_iff|]. split.
  - intros Hc. subst w'. unfold reconcilePendingDataBackup. rewrite Hc.
    exists (DataBackup.withPhase
              (DataBackup.withConditions databackup
                 [failedCondition "conflictDataBackupRef"
                    "Found other DataBackup that is in Executing phase"
                    (clock w (ticks w)) (clock w (S (ticks w)))])
              PhaseFailed).
    eexists. exec.
    destruct (client.verdict _ _ _) as [e|] eqn:Hv; cbn.
    + split_and!; reflexivity.
    + apply verdict_None in Hv as [_ Hs].
      apply fmap_Some in Hs as (cur & Hcur & _).
      split_and!; try reflexivity.
      eexists. rewrite lookup_alter_eq.
      cbn [DataBackup.ObjectMeta DataBackup.withPhase DataBackup.withConditions
           DataBackup.withStatus] in Hcur |- *.
      subst databackup. rewrite Hcur. split; reflexivity.
  - intros Hc. subst w'. unfold reconcilePendingDataBackup. rewrite Hc.
    destruct (utils.GetRuntimeByCategory _ _) as [idx rt].
    branches; trace_suffix; simpl; intros b Hb; elems Hb;
      first [ left; reflexivity
            | right; split; [reflexivity | eexists; split; reflexivity] ].
Qed.

Lemma stored_after_accept (b : DataBackup.t) (k : string * string) (store : gmap (string * string) DataBackup.t)
    fault rv :
  client.verdict fault
    ((fun cur => ObjectMeta.ResourceVersion (DataBackup.ObjectMeta cur)) <$> store !! k) rv
  = None ->
  exists cur,
    alter (client.storeStatus b) k store !! k = Some cur /\
    DataBackup.Status cur = DataBackup.Status b.
Proof.
  intros Hv. apply verdict_None in Hv as [_ Hs].
  apply fmap_Some in Hs as (cur & Hcur & _).
  eexists. rewrite lookup_alter_eq, Hcur. split; reflexivity.
Qed.


(** C3, as amended.  For a Pending request that does not conflict, with
    the bound runtime ready and a supported path: when the conditional
    write of the dataset's DataBackupRef is refused, no status of the
    request is submitted, the stored requests and datasets are unchanged
    and the reconciler returns requeue-after 20 seconds; when it is
    accepted, or not needed, the one status submitted is the request
    with Phase = Executing; accepted, the stored phase is Executing and
    the reconciler requeues immediately; refused, the error is returned
    and the stored requests are unchanged. *)
Theorem pending_lock_acquisition (ctx : reconcileRequestContext.t) (w : World) :
  conflicting ctx = false ->
  boundedRuntimeReady ctx w = true ->
  pathNotSupported ctx = false ->
  let databackup := reconcileRequestContext.DataBackup ctx in
  let executing := DataBackup.withPhase databackup PhaseExecuting in
  let w' := after (reconcilePendingDataBackup ctx) w in
  match lockRefusal ctx w with
  | Some _ =>
      outcome (reconcilePendingDataBackup ctx) w
        = Returned (utils.RequeueAfterInterval (20 * time.Second)) /\
      (20 * time.Second = 20000000000) /\
      databackups w' = databackups w /\
      datasets w' = datasets w /\
      (exists cs, trace w' = trace w ++ cs /\ statusWrites cs = [])
  | None =>
      (exists cs, trace w' = trace w ++ cs /\ statusWrites cs = [executing]) /\
      match client.refusesStatus w executing with
      | None =>
          outcome (reconcilePendingDataBackup ctx) w = Returned utils.RequeueImmediately /\
          exists cur,
            databackups w' !! ObjectMeta.key (DataBackup.ObjectMeta databackup) = Some cur /\
            DataBackupStatus.Phase (DataBackup.Status cur) = PhaseExecuting
      | Some e =>
          outcome (reconcilePendingDataBackup ctx) w
            = Returned (utils.RequeueIfError (Some e)) /\
          databackups w' = databackups w
      end
  end.
Proof.
  intros Hc Hr Hp databackup executing w'. subst w' executing databackup.
  unfold reconcilePendingDataBackup, boundedRuntimeReady, lockRefusal, datasetToUpdate in *.
  rewrite Hc, Hp.
  destruct (utils.GetRuntimeByCategory _ _) as [idx rt]. cbn [snd] in Hr.
  destruct rt as [rt|]; [|discriminate].
  branches; try discriminate.
  all: try (rewrite Hr in *; discriminate).
  all: split_and!; try reflexivity; try (trace_suffix; reflexivity).
  all: cbn [DataBackup.ObjectMeta DataBackup.withPhase DataBackup.withConditions
            DataBackup.withStatus] in *.
  all: match goal with
       | Hv : client.verdict _ _ _ = None
         |- exists _, alter (client.storeStatus ?b) ?k ?m !! _ = _ /\ _ =>
           destruct (stored_after_accept b k m _ _ Hv) as (cur & Hcur & Hst);
           exists cur; split; [exact Hcur | rewrite Hst; reflexivity]
       end.
Qed.

Lemma stored_dataset_after_accept (d : Dataset.t) (k : string * string)
    (store : gmap (string * string) Dataset.t) fault rv :
  client.verdict fault
    ((fun cur => ObjectMeta.ResourceVersion (Dataset.ObjectMeta cur)) <$> store !! k) rv
  = None ->
  exists cur,
    alter (client.storeDatasetStatus d) k store !! k = Some cur /\
    Dataset.Status cur = Dataset.Status d.
Proof.
  intros Hv. apply verdict_None in Hv as [_ Hs].
  apply fmap_Some in Hs as (cur & Hcur & _).
  eexists. rewrite lookup_alter_eq, Hcur. split; reflexivity.
Qed.

End Pending.

(** *** Calls, log lines and events are only added *)

Section Growth.
Context (P : Call -> bool).

Lemma grows_ret {A} (a : A) : grows P (mret a).
Proof. intros w. split_and!; exists []; rewrite app_nil_r; auto. Qed.

Lemma grows_panic {A} msg : grows P (@panic A msg).
Proof. intros w. split_and!; exists []; rewrite app_nil_r; auto. Qed.

Lemma grows_gets {A} (f : World -> A) : grows P (gets f).
Proof. intros w. split_and!; exists []; rewrite app_nil_r; auto. Qed.

Lemma grows_bind {A B} (m : M A) (f : A -> M B) :
  grows P m -> (forall a, grows P (f a)) -> grows P (m ≫= f).
Proof.
  intros Hm Hf w. specialize (Hm w).
  unfold after, mbind, M_bind in *.
  destruct (m w) as [[a|msg] w1]; cbn [snd] in *; cbv beta iota; [|exact Hm].
  specialize (Hf a w1). unfold after in Hf.
  destruct (f a w1) as [o w2]; cbn [snd] in *.
  destruct Hf as ((cs' & -> & Hcs') & (ls' & ->) & (es' & ->)).
  destruct Hm as ((cs & -> & Hcs) & (ls & ->) & (es & ->)).
  split_and!.
  - exists (cs ++ cs'). rewrite forallb_app, Hcs, Hcs', <- app_assoc. auto.
  - exists (ls ++ ls'). rewrite <- app_assoc. reflexivity.
  - exists (es ++ es'). rewrite <- app_assoc. reflexivity.
Qed.

Lemma grows_called c : P c = true -> grows P (called c).
Proof.
  intros Hc w. split_and!.
  - exists [c]. split; [reflexivity | cbn; rewrite Hc; reflexivity].
  - exists []. cbn. rewrite app_nil_r. reflexivity.
  - exists []. cbn. rewrite app_nil_r. reflexivity.
Qed.

Lemma grows_logInfo logger v msg : grows P (logInfo logger v msg).
Proof.
  intros w. split_and!.
  - exists []. split; [cbn; rewrite app_nil_r|]; reflexivity.
  - eexists. reflexivity.
  - exists []. cbn. rewrite app_nil_r. reflexivity.
Qed.

Lemma grows_logError logger e msg : grows P (logError logger e msg).
Proof.
  intros w. split_and!.
  - exists []. split; [cbn; rewrite app_nil_r|]; reflexivity.
  - eexists. reflexivity.
  - exists []. cbn. rewrite app_nil_r. reflexivity.
Qed.

Lemma grows_Eventf b ty reason msg : grows P (Eventf b ty reason msg).
Proof.
  intros w. split_and!.
  - exists []. split; [cbn; rewrite app_nil_r|]; reflexivity.
  - exists []. cbn. rewrite app_nil_r. reflexivity.
  - eexists. reflexivity.
Qed.

Lemma grows_modify (f : World -> World) :
  (forall w, trace (f w) = trace w /\ logs (f w) = logs w /\ events (f w) = events w) ->
  grows P (modify f).
Proof.
  intros Hf w. destruct (Hf w) as (Ht & Hl & He).
  split_and!; exists []; cbn; rewrite app_nil_r; auto.
Qed.

End Growth.

Ltac grows_step :=
  first
    [ apply grows_bind; [ | intros ? ]
    | apply grows_ret
    | apply grows_panic
    | apply grows_gets
    | apply grows_logInfo
    | apply grows_logError
    | apply grows_Eventf
    | apply grows_called; reflexivity
    | apply grows_modify; intros ?; split_and!; reflexivity
    | match goal with
      | |- grows _ (match ?x with _ => _ end) => destruct x
      end ].

Ltac grows_tac :=
  unfold Now, deref, index,
    client.Status_Update_DataBackup, client.Status_Update_Dataset, client.Update_DataBackup,
    client.Get_AlluxioRuntime, client.GetDataset, kubeclient.GetPodByName,
    helm.DeleteReleaseIfExists, helm.CheckRelease, helm.InstallRelease,
    operations.Ready, goosefs.Ready,
    docker.GetWorkerImage, docker.GetImageRepoFromEnv, docker.GetImageTagFromEnv,
    docker.ParseInitImage, os.Getenv, os.TempDir, ioutil.TempFile, ioutil.WriteFile,
    yaml.Marshal;
  repeat grows_step.

Section ExecutingGrowth.
Context `{!common.Constants, !utils.Helpers}.

Lemma generate_grows ctx masterPod :
  grows notLeaderQuery (generateDataBackupValueFile ctx masterPod).
Proof.
  unfold generateDataBackupValueFile, deriveFromSettings, runtimeSettings, resolveImageName,
    resolveImageTag, writeValueFile.
  grows_tac.
Qed.

Lemma finish_grows log databackup pod phase ty reason message failure success :
  grows notLeaderQuery
    (finishDataBackup log databackup pod phase ty reason message failure success).
Proof. unfold finishDataBackup. grows_tac. Qed.

Lemma withMaster_grows log ctx podName :
  grows notLeaderQuery (reconcileWithMaster log ctx podName).
Proof.
  unfold reconcileWithMaster.
  (unfold Now, deref, index,
  client.Status_Update_DataBackup, client.Status_Update_Dataset, client.Update_DataBackup,
  client.Get_AlluxioRuntime, client.GetDataset, kubeclient.GetPodByName,
  helm.DeleteReleaseIfExists, helm.CheckRelease, helm.InstallRelease;
  repeat first [ apply generate_grows | apply finish_grows | grows_step ]).
Qed.
End ExecutingGrowth.

Lemma after_called_bind {A B} c (X : M A) (K : A -> M B) w :
  after ((called c ;; X) ≫= K) w = after (X ≫= K) (set_trace (fun t => t ++ [c]) w).
Proof. reflexivity. Qed.

Section Executing.
Context `{!common.Constants, !utils.Helpers}.

Lemma withMaster_first_call log ctx podName w :
  exists rest,
    trace (after (reconcileWithMaster log ctx podName) w)
    = trace w ++ kubeclient_GetPodByName podName (reconcileRequestContext.Namespace ctx) :: rest
    /\ forallb notLeaderQuery rest = true.
Proof.
  unfold reconcileWithMaster, kubeclient.GetPodByName.
  rewrite after_called_bind.
  match goal with
  | |- context [after ?m (set_trace _ _)] =>
      assert (Hg : grows notLeaderQuery m)
  end.
  { unfold Now, deref, index, kubeclient.GetPodByName, helm.CheckRelease, helm.InstallRelease.
    repeat first [ apply generate_grows | apply finish_grows | grows_step ]. }
  match goal with
  | |- context [after ?m ?w1] => destruct (Hg w1) as ((cs & Hcs & HP) & _)
  end.
  rewrite Hcs. cbn [trace set_trace]. exists cs.
  split; [rewrite <- app_assoc; reflexivity | exact HP].
Qed.

(** C7.  In the Executing phase, for the bound runtime found by
    category: when it reports at most one master replica, the first
    call made is the lookup of the pod "<dataset name>-master-0" and no
    leader query is made at all; when it reports more than one, the
    runtime of its type is asked for the leader, whose pod is then the
    one looked up, and an error of that query is returned for a requeue
    with nothing else done. *)
Theorem master_pod_name (ctx : reconcileRequestContext.t) (w : World) (runtime : Runtime.t) :
  let target := reconcileRequestContext.Dataset ctx in
  let ns := reconcileRequestContext.Namespace ctx in
  let single := Dataset.Name target +:+ "-master-0" in
  let w' := after (reconcileExecutingDataBackup ctx) w in
  (utils.GetRuntimeByCategory (DatasetStatus.Runtimes (Dataset.Status target))
     common.AccelerateCategory).2 = Some runtime ->
  (Runtime.MasterReplicas runtime <= 1 ->
     exists rest,
       trace w' = trace w ++ kubeclient_GetPodByName single ns :: rest /\
       forallb notLeaderQuery rest = true) /\
  (1 < Runtime.MasterReplicas runtime ->
     (Runtime.Type_ runtime = common.AlluxioRuntime ->
        match alluxioMasterPodName w single "alluxio-master" (Dataset.Namespace target) with
        | (leader, None) =>
            exists rest,
              trace w' = trace w
                ++ alluxio_MasterPodName single "alluxio-master" (Dataset.Namespace target)
                :: kubeclient_GetPodByName leader ns :: rest /\
              forallb notLeaderQuery rest = true
        | (_, Some e) =>
            trace w' = trace w
              ++ [alluxio_MasterPodName single "alluxio-master" (Dataset.Namespace target)] /\
            outcome (reconcileExecutingDataBackup ctx) w
              = Returned (utils.RequeueIfError (Some e))
        end) /\
     (Runtime.Type_ runtime <> common.AlluxioRuntime ->
      Runtime.Type_ runtime = common.GooseFSRuntime ->
        match goosefsMasterPodName w single "goosefs-master" (Dataset.Namespace target) with
        | (leader, None) =>
            exists rest,
              trace w' = trace w
                ++ goosefs_MasterPodName single "goosefs-master" (Dataset.Namespace target)
                :: kubeclient_GetPodByName leader ns :: rest /\
              forallb notLeaderQuery rest = true
        | (_, Some e) =>
            trace w' = trace w
              ++ [goosefs_MasterPodName single "goosefs-master" (Dataset.Namespace target)] /\
            outcome (reconcileExecutingDataBackup ctx) w
              = Returned (utils.RequeueIfError (Some e))
        end)).
Proof.
  intros target ns single w' Hrt. subst w' single ns target.
  unfold reconcileExecutingDataBackup, masterPodName.
  destruct (utils.GetRuntimeByCategory _ _) as [idx rt]. cbn [snd] in Hrt. subst rt.
  split.
  - intros Hle. apply Z.leb_le in Hle.
    destruct (idx =? -1); exec; rewrite Hle; exec.
    all: match goal with
         | |- context [snd (reconcileWithMaster ?l ?c ?p ?w1)] =>
             destruct (withMaster_first_call l c p w1) as (rest & Hrest & HP);
             unfold after in Hrest; cbn [snd] in Hrest; rewrite Hrest
         end.
    all: cbn [trace set_logs]; exists rest; split; [reflexivity | exact HP].
  - intros Hlt. apply Z.leb_gt in Hlt. split.
    + intros Hty. apply String.eqb_eq in Hty.
      destruct (idx =? -1); exec; rewrite Hlt, Hty; exec.
      all: destruct (alluxioMasterPodName w _ _ _) as [leader [e|]]; exec.
      all: try (split; reflexivity).
      all: match goal with
         | |- context [snd (reconcileWithMaster ?l ?c ?p ?w1)] =>
             destruct (withMaster_first_call l c p w1) as (rest & Hrest & HP);
             unfold after in Hrest; cbn [snd] in Hrest; rewrite Hrest
         end.
      all: cbn [trace set_logs set_trace]; exists rest; split;
        [rewrite <- app_assoc; reflexivity | exact HP].
    + intros Hna Hty. apply String.eqb_neq in Hna. apply String.eqb_eq in Hty.
      destruct (idx =? -1); exec; rewrite Hlt, Hna, Hty; exec.
      all: destruct (goosefsMasterPodName w _ _ _) as [leader [e|]]; exec.
      all: try (split; reflexivity).
      all: match goal with
         | |- context [snd (reconcileWithMaster ?l ?c ?p ?w1)] =>
             destruct (withMaster_first_call l c p w1) as (rest & Hrest & HP);
             unfold after in Hrest; cbn [snd] in Hrest; rewrite Hrest
         end.
      all: cbn [trace set_logs set_trace]; exists rest; split;
        [rewrite <- app_assoc; reflexivity | exact HP].
Qed.

Lemma masterPodName_frame log ctx w :
  let w1 := after (masterPodName log ctx) w in
  faults w1 = faults w /\ pods w1 = pods w /\ releases w1 = releases w /\
  databackups w1 = databackups w /\ clock w1 = clock w /\ ticks w1 = ticks w /\
  exists cs, trace w1 = trace w ++ cs /\ statusWrites cs = [].
Proof.
  unfold masterPodName. destruct (utils.GetRuntimeByCategory _ _) as [idx rt].
  branches; split_and!; try reflexivity; trace_suffix; reflexivity.
Qed.

Lemma executing_eq ctx w podName w1 :
  masterPodName "reconcileExecutingDataBackup" ctx w = (Returned (podName, None), w1) ->
  reconcileExecutingDataBackup ctx w
  = reconcileWithMaster "reconcileExecutingDataBackup" ctx podName w1.
Proof.
  intros E. unfold reconcileExecutingDataBackup, mbind, M_bind. rewrite E. reflexivity.
Qed.

Lemma statusWrites_app cs1 cs2 :
  statusWrites (cs1 ++ cs2) = statusWrites cs1 ++ statusWrites cs2.
Proof.
  induction cs1 as [|c cs1 IH]; [reflexivity|].
  destruct c; cbn; rewrite IH; reflexivity.
Qed.

(** C5.  When the release exists and the backup pod has succeeded or
    failed, the reconciler submits one status, whose Duration is the
    span from the request's creation timestamp to the LastTransitionTime
    of the pod's first status condition, or to the current time when the
    pod has no status condition; it is non-negative when the creation
    time is not after that time.  The phase is Complete or Failed with
    one condition carrying the same time. *)
Theorem terminal_duration (ctx : reconcileRequestContext.t) (w : World)
    (podName : string) (pod : Pod.t) :
  let databackup := reconcileRequestContext.DataBackup ctx in
  let ns := reconcileRequestContext.Namespace ctx in
  let releaseName := utils.GetDataBackupReleaseName (DataBackup.Name databackup) in
  let backupPodName := utils.GetDataBackupPodName (DataBackup.Name databackup) in
  let w' := after (reconcileExecutingDataBackup ctx) w in
  let finish :=
    match PodStatus.Conditions (Pod.Status pod) with
    | first :: _ => PodCondition.LastTransitionTime first
    | [] => clock w (ticks w)
    end in
  outcome (masterPodName "reconcileExecutingDataBackup" ctx) w = Returned (podName, None) ->
  faults w (kubeclient_GetPodByName podName ns) = None ->
  faults w (helm_CheckRelease releaseName ns) = None ->
  (ns, releaseName) ∈ releases w ->
  faults w (kubeclient_GetPodByName backupPodName ns) = None ->
  pods w !! (ns, backupPodName) = Some pod ->
  PodStatus.Phase (Pod.Status pod) = PodSucceeded \/
  PodStatus.Phase (Pod.Status pod) = PodFailed ->
  exists b c cs,
    trace w' = trace w ++ cs /\ statusWrites cs = [b] /\
    DataBackup.ObjectMeta b = DataBackup.ObjectMeta databackup /\
    DataBackupStatus.Duration (DataBackup.Status b)
      = finish - DataBackup.CreationTimestamp databackup /\
    (DataBackup.CreationTimestamp databackup <= finish ->
       0 <= DataBackupStatus.Duration (DataBackup.Status b)) /\
    DataBackupStatus.Phase (DataBackup.Status b)
      = (if bool_decide (PodStatus.Phase (Pod.Status pod) = PodSucceeded)
         then PhaseComplete else PhaseFailed) /\
    DataBackupStatus.Conditions (DataBackup.Status b) = [c] /\
    Condition.LastTransitionTime c = finish /\
    match client.refusesStatus w b with
    | None =>
        outcome (reconcileExecutingDataBackup ctx) w = Returned utils.RequeueImmediately /\
        exists cur,
          databackups w' !! ObjectMeta.key (DataBackup.ObjectMeta databackup) = Some cur /\
          DataBackup.Status cur = DataBackup.Status b
    | Some e =>
        outcome (reconcileExecutingDataBackup ctx) w
          = Returned (utils.RequeueIfError (Some e)) /\
        databackups w' = databackups w
    end.
Proof.
  intros databackup ns releaseName backupPodName w' finish Hm Hf1 Hf2 Hrel Hf3 Hpod Hph.
  subst w' finish backupPodName releaseName ns databackup.
  apply (bool_decide_eq_true_2 _) in Hrel.
  assert (Hterm :
    kubeclient.IsSucceededPod (Some pod)
    = bool_decide (PodStatus.Phase (Pod.Status pod) = PodSucceeded) /\
    (kubeclient.IsSucceededPod (Some pod) = false ->
     kubeclient.IsFailedPod (Some pod) = true)).
  { unfold kubeclient.IsSucceededPod, kubeclient.IsFailedPod.
    split; [reflexivity|]. destruct Hph as [-> | ->]; [discriminate | reflexivity]. }
  destruct Hterm as [Hsucc Hfail]. rewrite <- Hsucc. clear Hph Hsucc.
  destruct (masterPodName_frame "reconcileExecutingDataBackup" ctx w)
    as (Efa & Epo & Ere & Edb & Ecl & Eti & cs0 & Etr & Hcs0).
  unfold outcome, after in *.
  destruct (masterPodName "reconcileExecutingDataBackup" ctx w) as [o w1] eqn:E.
  cbn [fst snd] in *. subst o.
  rewrite (executing_eq _ _ _ _ E).
  unfold reconcileWithMaster, finishDataBackup.
  destruct (kubeclient.IsSucceededPod (Some pod)) eqn:Hs;
    [clear Hfail | specialize (Hfail eq_refl)].
  all: destruct (PodStatus.Conditions (Pod.Status pod)) as [|first conds] eqn:Hconds.
  all: repeat first
         [ progress exec
         | rewrite Efa | rewrite Epo | rewrite Ere | rewrite Edb | rewrite Ecl | rewrite Eti
         | rewrite Etr
         | rewrite Hf1 | rewrite Hf2 | rewrite Hrel | rewrite Hf3 | rewrite Hpod
         | rewrite Hs | rewrite Hfail | rewrite Hconds
         | progress cbn [length Nat.eqb negb Z.ltb Z.compare]
         | match goal with
           | |- context [(?x :: ?l) !! Z.to_nat 0] =>
               change ((x :: l) !! Z.to_nat 0) with (Some x)
           end ].
  all: match goal with
       | |- context [client_Status_Update_DataBackup ?b] => exists b
       end; eexists; eexists;
       destruct (client.verdict _ _ _) eqn:Hv; exec;
       rewrite ?Edb, ?Etr;
       (split_and!;
         [ rewrite <- ?app_assoc; reflexivity | | reflexivity | reflexivity | | reflexivity
         | reflexivity | reflexivity | .. ]).
  all: try reflexivity.
  all: try (rewrite statusWrites_app, Hcs0; reflexivity).
  all: try (intros Hle; unfold utils.CalculateDuration, DataBackup.CreationTimestamp in *;
            cbn [DataBackupStatus.Duration DataBackup.Status DataBackup.withConditions
                 DataBackup.withDuration DataBackup.withStatus DataBackup.withPhase
                 DataBackup.ObjectMeta] in *; lia).
  all: cbn [DataBackup.ObjectMeta DataBackup.withPhase DataBackup.withConditions
            DataBackup.withDuration DataBackup.withStatus] in *.
  all: match goal with
       | Hv : client.verdict _ _ _ = None
         |- exists _, alter (client.storeStatus ?b) ?k ?m !! _ = _ /\ _ =>
           exact (stored_after_accept b k m _ _ Hv)
       end.
Qed.
End Executing.

(** *** Deletion *)

Lemma RemoveString_gone (slice : list string) (s : string) :
  ~ In s (utils.RemoveString slice s).
Proof.
  unfold utils.RemoveString. rewrite filter_In. intros [_ Hne].
  rewrite String.eqb_refl in Hne. discriminate.
Qed.

Section Deletion.
Context `{!common.Constants, !utils.Helpers}.

Lemma updated_after_accept (b : DataBackup.t) (k : string * string)
    (store : gmap (string * string) DataBackup.t) fault rv :
  client.verdict fault
    ((fun cur => ObjectMeta.ResourceVersion (DataBackup.ObjectMeta cur)) <$> store !! k) rv
  = None ->
  exists cur,
    alter (client.storeUpdate b) k store !! k = Some cur /\
    ObjectMeta.Finalizers (DataBackup.ObjectMeta cur)
    = ObjectMeta.Finalizers (DataBackup.ObjectMeta b).
Proof.
  intros Hv. apply verdict_None in Hv as [_ Hs].
  apply fmap_Some in Hs as (cur & Hcur & _).
  eexists. rewrite lookup_alter_eq, Hcur. split; reflexivity.
Qed.

(** C6.  For a request marked for deletion the three steps run in
    order.  When deleting the release fails, its error is returned and
    nothing else is called; otherwise the lock release follows, making
    only its own calls, and when it fails its error is returned with no
    further call; in both cases the stored requests, finalizers
    included, are unchanged.  Only then is the request updated without
    the finalizer: refused, the error is returned and the stored
    requests are unchanged; accepted, the result is no-requeue and the
    stored request no longer carries the finalizer. *)
Theorem deletion_steps (ctx : reconcileRequestContext.t) (w : World) :
  let databackup := reconcileRequestContext.DataBackup ctx in
  let meta := DataBackup.ObjectMeta databackup in
  let ns := DataBackup.Namespace databackup in
  let releaseName := utils.GetDataBackupReleaseName (DataBackup.Name databackup) in
  let stripped :=
    DataBackup.withObjectMeta databackup
      (ObjectMeta.withFinalizers meta
         (utils.RemoveString (ObjectMeta.Finalizers meta) common.Finalizer)) in
  let w1 := after (helm.DeleteReleaseIfExists releaseName ns) w in
  let w2 := after (releaseLockOnTargetDataset ctx) w1 in
  let w' := after (ReconcileDataBackupDeletion ctx) w in
  utils.HasDeletionTimestamp meta = true ->
  match faults w (helm_DeleteReleaseIfExists releaseName ns) with
  | Some e =>
      outcome (ReconcileDataBackupDeletion ctx) w = Returned (utils.RequeueIfError (Some e)) /\
      trace w' = trace w ++ [helm_DeleteReleaseIfExists releaseName ns] /\
      datasets w' = datasets w /\ databackups w' = databackups w
  | None =>
      (exists cs, trace w2 = trace w ++ helm_DeleteReleaseIfExists releaseName ns :: cs /\
                  forallb isLockStep cs = true) /\
      match outcome (releaseLockOnTargetDataset ctx) w1 with
      | Returned (Some e) =>
          outcome (ReconcileDataBackupDeletion ctx) w
            = Returned (utils.RequeueIfError (Some e)) /\
          trace w' = trace w2 /\ databackups w' = databackups w
      | Returned None =>
          trace w' = trace w2 ++ [client_Update_DataBackup stripped] /\
          match client.refusesUpdate w stripped with
          | Some e =>
              outcome (ReconcileDataBackupDeletion ctx) w
                = Returned (utils.RequeueIfError (Some e)) /\
              databackups w' = databackups w
          | None =>
              outcome (ReconcileDataBackupDeletion ctx) w = Returned utils.NoRequeue /\
              exists cur,
                databackups w' !! ObjectMeta.key meta = Some cur /\
                ObjectMeta.Finalizers (DataBackup.ObjectMeta cur)
                = utils.RemoveString (ObjectMeta.Finalizers meta) common.Finalizer /\
                ~ In common.Finalizer (ObjectMeta.Finalizers (DataBackup.ObjectMeta cur))
          end
      | Panicked _ => False
      end
  end.
Proof.
  intros databackup meta ns releaseName stripped w1 w2 w' Hdel.
  subst w' w2 w1 stripped releaseName ns meta databackup.
  unfold ReconcileDataBackupDeletion, releaseLockOnTargetDataset. rewrite Hdel.
  branches.
  all: try (split_and!; reflexivity).
  all: split; [eexists; split; [rewrite <- ?app_assoc; reflexivity | reflexivity] |].
  all: try (split_and!; reflexivity).
  all: split_and!; try reflexivity.
  all: cbn [DataBackup.ObjectMeta DataBackup.withObjectMeta ObjectMeta.key
            ObjectMeta.withFinalizers ObjectMeta.Namespace ObjectMeta.Name] in *.
  all: match goal with
       | Hv : client.verdict _ _ _ = None
         |- exists _, alter (client.storeUpdate ?b) ?k ?m !! _ = _ /\ _ =>
           destruct (updated_after_accept b k m _ _ Hv) as (cur & Hcur & Hfin);
           exists cur; split; [exact Hcur | rewrite Hfin; split;
                                 [reflexivity | apply RemoveString_gone]]
       end.
Qed.
End Deletion.

(** *** The value file *)

Lemma append_empty_r (s : string) : s +:+ "" = s.
Proof.
  induction s as [|c s IH]; [reflexivity|].
  change (String c (s +:+ "") = String c s). rewrite IH. reflexivity.
Qed.

Lemma append_assoc (s1 s2 s3 : string) : (s1 +:+ s2) +:+ s3 = s1 +:+ (s2 +:+ s3).
Proof.
  induction s1 as [|c s1 IH]; [reflexivity|].
  change (String c ((s1 +:+ s2) +:+ s3) = String c (s1 +:+ (s2 +:+ s3))).
  rewrite IH. reflexivity.
Qed.

Lemma splitGo_nonempty (sep s cur : string) (skip : nat) :
  (1 <= length (strings.splitGo sep skip cur s))%nat.
Proof.
  revert skip cur. induction s as [|c s IH]; intros skip cur; cbn [strings.splitGo].
  - cbn. lia.
  - destruct skip; [|apply IH].
    destruct (String.prefix sep (String c s)); [cbn; lia | apply IH].
Qed.

Lemma splitGo_without_colon (s cur : string) :
  strings.Contains s ":" = false -> strings.splitGo ":" 0 cur s = [cur +:+ s].
Proof.
  revert cur. induction s as [|c s IH]; intros cur Hc; cbn [strings.splitGo strings.Contains] in *.
  - rewrite append_empty_r. reflexivity.
  - apply orb_false_iff in Hc as [Hp Hc]. rewrite Hp.
    rewrite (IH _ Hc), append_assoc. reflexivity.
Qed.

Lemma splitGo_with_colon (s cur : string) :
  strings.Contains s ":" = true -> (2 <= length (strings.splitGo ":" 0 cur s))%nat.
Proof.
  revert cur. induction s as [|c s IH]; intros cur Hc; cbn [strings.splitGo strings.Contains] in *.
  - discriminate.
  - destruct (String.prefix ":" (String c s)) eqn:Hp.
    + cbn [length]. pose proof (splitGo_nonempty ":" s "" (String.length ":" - 1)). lia.
    + cbn [orb] in Hc. apply IH, Hc.
Qed.

Lemma Split_without_colon (s : string) :
  strings.Contains s ":" = false -> strings.Split s ":" = [s].
Proof. intros Hc. unfold strings.Split. apply (splitGo_without_colon s "" Hc). Qed.

Lemma Split_colon_nonempty (s : string) : (1 <= length (strings.Split s ":"))%nat.
Proof. apply splitGo_nonempty. Qed.

Lemma Split_tag_in_bounds (s : string) :
  is_Some (strings.Split s ":" !! 1%nat) <-> strings.Contains s ":" = true.
Proof.
  rewrite lookup_lt_is_Some. split.
  - intros Hlen. destruct (strings.Contains s ":") eqn:Hc; [reflexivity|].
    rewrite (Split_without_colon s Hc) in Hlen. cbn in Hlen. lia.
  - intros Hc. pose proof (splitGo_with_colon s "" Hc). unfold strings.Split. lia.
Qed.

Section ValueFile.
Context `{!common.Constants, !utils.Helpers}.

Lemma resolveImageName_default log runtimeType imageName w :
  exists name,
    resolveImageName log runtimeType imageName w = (Returned (inr name), w).
Proof.
  unfold resolveImageName.
  destruct (Nat.eqb (String.length imageName) 0); [|eexists; reflexivity].
  destruct (imageDefaults runtimeType) as [imageEnv defaultImage].
  exec. destruct (Nat.eqb (String.length (imageRepoFromEnv w imageEnv)) 0);
    [|eexists; reflexivity].
  pose proof (Split_colon_nonempty defaultImage) as Hlen.
  destruct (strings.Split defaultImage ":") as [|name rest] eqn:Hs; [cbn in Hlen; lia|].
  exec. cbn. eexists; reflexivity.
Qed.

Lemma resolveImageTag_without_tag log runtimeType imageEnv defaultImage w :
  imageDefaults runtimeType = (imageEnv, defaultImage) ->
  imageTagFromEnv w imageEnv = "" ->
  strings.Contains defaultImage ":" = false ->
  resolveImageTag log runtimeType "" w = (Panicked "index out of range", w).
Proof.
  intros Hd Henv Hc.
  unfold resolveImageTag. cbn [String.length Nat.eqb]. rewrite Hd. exec. rewrite Henv.
  cbn [String.length Nat.eqb]. rewrite (Split_without_colon _ Hc). reflexivity.
Qed.

Lemma image_fallback_returns_no_error log runtimeType image w v e :
  outcome (resolveImageName log runtimeType image) w <> Returned (inl (v, Some e)) /\
  outcome (resolveImageTag log runtimeType image) w <> Returned (inl (v, Some e)).
Proof.
  split.
  - destruct (resolveImageName_default log runtimeType image w) as [name E].
    unfold outcome. rewrite E. discriminate.
  - unfold resolveImageTag. branches; discriminate.
Qed.

Lemma imageDefaults_alluxio :
  imageDefaults common.AlluxioRuntime
  = (common.AlluxioRuntimeImageEnv, common.DefaultAlluxioRuntimeImage).
Proof. unfold imageDefaults. rewrite String.eqb_refl. reflexivity. Qed.

Lemma generate_without_tag ctx masterPod w d idx runtime :
  let databackup := reconcileRequestContext.DataBackup ctx in
  let name := DataBackupSpec.Dataset (DataBackup.Spec databackup) in
  let ns := DataBackup.Namespace databackup in
  faults w (utils_GetDataset name ns) = None ->
  datasets w !! (ns, name) = Some d ->
  utils.GetRuntimeByCategory (DatasetStatus.Runtimes (Dataset.Status d))
    common.AccelerateCategory = (idx, Some runtime) ->
  idx <> -1 ->
  Runtime.Type_ runtime = common.AlluxioRuntime ->
  (workerImage w name common.AlluxioRuntime ns).2 = "" ->
  imageTagFromEnv w common.AlluxioRuntimeImageEnv = "" ->
  strings.Contains common.DefaultAlluxioRuntimeImage ":" = false ->
  outcome (generateDataBackupValueFile ctx masterPod) w = Panicked "index out of range".
Proof.
  intros databackup name ns Hf Hd Hrt Hidx Hty Himg Henv Hc.
  subst ns name databackup.
  apply Z.eqb_neq in Hidx. apply String.eqb_eq in Hty.
  unfold generateDataBackupValueFile, runtimeSettings, deriveFromSettings.
  destruct (utils.GetAddressOfMaster masterPod) as [[nodeName ip] rpcPort].
  exec. rewrite Hf. exec. rewrite Hd. exec. rewrite Hrt, Hidx. exec. rewrite Hty. exec.
  destruct (workerImage w _ _ _) as [imageName imageTag]. cbn [snd] in Himg. subst imageTag.
  exec.
  match goal with
  | |- context [resolveImageName ?l ?r ?n ?w1] =>
      destruct (resolveImageName_default l r n w1) as [name' E]; rewrite E
  end.
  exec.
  match goal with
  | |- context [resolveImageTag ?l ?r "" ?w1] =>
      rewrite (resolveImageTag_without_tag l r _ _ w1 imageDefaults_alluxio Henv Hc)
  end.
  reflexivity.
Qed.

(** C10.  Splitting never yields an empty slice, so the guard
    [len(defaultImageInfo) < 1] never fires; index 1 of the split default
    image is in bounds exactly when the string contains a colon; and for
    a default image without a colon the split is the single string and
    the tag fallback of lines 404-422 indexes out of range, which is also
    how [generateDataBackupValueFile] ends for an Alluxio runtime whose
    worker image tag and environment override are both empty. *)
Theorem default_image_tag_out_of_range (defaultImage : string) :
  (length (strings.Split defaultImage ":") <? 1)%nat = false /\
  (is_Some (strings.Split defaultImage ":" !! 1%nat)
   <-> strings.Contains defaultImage ":" = true) /\
  (strings.Contains defaultImage ":" = false ->
     strings.Split defaultImage ":" = [defaultImage] /\
     (forall log runtimeType imageEnv w,
        imageDefaults runtimeType = (imageEnv, defaultImage) ->
        imageTagFromEnv w imageEnv = "" ->
        resolveImageTag log runtimeType "" w = (Panicked "index out of range", w)) /\
     (forall ctx masterPod w d idx runtime,
        let databackup := reconcileRequestContext.DataBackup ctx in
        let name := DataBackupSpec.Dataset (DataBackup.Spec databackup) in
        let ns := DataBackup.Namespace databackup in
        common.DefaultAlluxioRuntimeImage = defaultImage ->
        faults w (utils_GetDataset name ns) = None ->
        datasets w !! (ns, name) = Some d ->
        utils.GetRuntimeByCategory (DatasetStatus.Runtimes (Dataset.Status d))
          common.AccelerateCategory = (idx, Some runtime) ->
        idx <> -1 ->
        Runtime.Type_ runtime = common.AlluxioRuntime ->
        (workerImage w name common.AlluxioRuntime ns).2 = "" ->
        imageTagFromEnv w common.AlluxioRuntimeImageEnv = "" ->
        outcome (generateDataBackupValueFile ctx masterPod) w
        = Panicked "index out of range")).
Proof.
  split_and!.
  - apply Nat.ltb_ge, Split_colon_nonempty.
  - apply Split_tag_in_bounds.
  - intros Hc. split_and!.
    + apply Split_without_colon, Hc.
    + intros log runtimeType imageEnv w Hd Henv.
      apply (resolveImageTag_without_tag _ _ _ _ _ Hd Henv Hc).
    + intros ctx masterPod w d idx runtime databackup name ns Hdef Hf Hd Hrt Hidx Hty Hi He.
      subst defaultImage.
      apply (generate_without_tag ctx masterPod w d idx runtime Hf Hd Hrt Hidx Hty Hi He Hc).
Qed.

Lemma findRuntime_none runtimes category i :
  (forall r, In r runtimes -> Runtime.Category r <> category) ->
  utils.findRuntime runtimes category i = None.
Proof.
  revert i. induction runtimes as [|r rest IH]; intros i Hall; [reflexivity|].
  cbn [utils.findRuntime].
  destruct (String.eqb (Runtime.Category r) category) eqn:E.
  - apply String.eqb_eq in E. exfalso. apply (Hall r); [left; reflexivity | exact E].
  - apply IH. intros r' Hin. apply Hall. right. exact Hin.
Qed.

Lemma deriveFromSettings_grows log databackup nodeName settings :
  grows notLeaderQuery (deriveFromSettings log databackup nodeName settings).
Proof.
  unfold deriveFromSettings, resolveImageName, resolveImageTag, writeValueFile.
  grows_tac.
Qed.

(** C9, as amended.  When no runtime bound to the dataset has the
    accelerate category, [generateDataBackupValueFile] returns the error
    "bounded runtime with Accelerate Category is not found on the target
    dataset", and neither logs nor emits an event.  When the bound
    runtime is of a type other than Alluxio and GooseFS, it logs the
    RuntimeNotSupported error, emits the normal event "Bounded accelerate
    runtime not supported" and goes on to derive the image with an empty
    image name, image tag, java options and runtime type; the log line
    and the event are in the world it leaves. *)
Theorem config_runtime_binding (ctx : reconcileRequestContext.t) (masterPod : option Pod.t)
    (w : World) (d : Dataset.t) :
  let log := "generateDataBackupValueFile" in
  let databackup := reconcileRequestContext.DataBackup ctx in
  let name := DataBackupSpec.Dataset (DataBackup.Spec databackup) in
  let ns := DataBackup.Namespace databackup in
  let runtimes := DatasetStatus.Runtimes (Dataset.Status d) in
  let w' := after (generateDataBackupValueFile ctx masterPod) w in
  let line := LogError log (Err "RuntimeNotSupported") "The runtime is not supported yet" in
  let event :=
    {| evObject := ObjectMeta.key (DataBackup.ObjectMeta databackup);
       evType := EventTypeNormal; evReason := common.RuntimeNotReady;
       evMessage := "Bounded accelerate runtime not supported" |} in
  faults w (utils_GetDataset name ns) = None ->
  datasets w !! (ns, name) = Some d ->
  ((forall r, In r runtimes -> Runtime.Category r <> common.AccelerateCategory) ->
     outcome (generateDataBackupValueFile ctx masterPod) w
     = Returned ("", Some (Err "bounded runtime with Accelerate Category is not found on the target dataset")) /\
     logs w' = logs w /\ events w' = events w) /\
  (forall idx runtime,
     utils.GetRuntimeByCategory runtimes common.AccelerateCategory = (idx, Some runtime) ->
     idx <> -1 ->
     Runtime.Type_ runtime <> common.AlluxioRuntime ->
     Runtime.Type_ runtime <> common.GooseFSRuntime ->
     generateDataBackupValueFile ctx masterPod w
     = deriveFromSettings log databackup (utils.GetAddressOfMaster masterPod).1.1
         ("", "", "", "")
         (set_events (fun l => l ++ [event])
            (set_logs (fun l => l ++ [line])
               (set_trace (fun t => t ++ [utils_GetDataset name ns]) w))) /\
     In line (logs w') /\ In event (events w')).
Proof.
  intros log databackup name ns runtimes w' line event Hf Hd.
  subst w' runtimes ns name databackup. split.
  - intros Hnone. unfold generateDataBackupValueFile, utils.GetRuntimeByCategory.
    destruct (utils.GetAddressOfMaster masterPod) as [[nodeName ip] rpcPort].
    exec. rewrite Hf. exec. rewrite Hd. exec.
    rewrite (findRuntime_none _ _ _ Hnone). exec.
    split_and!; reflexivity.
  - intros idx runtime Hrt Hidx Hna Hng.
    apply Z.eqb_neq in Hidx. apply String.eqb_neq in Hna, Hng.
    assert (Heq :
      generateDataBackupValueFile ctx masterPod w
      = deriveFromSettings log (reconcileRequestContext.DataBackup ctx)
          (utils.GetAddressOfMaster masterPod).1.1 ("", "", "", "")
          (set_events (fun l => l ++ [event])
             (set_logs (fun l => l ++ [line])
                (set_trace
                   (fun t => t ++
                      [utils_GetDataset
                         (DataBackupSpec.Dataset
                            (DataBackup.Spec (reconcileRequestContext.DataBackup ctx)))
                         (DataBackup.Namespace (reconcileRequestContext.DataBackup ctx))])
                   w)))).
    { unfold generateDataBackupValueFile, runtimeSettings.
      destruct (utils.GetAddressOfMaster masterPod) as [[nodeName ip] rpcPort].
      exec. rewrite Hf. exec. rewrite Hd. exec. rewrite Hrt, Hidx. exec.
      rewrite Hna, Hng. exec. reflexivity. }
    split; [exact Heq|].
    unfold after. rewrite Heq.
    match goal with
    | |- context [deriveFromSettings ?l ?b ?n ?s ?w1] =>
        destruct (deriveFromSettings_grows l b n s w1) as (_ & (ls & Hls) & (es & Hes))
    end.
    unfold after in Hls, Hes. rewrite Hls, Hes. cbn [logs events set_events set_logs set_trace].
    split; apply in_or_app; left; apply in_or_app; right; left; reflexivity.
Qed.

End ValueFile.

(** ** Further properties of the reconciler *)

(** *** Frames and results *)

Section Frames.
Context {B : Type} (f : World -> B).

Lemma unchanged_ret {A} (a : A) : unchanged f (mret a).
Proof. intros w. reflexivity. Qed.

Lemma unchanged_panic {A} msg : unchanged f (@panic A msg).
Proof. intros w. reflexivity. Qed.

Lemma unchanged_gets {A} (g : World -> A) : unchanged f (gets g).
Proof. intros w. reflexivity. Qed.

Lemma unchanged_modify (g : World -> World) :
  (forall w, f (g w) = f w) -> unchanged f (modify g).
Proof. intros Hg w. apply Hg. Qed.

Lemma unchanged_bind {A C} (m : M A) (k : A -> M C) :
  unchanged f m -> (forall a, unchanged f (k a)) -> unchanged f (m ≫= k).
Proof.
  intros Hm Hk w. specialize (Hm w). unfold after, mbind, M_bind in *.
  destruct (m w) as [[a|msg] w1]; cbn [snd] in *; [|exact Hm].
  rewrite <- Hm. apply (Hk a w1).
Qed.

End Frames.

Section Results.
Context {C : Type} (Q : C -> Prop).

Lemma yields_ret (a : C) : Q a -> yields Q (mret a).
Proof. intros Ha w a' E. injection E as <-. exact Ha. Qed.

Lemma yields_panic msg : yields Q (@panic C msg).
Proof. intros w a E. discriminate E. Qed.

Lemma yields_bind {A} (m : M A) (k : A -> M C) :
  (forall a, yields Q (k a)) -> yields Q (m ≫= k).
Proof.
  intros Hk w c. unfold outcome, mbind, M_bind.
  destruct (m w) as [[a|msg] w1]; [apply (Hk a w1) | discriminate].
Qed.

End Results.

Ltac unfold_calls :=
  unfold Now, deref, index, called, logInfo, logError, Eventf,
    client.Status_Update_DataBackup, client.Status_Update_Dataset, client.Update_DataBackup,
    client.Get_AlluxioRuntime, client.GetDataset, kubeclient.GetPodByName,
    helm.DeleteReleaseIfExists, helm.CheckRelease, helm.InstallRelease,
    operations.Ready, goosefs.Ready, operations.MasterPodName, goosefs.MasterPodName,
    docker.GetWorkerImage, docker.GetImageRepoFromEnv, docker.GetImageTagFromEnv,
    docker.ParseInitImage, os.Getenv, os.TempDir, ioutil.TempFile, ioutil.WriteFile,
    yaml.Marshal.

Ltac unchanged_tac :=
  unfold_calls;
  repeat first
    [ apply unchanged_bind; [ | intros ? ]
    | apply unchanged_ret
    | apply unchanged_panic
    | apply unchanged_gets
    | apply unchanged_modify; intros ?; reflexivity
    | match goal with
      | |- unchanged _ (match ?x with _ => _ end) => destruct x
      end ].

Ltac yields_tac :=
  repeat first
    [ apply yields_bind; intros ?
    | apply yields_panic
    | apply yields_ret
    | match goal with
      | |- yields _ (match ?x with _ => _ end) => destruct x
      end ].

Lemma no_dataset_write (cs : list Call) :
  forallb (fun c => negb (isDatasetWrite c)) cs = true -> datasetWrites cs = [].
Proof.
  induction cs as [|c cs IH]; [reflexivity|].
  cbn [forallb]. rewrite andb_true_iff. intros [Hc Hcs].
  destruct c; cbn in *; try discriminate; auto.
Qed.

Lemma query_is_no_install (cs : list Call) :
  forallb isQuery cs = true -> forallb notInstall cs = true.
Proof.
  induction cs as [|c cs IH]; [reflexivity|].
  cbn [forallb]. rewrite !andb_true_iff. intros [Hc Hcs].
  split; [destruct c; try discriminate; reflexivity | apply IH, Hcs].
Qed.

Lemma cluster_set_trace f w : cluster (set_trace f w) = cluster w.
Proof. reflexivity. Qed.

Lemma cluster_set_logs f w : cluster (set_logs f w) = cluster w.
Proof. reflexivity. Qed.

Lemma cluster_set_events f w : cluster (set_events f w) = cluster w.
Proof. reflexivity. Qed.

Lemma cluster_fields (w1 w : World) :
  cluster w1 = cluster w ->
  datasets w1 = datasets w /\ databackups w1 = databackups w /\
  alluxioRuntimes w1 = alluxioRuntimes w /\ pods w1 = pods w /\
  releases w1 = releases w /\ files w1 = files w /\ faults w1 = faults w /\
  yamlMarshal w1 = yamlMarshal w /\ tempDir w1 = tempDir w /\
  tempFileName w1 = tempFileName w /\ getenv w1 = getenv w.
Proof.
  intros E. split_and!.
  - exact (f_equal datasets E).
  - exact (f_equal databackups E).
  - exact (f_equal alluxioRuntimes E).
  - exact (f_equal pods E).
  - exact (f_equal releases E).
  - exact (f_equal files E).
  - exact (f_equal faults E).
  - exact (f_equal yamlMarshal E).
  - exact (f_equal tempDir E).
  - exact (f_equal tempFileName E).
  - exact (f_equal getenv E).
Qed.

Lemma lock_status_equal_iff (d : Dataset.t) (ref : string) :
  Dataset.Status d
  = Dataset.Status (Dataset.withStatus d (DatasetStatus.withDataBackupRef (Dataset.Status d) ref))
  <-> DatasetStatus.DataBackupRef (Dataset.Status d) = ref.
Proof.
  destruct d as [meta [ref0 runtimes]]. cbn. split.
  - intros Heq. injection Heq as ->. reflexivity.
  - intros ->. reflexivity.
Qed.

(** *** The Pending phase, further *)

Section PendingMore.
Context `{!common.Constants, !utils.Helpers}.

(** A Pending reconciliation that returns always asks to run again: the
    result is requeue-immediately, requeue-after 20 seconds, or an error
    beside the empty result, never a plain no-requeue.  An error is the one
    the store refused the request's status update with; a refused write of
    the dataset is not reported as an error. *)
Theorem pending_always_requeues (ctx : reconcileRequestContext.t) (w : World) (r : Result.t * option error) :
  outcome (reconcilePendingDataBackup ctx) w = Returned r ->
  r <> utils.NoRequeue /\
  (r = utils.RequeueImmediately \/
   r = utils.RequeueAfterInterval (20 * time.Second) \/
   exists e b,
     r = utils.RequeueIfError (Some e) /\
     client.refusesStatus w b = Some e /\
     exists cs, trace (after (reconcilePendingDataBackup ctx) w) = trace w ++ cs /\
                statusWrites cs = [b]).
Proof.
  unfold reconcilePendingDataBackup.
  destruct (utils.GetRuntimeByCategory _ _) as [idx rt].
  branches; intros Hr; try discriminate; injection Hr as <-.
  all: (split; [discriminate|]).
  all: first
    [ left; reflexivity
    | right; left; reflexivity
    | right; right; do 2 eexists; split; [reflexivity|]; split; [eassumption|];
      trace_suffix; reflexivity ].
Qed.

(** A Pending reconciliation writes the dataset at most once, and only to
    take the lock: the request does not conflict, the bound runtime is
    ready, the path is supported and the dataset read does not name the
    request yet; what is submitted is the dataset read with DataBackupRef
    set to the request's reference.  When the dataset read already names
    the request nothing is written (lines 187-194). *)
Theorem pending_lock_write_guard (ctx : reconcileRequestContext.t) (w : World) :
  let target := reconcileRequestContext.Dataset ctx in
  let databackup := reconcileRequestContext.DataBackup ctx in
  let mine := utils.GetDataBackupRef (DataBackup.Name databackup) (DataBackup.Namespace databackup) in
  exists cs,
    trace (after (reconcilePendingDataBackup ctx) w) = trace w ++ cs /\
    (datasetWrites cs = [] \/
     datasetWrites cs = [datasetToUpdate ctx] /\
     conflicting ctx = false /\
     boundedRuntimeReady ctx w = true /\
     pathNotSupported ctx = false /\
     DatasetStatus.DataBackupRef (Dataset.Status target) <> mine) /\
    (DatasetStatus.DataBackupRef (Dataset.Status target) = mine ->
     datasetWrites cs = [] /\ datasets (after (reconcilePendingDataBackup ctx) w) = datasets w).
Proof.
  intros target databackup mine. subst mine databackup target.
  unfold reconcilePendingDataBackup, boundedRuntimeReady, datasetToUpdate.
  destruct (utils.GetRuntimeByCategory _ _) as [idx rt]. cbn [snd].
  branches; trace_suffix.
  all: cbn [datasetWrites app].
  all: try (split; [left; reflexivity | intros _; split; reflexivity]).
  all: match goal with
       | Hd : negb (bool_decide _) = true |- _ =>
           apply negb_true_iff, bool_decide_eq_false in Hd;
           rewrite lock_status_equal_iff in Hd
       end.
  all: (split; [right; split_and!; try reflexivity; try assumption;
                apply negb_false_iff; assumption
               | intros Heq; contradiction ]).
Qed.

(** While the bound runtime is not ready a request that does not conflict
    is left alone: the result is requeue-after 20 seconds, the stored
    datasets and requests are unchanged and nothing is submitted.  For an
    Alluxio or GooseFS runtime the event "Bounded accelerate runtime not
    ready" is recorded; a runtime of another type is not probed at all,
    and the event "Bounded accelerate runtime not supported" comes first. *)
Theorem pending_waits_for_runtime (ctx : reconcileRequestContext.t) (w : World)
    (runtime : Runtime.t) :
  let databackup := reconcileRequestContext.DataBackup ctx in
  let target := reconcileRequestContext.Dataset ctx in
  let w' := after (reconcilePendingDataBackup ctx) w in
  let event := fun msg =>
    {| evObject := ObjectMeta.key (DataBackup.ObjectMeta databackup);
       evType := EventTypeNormal; evReason := common.RuntimeNotReady; evMessage := msg |} in
  conflicting ctx = false ->
  (utils.GetRuntimeByCategory (DatasetStatus.Runtimes (Dataset.Status target))
     common.AccelerateCategory).2 = Some runtime ->
  boundedRuntimeReady ctx w = false ->
  outcome (reconcilePendingDataBackup ctx) w
  = Returned (utils.RequeueAfterInterval (20 * time.Second)) /\
  datasets w' = datasets w /\ databackups w' = databackups w /\
  (exists cs, trace w' = trace w ++ cs /\ statusWrites cs = [] /\ datasetWrites cs = []) /\
  (Runtime.Type_ runtime = common.AlluxioRuntime \/
   Runtime.Type_ runtime = common.GooseFSRuntime ->
     events w' = events w ++ [event "Bounded accelerate runtime not ready"]) /\
  (Runtime.Type_ runtime <> common.AlluxioRuntime ->
   Runtime.Type_ runtime <> common.GooseFSRuntime ->
     trace w' = trace w /\
     events w' = events w ++ [event "Bounded accelerate runtime not supported";
                              event "Bounded accelerate runtime not ready"]).
Proof.
  intros databackup target w' event Hc Hrt Hr. subst w' event target databackup.
  unfold reconcilePendingDataBackup, boundedRuntimeReady in *. rewrite Hc.
  destruct (utils.GetRuntimeByCategory _ _) as [idx rt]. cbn [snd] in *. subst rt.
  destruct (String.eqb (Runtime.Type_ runtime) common.AlluxioRuntime) eqn:Ea;
    [|destruct (String.eqb (Runtime.Type_ runtime) common.GooseFSRuntime) eqn:Eg].
  all: destruct (idx =? -1); exec; rewrite ?Ea, ?Eg; exec; rewrite ?Hr; exec.
  all: split_and!; try reflexivity.
  all: try (trace_suffix; split; reflexivity).
  all: try (intros [Ha|Hg]).
  all: try (intros Ha Hg).
  all: try (rewrite <- ?app_assoc; reflexivity).
  all: try (apply String.eqb_neq in Ea; contradiction).
  all: try (apply String.eqb_neq in Eg; contradiction).
  all: try (apply String.eqb_eq in Ea; contradiction).
  all: try (apply String.eqb_eq in Eg; contradiction).
  all: try (split; [reflexivity | rewrite <- ?app_assoc; reflexivity]).
Qed.

Lemma pending_frame (ctx : reconcileRequestContext.t) (w : World) :
  let w' := after (reconcilePendingDataBackup ctx) w in
  faults w' = faults w /\ alluxioReady w' = alluxioReady w /\
  goosefsReady w' = goosefsReady w.
Proof.
  unfold reconcilePendingDataBackup.
  destruct (utils.GetRuntimeByCategory _ _) as [idx rt].
  branches; split_and!; reflexivity.
Qed.

Lemma pending_lock_taken (ctx : reconcileRequestContext.t) (w : World) :
  let target := reconcileRequestContext.Dataset ctx in
  let databackup := reconcileRequestContext.DataBackup ctx in
  let mine := utils.GetDataBackupRef (DataBackup.Name databackup) (DataBackup.Namespace databackup) in
  conflicting ctx = false ->
  boundedRuntimeReady ctx w = true ->
  pathNotSupported ctx = false ->
  DatasetStatus.DataBackupRef (Dataset.Status target) <> mine ->
  client.refusesDataset w (datasetToUpdate ctx) = None ->
  datasets (after (reconcilePendingDataBackup ctx) w)
  = alter (client.storeDatasetStatus (datasetToUpdate ctx))
      (ObjectMeta.key (Dataset.ObjectMeta target)) (datasets w).
Proof.
  intros target databackup mine Hc Hr Hp Hne Hacc. subst mine databackup target.
  rewrite <- lock_status_equal_iff in Hne.
  unfold reconcilePendingDataBackup, boundedRuntimeReady, client.refusesDataset,
    datasetToUpdate in *.
  rewrite Hc, Hp.
  destruct (utils.GetRuntimeByCategory _ _) as [idx rt]. cbn [snd] in Hr.
  destruct rt as [rt|]; [|discriminate].
  rewrite (bool_decide_eq_false_2 _ Hne).
  branches; try discriminate; try reflexivity.
  all: try (rewrite Hr in *; discriminate).
  all: congruence.
Qed.

Lemma pending_lock_refused (ctx : reconcileRequestContext.t) (w : World) (e : error) :
  conflicting ctx = false ->
  boundedRuntimeReady ctx w = true ->
  pathNotSupported ctx = false ->
  lockRefusal ctx w = Some e ->
  outcome (reconcilePendingDataBackup ctx) w
  = Returned (utils.RequeueAfterInterval (20 * time.Second)) /\
  datasets (after (reconcilePendingDataBackup ctx) w) = datasets w /\
  databackups (after (reconcilePendingDataBackup ctx) w) = databackups w.
Proof.
  intros Hc Hr Hp Hl.
  unfold lockRefusal in Hl.
  destruct (bool_decide _) eqn:Hbd in Hl; [discriminate|].
  unfold reconcilePendingDataBackup, boundedRuntimeReady, client.refusesDataset,
    datasetToUpdate in *.
  rewrite Hc, Hp.
  destruct (utils.GetRuntimeByCategory _ _) as [idx rt]. cbn [snd] in Hr.
  destruct rt as [rt|]; [|discriminate].
  repeat first [ progress exec | rewrite Hbd | rewrite Hl | rewrite Hr | case_inner ].
  all: try discriminate.
  all: split_and!; reflexivity.
Qed.

Lemma pending_conflict_fails (ctx : reconcileRequestContext.t) (w : World) :
  conflicting ctx = true ->
  datasets (after (reconcilePendingDataBackup ctx) w) = datasets w /\
  exists b cs,
    trace (after (reconcilePendingDataBackup ctx) w) = trace w ++ cs /\
    statusWrites cs = [b] /\ datasetWrites cs = [] /\
    DataBackup.ObjectMeta b = DataBackup.ObjectMeta (reconcileRequestContext.DataBackup ctx) /\
    DataBackupStatus.Phase (DataBackup.Status b) = PhaseFailed.
Proof.
  intros Hc. unfold reconcilePendingDataBackup. rewrite Hc.
  branches; (split; [reflexivity|]); do 2 eexists; split_and!;
    try reflexivity; rewrite <- ?app_assoc; reflexivity.
Qed.

Lemma pending_success_locks (ctx : reconcileRequestContext.t) (w : World) :
  let databackup := reconcileRequestContext.DataBackup ctx in
  let target := reconcileRequestContext.Dataset ctx in
  let mine := utils.GetDataBackupRef (DataBackup.Name databackup) (DataBackup.Namespace databackup) in
  let k := ObjectMeta.key (Dataset.ObjectMeta target) in
  let w' := after (reconcilePendingDataBackup ctx) w in
  (DatasetStatus.DataBackupRef (Dataset.Status target) = mine -> datasets w !! k = Some target) ->
  outcome (reconcilePendingDataBackup ctx) w = Returned utils.RequeueImmediately ->
  (exists cur,
     databackups w' !! ObjectMeta.key (DataBackup.ObjectMeta databackup) = Some cur /\
     DataBackupStatus.Phase (DataBackup.Status cur) = PhaseExecuting) ->
  exists d, datasets w' !! k = Some d /\ Dataset.Status d = Dataset.Status (datasetToUpdate ctx).
Proof.
  intros databackup target mine k w' Hfresh. subst w' k mine target databackup.
  unfold reconcilePendingDataBackup, datasetToUpdate in *.
  destruct (utils.GetRuntimeByCategory _ _) as [idx rt].
  branches; try discriminate; intros Ho Hex.
  all: try (unfold utils.RequeueImmediately, utils.RequeueAfterInterval,
              utils.RequeueIfError in Ho; congruence).
  all: cbn [DataBackup.ObjectMeta DataBackup.withPhase DataBackup.withConditions
            DataBackup.withStatus Dataset.ObjectMeta Dataset.withStatus Dataset.Status] in *.
  all: try match goal with
       | Hv : client.verdict _ _ _ = None,
         Hx : exists _, alter (client.storeStatus ?b) ?k ?m !! _ = _ /\ _ |- _ =>
           destruct (stored_after_accept b k m _ _ Hv) as (cur0 & Hcur0 & Hst0);
           destruct Hx as (cur & Hcur & Hph);
           rewrite Hcur0 in Hcur; injection Hcur as <-;
           rewrite Hst0 in Hph; discriminate Hph
       end.
  all: clear Hex Ho.
  all: first
    [ match goal with
      | Hv : client.verdict _ _ _ = None
        |- exists _, alter (client.storeDatasetStatus ?d) ?k ?m !! _ = _ /\ _ =>
          destruct (stored_dataset_after_accept d k m _ _ Hv) as (cur & Hcur & Hst);
          exists cur; split; [exact Hcur | rewrite Hst; reflexivity]
      end
    | match goal with
      | Hd : negb (bool_decide _) = false |- _ =>
          apply negb_false_iff, bool_decide_eq_true in Hd;
          apply lock_status_equal_iff in Hd;
          eexists; split; [apply Hfresh; exact Hd | ];
          apply lock_status_equal_iff; exact Hd
      end ].
Qed.

(** Only one request wins the lock.  Take a reconciliation that was
    handed the stored dataset whenever the dataset handed to it already
    named its request, and that has moved the request to Executing.  A
    request with another reference that reads the stored dataset
    afterwards conflicts: its reconciliation submits Phase = Failed for
    it and leaves the dataset, lock included, as it is. *)
Theorem winner_excludes_later_requests (ctx1 ctx2 : reconcileRequestContext.t) (w : World) :
  let b1 := reconcileRequestContext.DataBackup ctx1 in
  let b2 := reconcileRequestContext.DataBackup ctx2 in
  let target := reconcileRequestContext.Dataset ctx1 in
  let mine1 := utils.GetDataBackupRef (DataBackup.Name b1) (DataBackup.Namespace b1) in
  let mine2 := utils.GetDataBackupRef (DataBackup.Name b2) (DataBackup.Namespace b2) in
  let k := ObjectMeta.key (Dataset.ObjectMeta target) in
  let w1 := after (reconcilePendingDataBackup ctx1) w in
  let w2 := after (reconcilePendingDataBackup ctx2) w1 in
  mine1 <> "" -> mine2 <> mine1 ->
  (DatasetStatus.DataBackupRef (Dataset.Status target) = mine1 -> datasets w !! k = Some target) ->
  outcome (reconcilePendingDataBackup ctx1) w = Returned utils.RequeueImmediately ->
  (exists cur,
     databackups w1 !! ObjectMeta.key (DataBackup.ObjectMeta b1) = Some cur /\
     DataBackupStatus.Phase (DataBackup.Status cur) = PhaseExecuting) ->
  datasets w1 !! k = Some (reconcileRequestContext.Dataset ctx2) ->
  conflicting ctx2 = true /\
  datasets w2 = datasets w1 /\
  exists b cs,
    trace w2 = trace w1 ++ cs /\ statusWrites cs = [b] /\ datasetWrites cs = [] /\
    DataBackup.ObjectMeta b = DataBackup.ObjectMeta b2 /\
    DataBackupStatus.Phase (DataBackup.Status b) = PhaseFailed.
Proof.
  intros b1 b2 target mine1 mine2 k w1 w2 Hne1 Hne2 Hfresh Hout Hexe Hsnap.
  destruct (pending_success_locks ctx1 w Hfresh Hout Hexe) as (d & Hd & Hst).
  change (datasets w1 !! k = Some d) in Hd. rewrite Hsnap in Hd. injection Hd as <-.
  assert (Hc : conflicting ctx2 = true).
  { apply conflicting_iff. rewrite Hst. unfold datasetToUpdate. cbn.
    fold b1 mine1 b2 mine2. split; [exact Hne1 | congruence]. }
  split; [exact Hc|]. apply (pending_conflict_fails ctx2 w1 Hc).
Qed.

(** Two requests read the same free dataset.  After the first has taken the
    lock, the second, still holding its stale copy, has its write refused:
    it is requeued after 20 seconds with nothing stored, and the lock stays
    with the first. *)
Theorem stale_snapshot_loses_the_race (ctx1 ctx2 : reconcileRequestContext.t) (w : World) :
  let b1 := reconcileRequestContext.DataBackup ctx1 in
  let b2 := reconcileRequestContext.DataBackup ctx2 in
  let target := reconcileRequestContext.Dataset ctx1 in
  let mine1 := utils.GetDataBackupRef (DataBackup.Name b1) (DataBackup.Namespace b1) in
  let mine2 := utils.GetDataBackupRef (DataBackup.Name b2) (DataBackup.Namespace b2) in
  let k := ObjectMeta.key (Dataset.ObjectMeta target) in
  let w1 := after (reconcilePendingDataBackup ctx1) w in
  let w2 := after (reconcilePendingDataBackup ctx2) w1 in
  reconcileRequestContext.Dataset ctx2 = target ->
  DatasetStatus.DataBackupRef (Dataset.Status target) = "" ->
  mine1 <> "" -> mine2 <> "" ->
  boundedRuntimeReady ctx1 w = true ->
  pathNotSupported ctx1 = false -> pathNotSupported ctx2 = false ->
  client.refusesDataset w (datasetToUpdate ctx1) = None ->
  outcome (reconcilePendingDataBackup ctx2) w1
  = Returned (utils.RequeueAfterInterval (20 * time.Second)) /\
  datasets w2 = datasets w1 /\ databackups w2 = databackups w1 /\
  exists d, datasets w2 !! k = Some d /\
            DatasetStatus.DataBackupRef (Dataset.Status d) = mine1.
Proof.
  intros b1 b2 target mine1 mine2 k w1 w2 Hsame Hfree Hne1 Hne2 Hr Hp1 Hp2 Hacc.
  assert (Hc1 : conflicting ctx1 = false).
  { apply not_true_iff_false. rewrite conflicting_iff. fold target. tauto. }
  assert (Hc2 : conflicting ctx2 = false).
  { apply not_true_iff_false. rewrite conflicting_iff, Hsame. tauto. }
  assert (Hw1 : datasets w1
                = alter (client.storeDatasetStatus (datasetToUpdate ctx1)) k (datasets w)).
  { apply pending_lock_taken; try assumption. fold target b1 mine1. congruence. }
  destruct (pending_frame ctx1 w) as (Hfa & Hal & Hgo). fold w1 in Hfa, Hal, Hgo.
  assert (Hr2 : boundedRuntimeReady ctx2 w1 = true).
  { unfold boundedRuntimeReady in *. rewrite Hsame, Hal, Hgo. exact Hr. }
  pose proof Hacc as Hacc'. unfold client.refusesDataset in Hacc'.
  apply verdict_None in Hacc' as [_ Hs]. apply fmap_Some in Hs as (cur & Hcur & Hver).
  assert (Hk : ObjectMeta.key (Dataset.ObjectMeta (datasetToUpdate ctx1)) = k) by reflexivity.
  rewrite Hk in Hcur.
  assert (Hstored : datasets w1 !! k
                    = Some (client.storeDatasetStatus (datasetToUpdate ctx1) cur)).
  { rewrite Hw1, lookup_alter_eq, Hcur. reflexivity. }
  assert (Hl : exists e, lockRefusal ctx2 w1 = Some e).
  { unfold lockRefusal. rewrite bool_decide_eq_false_2.
    2:{ unfold datasetToUpdate. rewrite lock_status_equal_iff, Hsame. fold target b2 mine2.
        congruence. }
    unfold client.refusesDataset, client.verdict.
    destruct (faults w1 _) as [e|]; [exists e; reflexivity|].
    assert (Hk2 : ObjectMeta.key (Dataset.ObjectMeta (datasetToUpdate ctx2)) = k).
    { unfold datasetToUpdate. rewrite Hsame. reflexivity. }
    rewrite Hk2, Hstored. cbn [fmap option_fmap option_map].
    case_decide as Hv; [|eexists; reflexivity].
    exfalso. revert Hv. unfold datasetToUpdate. rewrite Hsame.
    cbn in Hver |- *. rewrite <- Hver. unfold target. lia. }
  destruct Hl as [e Hl].
  destruct (pending_lock_refused ctx2 w1 e Hc2 Hr2 Hp2 Hl) as (Ho & Hd & Hb).
  fold w2 in Hd, Hb. split_and!; try assumption.
  rewrite Hd, Hstored. eexists. split; [reflexivity|]. reflexivity.
Qed.

End PendingMore.

(** *** The value file, further *)

Lemma prefix_char (c x : ascii) (s : string) :
  String.prefix (String c "") (String x s) = true <-> c = x.
Proof.
  cbn. destruct (ascii_dec c x) as [->|Hne].
  - destruct s; tauto.
  - split; [discriminate | contradiction].
Qed.

Lemma splitGo_app (c : ascii) (p rest cur : string) :
  strings.splitGo (String c "") 0 cur (p +:+ String c rest)
  = strings.splitGo (String c "") 0 cur p ++ strings.splitGo (String c "") 0 "" rest.
Proof.
  revert cur. induction p as [|x p IH]; intros cur.
  - change ("" +:+ String c rest) with (String c rest). cbn [strings.splitGo].
    destruct (String.prefix (String c "") (String c rest)) eqn:E.
    + reflexivity.
    + exfalso. apply not_true_iff_false in E. apply E, prefix_char. reflexivity.
  - change (String x p +:+ String c rest) with (String x (p +:+ String c rest)).
    cbn [strings.splitGo].
    assert (E : String.prefix (String c "") (String x (p +:+ String c rest))
                = String.prefix (String c "") (String x p)).
    { cbn. destruct (ascii_dec c x); [|reflexivity].
      destruct (p +:+ String c rest), p; reflexivity. }
    rewrite E. destruct (String.prefix (String c "") (String x p)).
    + cbn [String.length Nat.sub]. rewrite IH. reflexivity.
    + apply IH.
Qed.

Lemma splitGo_without_sep (c : ascii) (s cur : string) :
  strings.Contains s (String c "") = false ->
  strings.splitGo (String c "") 0 cur s = [cur +:+ s].
Proof.
  revert cur. induction s as [|x s IH]; intros cur Hc; cbn [strings.splitGo strings.Contains] in *.
  - rewrite append_empty_r. reflexivity.
  - apply orb_false_iff in Hc as [Hp Hc]. rewrite Hp.
    rewrite (IH _ Hc), append_assoc. reflexivity.
Qed.

Lemma Contains_app_char (c : ascii) (a b : string) :
  strings.Contains (a +:+ b) (String c "")
  = strings.Contains a (String c "") || strings.Contains b (String c "").
Proof.
  induction a as [|x a IH].
  - change ("" +:+ b) with b. cbn. destruct b; reflexivity.
  - change (String x a +:+ b) with (String x (a +:+ b)).
    cbn [strings.Contains]. rewrite IH.
    assert (E : String.prefix (String c "") (String x (a +:+ b))
                = String.prefix (String c "") (String x a)).
    { cbn. destruct (ascii_dec c x); [|reflexivity]. destruct (a +:+ b), a; reflexivity. }
    rewrite E, orb_assoc. reflexivity.
Qed.

Lemma Split_first_piece (c : ascii) (a rest : string) :
  strings.Contains a (String c "") = false ->
  strings.Split (a +:+ String c rest) (String c "")
  = a :: strings.Split rest (String c "").
Proof.
  intros Ha. unfold strings.Split. rewrite splitGo_app, (splitGo_without_sep c a "" Ha).
  reflexivity.
Qed.

(** The runtime type written into the name of the value file (line 493) is
    read back by the install step (lines 270-271): for a file name that
    ends in "-<runtime type>-backuper-values.yaml" and the random suffix
    of the temporary file, with no dash in the runtime type nor in the
    suffix, the third piece from the end of the name split at dashes is
    the runtime type, whatever dashes the directory, the namespace and
    the name contain. *)
Theorem runtime_type_of_value_file (prefix runtimeType suffix : string) (w : World) :
  let valueFileName :=
    prefix +:+ "-" +:+ runtimeType +:+ "-backuper-values.yaml" +:+ suffix in
  let valueFileNameSplit := strings.Split valueFileName "-" in
  strings.Contains runtimeType "-" = false ->
  strings.Contains suffix "-" = false ->
  index valueFileNameSplit (Z.of_nat (length valueFileNameSplit) - 3) w
  = (Returned runtimeType, w).
Proof.
  intros valueFileName valueFileNameSplit Hrt Hsuf.
  assert (Hsplit : valueFileNameSplit
                   = strings.Split prefix "-"
                     ++ [runtimeType; "backuper"; "values.yaml" +:+ suffix]).
  { subst valueFileNameSplit valueFileName. unfold strings.Split.
    change ("-backuper-values.yaml" +:+ suffix)
      with (String "-" ("backuper" +:+ String "-" ("values.yaml" +:+ suffix))).
    change ("-" +:+ runtimeType +:+ ?x) with (String "-" (runtimeType +:+ x)).
    rewrite !splitGo_app.
    rewrite (splitGo_without_sep "-" runtimeType "" Hrt).
    rewrite (splitGo_without_sep "-" "backuper" "" eq_refl).
    rewrite (splitGo_without_sep "-" ("values.yaml" +:+ suffix) "").
    2:{ rewrite Contains_app_char, Hsuf. reflexivity. }
    reflexivity. }
  rewrite Hsplit. unfold index. rewrite length_app. cbn [length].
  replace (Z.of_nat (length (strings.Split prefix "-") + 3) - 3)
    with (Z.of_nat (length (strings.Split prefix "-"))) by lia.
  destruct (Z.of_nat _ <? 0) eqn:E; [apply Z.ltb_lt in E; lia|].
  rewrite Nat2Z.id, lookup_app_r by lia. rewrite Nat.sub_diag. reflexivity.
Qed.

Section ValueFileMore.
Context `{!common.Constants, !utils.Helpers}.

(** With no image known for the workers and no override in the environment,
    the default image is cut at its colons: the image name is the text
    before the first colon and the tag the text up to the next one.  A
    default "name:tag" gives back name and tag; of a default with a third
    part, as with a registry port, only the first two parts are used. *)
Theorem default_image_split (log runtimeType imageEnv name rest : string) (w : World) :
  imageDefaults runtimeType = (imageEnv, name +:+ ":" +:+ rest) ->
  imageRepoFromEnv w imageEnv = "" ->
  imageTagFromEnv w imageEnv = "" ->
  strings.Contains name ":" = false ->
  outcome (resolveImageName log runtimeType "") w = Returned (inr name) /\
  (strings.Contains rest ":" = false ->
     outcome (resolveImageTag log runtimeType "") w = Returned (inr rest)) /\
  (forall tag more,
     rest = tag +:+ ":" +:+ more -> strings.Contains tag ":" = false ->
     outcome (resolveImageTag log runtimeType "") w = Returned (inr tag)).
Proof.
  intros Hd Hrepo Htag Hname.
  assert (Hsplit : strings.Split (name +:+ ":" +:+ rest) ":" = name :: strings.Split rest ":").
  { apply (Split_first_piece ":" name rest Hname). }
  unfold resolveImageName, resolveImageTag. cbn [String.length Nat.eqb]. rewrite Hd.
  exec. rewrite Hrepo, Htag. cbn [String.length Nat.eqb]. rewrite Hsplit.
  split_and!.
  - reflexivity.
  - intros Hrest. rewrite (Split_without_colon rest Hrest). reflexivity.
  - intros tag more -> Htg.
    assert (Hrest : strings.Split (tag +:+ ":" +:+ more) ":" = tag :: strings.Split more ":").
    { apply (Split_first_piece ":" tag more Htg). }
    rewrite Hrest. reflexivity.
Qed.

Lemma writeValueFile_result (databackup : DataBackup.t)
    (nodeName imageName imageTag javaEnv runtimeType : string) (w : World) :
  let ns := DataBackup.Namespace databackup in
  let name := DataBackup.Name databackup in
  let dataset := DataBackupSpec.Dataset (DataBackup.Spec databackup) in
  let m := writeValueFile databackup nodeName imageName imageTag javaEnv runtimeType in
  let pattern := ns +:+ "-" +:+ name +:+ "-" +:+ runtimeType +:+ "-backuper-values.yaml" in
  let fromRuntime :=
    match faults w (client_Get_AlluxioRuntime ns dataset), alluxioRuntimes w !! (ns, dataset) with
    | None, Some r => AlluxioRuntimeSpec.RunAs (AlluxioRuntime.Spec r)
    | _, _ => None
    end in
  let runAs :=
    match DataBackupSpec.RunAs (DataBackup.Spec databackup) with
    | Some u => Some u
    | None => fromRuntime
    end in
  forall v err,
  outcome m w = Returned (v, err) ->
  match err with
  | Some _ => v = ""
  | None =>
  exists value data,
    v = tempFileName w (tempDir w) pattern /\
    yamlMarshal w value = (data, None) /\
    trace (after m w)
    = trace w ++ [client_Get_AlluxioRuntime ns dataset; ioutil_TempFile (tempDir w) pattern;
                  ioutil_WriteFile v data 256] /\
    files (after m w) !! v = Some data /\
    releases (after m w) = releases w /\ faults (after m w) = faults w /\
    databackups (after m w) = databackups w /\
    cdatabackup.Namespace (cdatabackup.dataBackup value) = ns /\
    cdatabackup.Name (cdatabackup.dataBackup value) = name /\
    cdatabackup.Dataset (cdatabackup.dataBackup value) = dataset /\
    cdatabackup.NodeName (cdatabackup.dataBackup value) = nodeName /\
    cdatabackup.JavaEnv (cdatabackup.dataBackup value) = javaEnv /\
    cdatabackup.Image (cdatabackup.dataBackup value) = imageName +:+ ":" +:+ imageTag /\
    cdatabackup.RuntimeType (cdatabackup.dataBackup value) = runtimeType /\
    cdatabackup.Workdir (cdatabackup.dataBackup value)
    = (if String.eqb (getenv w "FLUID_WORKDIR") "" then "/tmp" else getenv w "FLUID_WORKDIR") /\
    match runAs with
    | Some u =>
        User.UID u = Some (cdatabackup.User (cdatabackup.userInfo value)) /\
        User.GID u = Some (cdatabackup.Group (cdatabackup.userInfo value)) /\
        cdatabackup.FSGroup (cdatabackup.userInfo value) = 0 /\
        cdatabackup.Enabled (cdatabackup.initUsers value) = true /\
        cdatabackup.EnvUsers (cdatabackup.initUsers value) = utils.GetInitUserEnv u /\
        cdatabackup.Dir (cdatabackup.initUsers value) = utils.GetBackupUserDir ns name
    | None =>
        cdatabackup.User (cdatabackup.userInfo value) = 0 /\
        cdatabackup.Group (cdatabackup.userInfo value) = 0 /\
        cdatabackup.Enabled (cdatabackup.initUsers value) = false
    end
  end.
Proof.
  intros ns name dataset m pattern fromRuntime runAs v err.
  subst runAs fromRuntime pattern m dataset name ns.
  unfold writeValueFile.
  destruct (utils.ParseBackupRestorePath _) as [[pvcName path] perr].
  repeat first [ progress exec | progress cbn [from_option id] | case_inner ]; intros Ho; try discriminate; simplify_eq; try reflexivity.
  all: match goal with
       | Hm : yamlMarshal _ ?value = (?data, None) |- _ =>
           exists value, data;
           solve [ split_and!; try reflexivity; try assumption;
                   first [ rewrite <- !app_assoc; reflexivity | apply lookup_insert_eq ] ]
       end.
Qed.

Lemma writeValueFile_cluster (databackup : DataBackup.t)
    (nodeName imageName imageTag javaEnv runtimeType : string) (w : World) :
  let m := writeValueFile databackup nodeName imageName imageTag javaEnv runtimeType in
  datasets (after m w) = datasets w /\ databackups (after m w) = databackups w /\
  releases (after m w) = releases w /\ faults (after m w) = faults w /\
  pods (after m w) = pods w.
Proof.
  unfold writeValueFile.
  destruct (utils.ParseBackupRestorePath _) as [[pvcName path] perr].
  branches; split_and!; reflexivity.
Qed.

Lemma writeValueFile_grows P databackup nodeName imageName imageTag javaEnv runtimeType :
  (forall ns name, P (client_Get_AlluxioRuntime ns name) = true) ->
  (forall dir pattern, P (ioutil_TempFile dir pattern) = true) ->
  (forall name data perm, P (ioutil_WriteFile name data perm) = true) ->
  grows P (writeValueFile databackup nodeName imageName imageTag javaEnv runtimeType).
Proof.
  intros H1 H2 H3. unfold writeValueFile.
  unfold Now, deref, index,
    client.Get_AlluxioRuntime, docker.ParseInitImage, os.Getenv, os.TempDir, ioutil.TempFile,
    ioutil.WriteFile, yaml.Marshal.
  repeat first [ apply grows_called; auto | grows_step ].
Qed.

Lemma generate_cases (ctx : reconcileRequestContext.t) (masterPod : option Pod.t) (w : World) :
  let databackup := reconcileRequestContext.DataBackup ctx in
  let m := generateDataBackupValueFile ctx masterPod in
  (exists msg, outcome m w = Panicked msg /\ cluster (after m w) = cluster w /\
               exists cs, trace (after m w) = trace w ++ cs /\
                          forallb notInstall cs = true)
  \/ (exists e, outcome m w = Returned ("", Some e) /\ cluster (after m w) = cluster w /\
                exists cs, trace (after m w) = trace w ++ cs /\
                           forallb notInstall cs = true)
  \/ (exists imageName imageTag javaEnv runtimeType w1 cs,
        m w = writeValueFile databackup (utils.GetAddressOfMaster masterPod).1.1
                imageName imageTag javaEnv runtimeType w1 /\
        cluster w1 = cluster w /\ trace w1 = trace w ++ cs /\
        forallb notInstall cs = true /\
        (runtimeType = common.AlluxioRuntime \/ runtimeType = common.GooseFSRuntime \/
         runtimeType = "")).
Proof.
  intros databackup m. subst m databackup.
  unfold generateDataBackupValueFile, runtimeSettings, deriveFromSettings, resolveImageName,
    resolveImageTag.
  destruct (utils.GetAddressOfMaster masterPod) as [[nodeName ip] rpcPort].
  branches.
  all: try match goal with
       | Hlen : (length (strings.Split ?d ":") <? 1)%nat = true |- _ =>
           exfalso; pose proof (Split_colon_nonempty d); apply Nat.ltb_lt in Hlen; lia
       end.
  all: first
    [ left; eexists; split; [reflexivity|]; split; [reflexivity|]; trace_suffix; reflexivity
    | right; left; eexists; split; [reflexivity|]; split; [reflexivity|]; trace_suffix; reflexivity
    | right; right; do 6 eexists; split; [reflexivity|]; split; [reflexivity|];
      split; [cbn [trace set_trace set_logs set_events]; rewrite <- ?app_assoc; reflexivity|];
      split; [reflexivity|]; auto ].
Qed.

(** What [generateDataBackupValueFile] returns.  With an error the file name
    is empty.  Without one the name is that of the temporary file created
    for the pattern "<namespace>-<name>-<runtime type>-backuper-values.yaml",
    the last two calls are the creation of that file and the write of the
    marshalled values with mode 0400, and the file holds them; the values
    marshalled carry the request's namespace, name and dataset. *)
Theorem value_file_is_written (ctx : reconcileRequestContext.t) (masterPod : option Pod.t)
    (w : World) (v : string) (err : option error) :
  let databackup := reconcileRequestContext.DataBackup ctx in
  let ns := DataBackup.Namespace databackup in
  let name := DataBackup.Name databackup in
  let w' := after (generateDataBackupValueFile ctx masterPod) w in
  outcome (generateDataBackupValueFile ctx masterPod) w = Returned (v, err) ->
  match err with
  | Some _ => v = ""
  | None =>
      exists runtimeType value data cs,
        (runtimeType = common.AlluxioRuntime \/ runtimeType = common.GooseFSRuntime \/
         runtimeType = "") /\
        let pattern := ns +:+ "-" +:+ name +:+ "-" +:+ runtimeType +:+ "-backuper-values.yaml" in
        v = tempFileName w (tempDir w) pattern /\
        yamlMarshal w value = (data, None) /\
        cdatabackup.Namespace (cdatabackup.dataBackup value) = ns /\
        cdatabackup.Name (cdatabackup.dataBackup value) = name /\
        cdatabackup.Dataset (cdatabackup.dataBackup value)
        = DataBackupSpec.Dataset (DataBackup.Spec databackup) /\
        cdatabackup.RuntimeType (cdatabackup.dataBackup value) = runtimeType /\
        trace w' = trace w ++ cs ++ [ioutil_TempFile (tempDir w) pattern;
                                     ioutil_WriteFile v data 256] /\
        files w' !! v = Some data
  end.
Proof.
  intros databackup ns name w' Ho. subst w'.
  destruct (generate_cases ctx masterPod w)
    as [(msg & Hp & _) | [(e & He & _) | (imageName & imageTag & javaEnv & runtimeType & w1 & cs
                                          & Heq & Hcl & Htr & _ & Hrt)]].
  - rewrite Hp in Ho. discriminate.
  - rewrite He in Ho. injection Ho as <- <-. reflexivity.
  - unfold outcome, after in *. rewrite Heq in Ho |- *.
    pose proof (writeValueFile_result databackup _ imageName imageTag javaEnv runtimeType w1
                  v err Ho) as Hres.
    destruct err as [e|]; [exact Hres|].
    destruct Hres as (value & data & Hv & Hm & Ht & Hf & _ & _ & _ & Hns & Hname & Hds & _ & _
                      & _ & Hty & _).
    destruct (cluster_fields w1 w Hcl) as (_ & _ & _ & _ & _ & _ & _ & Hy & Htd & Htf & _).
    unfold after in *. rewrite Hy, Htd, Htf in *.
    exists runtimeType, value, data, (cs ++ [client_Get_AlluxioRuntime ns
                                        (DataBackupSpec.Dataset (DataBackup.Spec databackup))]).
    split; [exact Hrt|]. cbv zeta. split_and!; try assumption.
    etransitivity; [exact Ht|]. rewrite Htr, <- !app_assoc. reflexivity.
Qed.

(** The identity the backup runs as (lines 454-480): the request's RunAs
    comes first, then that of the AlluxioRuntime named like the dataset
    when it can be read, and otherwise none.  With an identity the values
    written carry its UID and GID and enable the init users; without one
    the user and the group are 0 and the init users stay disabled. *)
Theorem run_as_precedence (ctx : reconcileRequestContext.t) (masterPod : option Pod.t)
    (w : World) (v : string) :
  let databackup := reconcileRequestContext.DataBackup ctx in
  let ns := DataBackup.Namespace databackup in
  let name := DataBackup.Name databackup in
  let dataset := DataBackupSpec.Dataset (DataBackup.Spec databackup) in
  let w' := after (generateDataBackupValueFile ctx masterPod) w in
  let fromRuntime :=
    match faults w (client_Get_AlluxioRuntime ns dataset), alluxioRuntimes w !! (ns, dataset) with
    | None, Some r => AlluxioRuntimeSpec.RunAs (AlluxioRuntime.Spec r)
    | _, _ => None
    end in
  let runAs :=
    match DataBackupSpec.RunAs (DataBackup.Spec databackup) with
    | Some u => Some u
    | None => fromRuntime
    end in
  outcome (generateDataBackupValueFile ctx masterPod) w = Returned (v, None) ->
  exists value data,
    yamlMarshal w value = (data, None) /\
    files w' !! v = Some data /\
    match runAs with
    | Some u =>
        User.UID u = Some (cdatabackup.User (cdatabackup.userInfo value)) /\
        User.GID u = Some (cdatabackup.Group (cdatabackup.userInfo value)) /\
        cdatabackup.FSGroup (cdatabackup.userInfo value) = 0 /\
        cdatabackup.Enabled (cdatabackup.initUsers value) = true /\
        cdatabackup.EnvUsers (cdatabackup.initUsers value) = utils.GetInitUserEnv u /\
        cdatabackup.Dir (cdatabackup.initUsers value) = utils.GetBackupUserDir ns name
    | None =>
        cdatabackup.User (cdatabackup.userInfo value) = 0 /\
        cdatabackup.Group (cdatabackup.userInfo value) = 0 /\
        cdatabackup.Enabled (cdatabackup.initUsers value) = false
    end.
Proof.
  intros databackup ns name dataset w' fromRuntime runAs Ho. subst w'.
  destruct (generate_cases ctx masterPod w)
    as [(msg & Hp & _) | [(e & He & _) | (imageName & imageTag & javaEnv & runtimeType & w1 & cs
                                          & Heq & Hcl & Htr & _ & Hrt)]].
  - rewrite Hp in Ho. discriminate.
  - rewrite He in Ho. discriminate.
  - unfold outcome, after in *. rewrite Heq in Ho |- *.
    destruct (writeValueFile_result databackup _ imageName imageTag javaEnv runtimeType w1
                v None Ho)
      as (value & data & _ & Hm & _ & Hf & _ & _ & _ & _ & _ & _ & _ & _ & _ & _ & _ & Hrun).
    destruct (cluster_fields w1 w Hcl) as (_ & _ & Har & _ & _ & _ & Hfa & Hy & _).
    rewrite Hy, Hfa, Har in *.
    exists value, data. split_and!; assumption.
Qed.

(** A RunAs without UID or without GID is dereferenced all the same (lines
    472-473): once the backup path is parsed the derivation panics, no
    file is created and only queries have been made. *)
Theorem run_as_without_ids_panics (databackup : DataBackup.t)
    (nodeName imageName imageTag javaEnv runtimeType : string) (w : World) (u : User.t) :
  let m := writeValueFile databackup nodeName imageName imageTag javaEnv runtimeType in
  DataBackupSpec.RunAs (DataBackup.Spec databackup) = Some u ->
  User.UID u = None \/ User.GID u = None ->
  (utils.ParseBackupRestorePath (DataBackupSpec.BackupPath (DataBackup.Spec databackup))).2
  = None ->
  outcome m w = Panicked "invalid memory address or nil pointer dereference" /\
  files (after m w) = files w /\
  (forall c, In c (trace (after m w)) -> In c (trace w) \/ isQuery c = true).
Proof.
  intros m Hu Hid Hp. subst m. unfold writeValueFile.
  destruct (utils.ParseBackupRestorePath _) as [[pvcName path] perr]. cbn [snd] in Hp. subst perr.
  rewrite Hu.
  repeat first [ progress exec | progress cbn [from_option id] | case_inner ].
  all: try (destruct Hid; congruence).
  all: (split; [reflexivity|]; split; [reflexivity|]).
  all: intros c Hc; apply in_app_or in Hc as [Hc|Hc]; [left; exact Hc | right].
  all: destruct Hc as [<-|[]]; reflexivity.
Qed.

Lemma generate_writes (ctx : reconcileRequestContext.t) (masterPod : option Pod.t) (w : World) :
  let m := generateDataBackupValueFile ctx masterPod in
  releases (after m w) = releases w /\ faults (after m w) = faults w /\
  databackups (after m w) = databackups w /\
  match outcome m w with
  | Returned (v, None) =>
      exists data pre,
        trace (after m w) = trace w ++ pre ++ [ioutil_WriteFile v data 256] /\
        forallb notInstall pre = true /\
        files (after m w) !! v = Some data
  | _ =>
      exists cs, trace (after m w) = trace w ++ cs /\
                 forallb notInstall cs = true
  end.
Proof.
  intros m. subst m.
  destruct (generate_cases ctx masterPod w)
    as [(msg & Hp & Hcl & Htr) | [(e & He & Hcl & Htr)
        | (imageName & imageTag & javaEnv & runtimeType & w1 & cs
           & Heq & Hcl & Htr & Hcs & Hrt)]].
  - destruct (cluster_fields _ _ Hcl) as (_ & Hdb & _ & _ & Hre & _ & Hfa & _).
    rewrite Hp. auto.
  - destruct (cluster_fields _ _ Hcl) as (_ & Hdb & _ & _ & Hre & _ & Hfa & _).
    rewrite He. auto.
  - destruct (cluster_fields _ _ Hcl) as (_ & Hdb & _ & _ & Hre & _ & Hfa & _).
    pose proof (writeValueFile_cluster (reconcileRequestContext.DataBackup ctx)
                  (utils.GetAddressOfMaster masterPod).1.1 imageName imageTag javaEnv
                  runtimeType w1) as (_ & Hdb1 & Hre1 & Hfa1 & _).
    pose proof (writeValueFile_result (reconcileRequestContext.DataBackup ctx)
                  (utils.GetAddressOfMaster masterPod).1.1 imageName imageTag javaEnv
                  runtimeType w1) as Hres.
    pose proof (writeValueFile_grows notInstall
                  (reconcileRequestContext.DataBackup ctx)
                  (utils.GetAddressOfMaster masterPod).1.1 imageName imageTag javaEnv
                  runtimeType (fun _ _ => eq_refl) (fun _ _ => eq_refl)
                  (fun _ _ _ => eq_refl) w1) as ((gcs & Hg & Hgcs) & _).
    cbv zeta in Hres. unfold outcome, after in *. rewrite Heq.
    rewrite Hdb1, Hre1, Hfa1, Hdb, Hre, Hfa. split_and!; try reflexivity.
    destruct (writeValueFile _ _ _ _ _ _ w1) as [[[v [e|]]|msg] w2]; cbn [fst snd] in *.
    + exists (cs ++ gcs). rewrite Hg, Htr, <- app_assoc, forallb_app, Hcs, Hgcs. auto.
    + destruct (Hres v None eq_refl) as (value & data & _ & _ & Ht & Hf & _).
      match type of Ht with _ = _ ++ [?a; ?b; _] => exists data, (cs ++ [a; b]) end.
      split_and!; [ | | exact Hf].
      * rewrite Ht, Htr, <- !app_assoc. reflexivity.
      * rewrite forallb_app, Hcs. reflexivity.
    + exists (cs ++ gcs). rewrite Hg, Htr, <- app_assoc, forallb_app, Hcs, Hgcs. auto.
Qed.

End ValueFileMore.

(** *** The Executing phase, further *)

Section ExecutingMore.
Context `{!common.Constants, !utils.Helpers}.

(** An Executing reconciliation never touches the dataset: the stored
    datasets, and with them the lock, are as before and no dataset status
    update is among the calls made, on any path. *)
Theorem executing_keeps_the_dataset (ctx : reconcileRequestContext.t) (w : World) :
  let w' := after (reconcileExecutingDataBackup ctx) w in
  datasets w' = datasets w /\
  exists cs, trace w' = trace w ++ cs /\ datasetWrites cs = [].
Proof.
  split.
  - revert w. change (unchanged datasets (reconcileExecutingDataBackup ctx)).
    unfold reconcileExecutingDataBackup, masterPodName, reconcileWithMaster, finishDataBackup,
      generateDataBackupValueFile, deriveFromSettings, runtimeSettings, resolveImageName,
      resolveImageTag, writeValueFile.
    unchanged_tac.
  - assert (Hg : grows (fun c => negb (isDatasetWrite c)) (reconcileExecutingDataBackup ctx)).
    { unfold reconcileExecutingDataBackup, masterPodName, reconcileWithMaster, finishDataBackup,
        generateDataBackupValueFile, deriveFromSettings, runtimeSettings, resolveImageName,
        resolveImageTag, writeValueFile.
      unfold operations.MasterPodName, goosefs.MasterPodName.
      grows_tac. }
    destruct (Hg w) as ((cs & Hcs & HP) & _).
    exists cs. split; [exact Hcs | apply no_dataset_write, HP].
Qed.

(** An Executing reconciliation that returns always asks to run again:
    requeue-immediately, requeue-after 20 seconds, or an error beside the
    empty result, never a plain no-requeue. *)
Theorem executing_always_requeues (ctx : reconcileRequestContext.t) (w : World)
    (r : Result.t * option error) :
  outcome (reconcileExecutingDataBackup ctx) w = Returned r ->
  r <> utils.NoRequeue /\
  (r = utils.RequeueImmediately \/
   r = utils.RequeueAfterInterval (20 * time.Second) \/
   exists e, r = utils.RequeueIfError (Some e)).
Proof.
  revert w r.
  change (yields (fun r => r <> utils.NoRequeue /\
            (r = utils.RequeueImmediately \/
             r = utils.RequeueAfterInterval (20 * time.Second) \/
             exists e, r = utils.RequeueIfError (Some e)))
            (reconcileExecutingDataBackup ctx)).
  unfold reconcileExecutingDataBackup, reconcileWithMaster, finishDataBackup.
  yields_tac.
  all: (split; [discriminate|]).
  all: first [ left; reflexivity | right; left; reflexivity
             | right; right; eexists; reflexivity ].
Qed.

Lemma masterPodName_cluster log ctx w :
  cluster (after (masterPodName log ctx) w) = cluster w /\
  exists cs, trace (after (masterPodName log ctx) w) = trace w ++ cs /\
             forallb isQuery cs = true.
Proof.
  unfold masterPodName. destruct (utils.GetRuntimeByCategory _ _) as [idx rt].
  branches; (split; [reflexivity|]); trace_suffix; reflexivity.
Qed.

Lemma masterPodName_logs log ctx w :
  exists ls, logs (after (masterPodName log ctx) w) = logs w ++ ls.
Proof.
  unfold masterPodName. destruct (utils.GetRuntimeByCategory _ _) as [idx rt].
  branches; eexists; rewrite <- ?app_assoc; try reflexivity; symmetry; apply app_nil_r.
Qed.

Lemma withMaster_installs log ctx podName w :
  let databackup := reconcileRequestContext.DataBackup ctx in
  let ns := reconcileRequestContext.Namespace ctx in
  let releaseName := utils.GetDataBackupReleaseName (DataBackup.Name databackup) in
  let m := reconcileWithMaster log ctx podName in
  exists cs, trace (after m w) = trace w ++ cs /\
    (forallb notInstall cs = true \/
     exists pre valueFile data runtimeType,
       let chartName :=
         utils.GetChartsDirectory +:+ "/" +:+ common.DatabackupChart +:+ "/" +:+ runtimeType in
       cs = pre ++ [ioutil_WriteFile valueFile data 256;
                    helm_InstallRelease releaseName ns valueFile chartName] /\
       forallb notInstall pre = true /\
       files (after m w) !! valueFile = Some data /\
       (let l := strings.Split valueFile "-" in
        l !! Z.to_nat (Z.of_nat (length l) - 3) = Some runtimeType) /\
       ((ns, releaseName) ∉ releases w) /\
       databackups (after m w) = databackups w /\
       match faults w (helm_InstallRelease releaseName ns valueFile chartName) with
       | None =>
           outcome m w = Returned (utils.RequeueAfterInterval (20 * time.Second)) /\
           releases (after m w) = releases w ∪ {[ (ns, releaseName) ]}
       | Some e =>
           outcome m w = Returned (utils.RequeueIfError (Some e)) /\
           releases (after m w) = releases w
       end).
Proof.
  intros databackup ns releaseName m. subst m releaseName ns databackup.
  unfold reconcileWithMaster, finishDataBackup.
  repeat first
    [ progress exec
    | match goal with
      | |- context [generateDataBackupValueFile ?c ?mp ?w2] =>
          let Hg := fresh "Hg" in
          pose proof (generate_writes c mp w2) as Hg;
          cbv zeta in Hg; unfold outcome, after in Hg;
          destruct (generateDataBackupValueFile c mp w2) as [[[v [e|]]|msg] w3];
          cbn [fst snd releases faults databackups trace set_trace set_logs] in Hg;
          let Hre := fresh "Hre" in let Hfa := fresh "Hfa" in let Hdb := fresh "Hdb" in
          destruct Hg as (Hre & Hfa & Hdb & Hg); try rewrite Hfa
      end
    | match goal with
      | Hfa : faults ?w3 = faults _ |- context [faults ?w3] => rewrite Hfa
      end
    | case_inner ].
  all: try match goal with
       | Hg : exists (data : string) (pre : list Call), _ |- _ =>
           destruct Hg as (data & pre & Htr & Hpre & Hfile)
       end.
  all: try match goal with
       | Hg : exists cs : list Call, _ |- _ => destruct Hg as (gcs & Htr & Hgcs)
       end.
  all: try rewrite Htr.
  (* the paths without an install *)
  all: try (eexists; split; [rewrite <- ?app_assoc; reflexivity|]; left;
            cbn [app forallb notInstall isInstall negb andb];
            rewrite ?forallb_app, ?Hgcs, ?Hpre; reflexivity).
  all: match goal with
       | |- exists cs, (((trace _ ++ [?a]) ++ [?b]) ++ _ ++ [?wr]) ++ [?ins] = _ /\ _ =>
           exists ([a; b] ++ pre ++ [wr; ins]);
           split; [rewrite <- !app_assoc; reflexivity|]; right;
           exists ([a; b] ++ pre), v, data, s
       end.
  all: cbv zeta; rewrite Heqo2, Hre.
  all: split_and!; try reflexivity; try assumption.
  all: try (rewrite <- !app_assoc; reflexivity).
  all: apply negb_true_iff, bool_decide_eq_false in Heqb; exact Heqb.
Qed.

(** The chart is installed at most once in a reconciliation, as the last
    call, only when the release was not installed, and with the value file
    that was written just before: the file holds the data written, the
    chart is "<charts directory>/<chart>/<runtime type>" for the third
    piece from the end of the file name, and the request is not updated.
    When the install succeeds the release is installed and the result is
    requeue-after 20 seconds; when it fails its error is returned. *)
Theorem executing_installs_written_file (ctx : reconcileRequestContext.t) (w : World) :
  let databackup := reconcileRequestContext.DataBackup ctx in
  let ns := reconcileRequestContext.Namespace ctx in
  let releaseName := utils.GetDataBackupReleaseName (DataBackup.Name databackup) in
  let m := reconcileExecutingDataBackup ctx in
  exists cs, trace (after m w) = trace w ++ cs /\
    (forallb notInstall cs = true \/
     exists pre valueFile data runtimeType,
       let chartName :=
         utils.GetChartsDirectory +:+ "/" +:+ common.DatabackupChart +:+ "/" +:+ runtimeType in
       cs = pre ++ [ioutil_WriteFile valueFile data 256;
                    helm_InstallRelease releaseName ns valueFile chartName] /\
       forallb notInstall pre = true /\
       files (after m w) !! valueFile = Some data /\
       (let l := strings.Split valueFile "-" in
        l !! Z.to_nat (Z.of_nat (length l) - 3) = Some runtimeType) /\
       ((ns, releaseName) ∉ releases w) /\
       databackups (after m w) = databackups w /\
       match faults w (helm_InstallRelease releaseName ns valueFile chartName) with
       | None =>
           outcome m w = Returned (utils.RequeueAfterInterval (20 * time.Second)) /\
           releases (after m w) = releases w ∪ {[ (ns, releaseName) ]}
       | Some e =>
           outcome m w = Returned (utils.RequeueIfError (Some e)) /\
           releases (after m w) = releases w
       end).
Proof.
  intros databackup ns releaseName m. subst m.
  destruct (masterPodName_cluster "reconcileExecutingDataBackup" ctx w)
    as (Hcl & cs0 & Htr0 & Hcs0).
  assert (Hni : forallb notInstall cs0 = true).
  { clear -Hcs0. induction cs0 as [|c cs0 IH]; [reflexivity|].
    cbn [forallb] in *. apply andb_true_iff in Hcs0 as [Hc Hcs0].
    rewrite (IH Hcs0), andb_true_r. destruct c; try discriminate; reflexivity. }
  destruct (cluster_fields _ _ Hcl) as (_ & Hdb & _ & _ & Hre & _ & Hfa & _).
  unfold after, outcome in *. unfold reconcileExecutingDataBackup, mbind, M_bind.
  destruct (masterPodName "reconcileExecutingDataBackup" ctx w) as [[[podName [e|]]|msg] w1];
    cbn [fst snd] in *.
  - exec. exists cs0. split; [exact Htr0 | left; exact Hni].
  - destruct (withMaster_installs "reconcileExecutingDataBackup" ctx podName w1)
      as (cs & Htr & Hcases).
    cbv zeta in Hcases. unfold after, outcome in *.
    exists (cs0 ++ cs). split; [rewrite Htr, Htr0, <- app_assoc; reflexivity|].
    destruct Hcases as [Hcs | (pre & valueFile & data & runtimeType & -> & Hpre & Hfile & Hrt
                               & Hrel & Hdb1 & Hres)].
    + left. rewrite forallb_app, Hni, Hcs. reflexivity.
    + right. exists (cs0 ++ pre), valueFile, data, runtimeType. cbv zeta.
      rewrite Hre, Hfa, Hdb in *.
      split_and!; try assumption.
      * rewrite <- app_assoc. reflexivity.
      * rewrite forallb_app, Hni, Hpre. reflexivity.
  - exists cs0. split; [exact Htr0 | left; exact Hni].
Qed.

(** While the release is installed and the backup pod has neither succeeded
    nor failed (or is not there yet), the reconciler only asks: the result
    is requeue-after 20 seconds, every call is a query and nothing in the
    cluster changes. *)
Theorem executing_polls_unfinished_pod (ctx : reconcileRequestContext.t) (w : World)
    (podName : string) :
  let databackup := reconcileRequestContext.DataBackup ctx in
  let ns := reconcileRequestContext.Namespace ctx in
  let releaseName := utils.GetDataBackupReleaseName (DataBackup.Name databackup) in
  let backupPodName := utils.GetDataBackupPodName (DataBackup.Name databackup) in
  let w' := after (reconcileExecutingDataBackup ctx) w in
  outcome (masterPodName "reconcileExecutingDataBackup" ctx) w = Returned (podName, None) ->
  faults w (kubeclient_GetPodByName podName ns) = None ->
  faults w (helm_CheckRelease releaseName ns) = None ->
  (ns, releaseName) ∈ releases w ->
  faults w (kubeclient_GetPodByName backupPodName ns) = None ->
  kubeclient.IsSucceededPod (pods w !! (ns, backupPodName)) = false ->
  kubeclient.IsFailedPod (pods w !! (ns, backupPodName)) = false ->
  outcome (reconcileExecutingDataBackup ctx) w
  = Returned (utils.RequeueAfterInterval (20 * time.Second)) /\
  cluster w' = cluster w /\
  exists cs, trace w' = trace w ++ cs /\ forallb isQuery cs = true.
Proof.
  intros databackup ns releaseName backupPodName w' Hm Hf1 Hf2 Hrel Hf3 Hs Hf.
  subst w' backupPodName releaseName ns databackup.
  apply (bool_decide_eq_true_2 _) in Hrel.
  destruct (masterPodName_cluster "reconcileExecutingDataBackup" ctx w)
    as (Hcl & cs0 & Htr0 & Hcs0).
  destruct (cluster_fields _ _ Hcl) as (_ & _ & _ & Hpo & Hre & _ & Hfa & _).
  unfold outcome, after in *.
  destruct (masterPodName "reconcileExecutingDataBackup" ctx w) as [o w1] eqn:E.
  cbn [fst snd] in *. subst o.
  rewrite (executing_eq _ _ _ _ E).
  unfold reconcileWithMaster.
  exec. rewrite Hfa, Hf1. exec. rewrite Hfa, Hf2. exec. rewrite Hre, Hrel. exec.
  rewrite Hfa, Hf3. exec. rewrite ?Hpo, Hs. exec. rewrite ?Hpo, Hf. exec.
  split; [reflexivity|]. split; [rewrite !cluster_set_trace; exact Hcl|].
  rewrite Htr0. eexists. split; [rewrite <- !app_assoc; reflexivity|].
  rewrite forallb_app, Hcs0. reflexivity.
Qed.

(** When the master pod cannot be looked up, or the release cannot be
    checked, that error is returned and logged, every call made is a query
    and nothing in the cluster changes: no chart is installed and no
    status written. *)
Theorem executing_stops_at_failed_lookup (ctx : reconcileRequestContext.t) (w : World)
    (podName : string) (e : error) :
  let databackup := reconcileRequestContext.DataBackup ctx in
  let ns := reconcileRequestContext.Namespace ctx in
  let releaseName := utils.GetDataBackupReleaseName (DataBackup.Name databackup) in
  let w' := after (reconcileExecutingDataBackup ctx) w in
  outcome (masterPodName "reconcileExecutingDataBackup" ctx) w = Returned (podName, None) ->
  faults w (kubeclient_GetPodByName podName ns) = Some e \/
  faults w (kubeclient_GetPodByName podName ns) = None /\
  faults w (helm_CheckRelease releaseName ns) = Some e ->
  outcome (reconcileExecutingDataBackup ctx) w = Returned (utils.RequeueIfError (Some e)) /\
  cluster w' = cluster w /\
  (exists cs, trace w' = trace w ++ cs /\ forallb isQuery cs = true) /\
  exists ls msg, logs w' = logs w ++ ls ++ [LogError "reconcileExecutingDataBackup" e msg].
Proof.
  intros databackup ns releaseName w' Hm Hfail.
  subst w' releaseName ns databackup.
  destruct (masterPodName_cluster "reconcileExecutingDataBackup" ctx w)
    as (Hcl & cs0 & Htr0 & Hcs0).
  destruct (masterPodName_logs "reconcileExecutingDataBackup" ctx w) as (ls0 & Hls0).
  destruct (cluster_fields _ _ Hcl) as (_ & _ & _ & Hpo & Hre & _ & Hfa & _).
  unfold outcome, after in *.
  destruct (masterPodName "reconcileExecutingDataBackup" ctx w) as [o w1] eqn:E.
  cbn [fst snd] in *. subst o.
  rewrite (executing_eq _ _ _ _ E).
  unfold reconcileWithMaster.
  destruct Hfail as [Hf1 | [Hf1 Hf2]].
  - exec. rewrite Hfa, Hf1. exec.
    split; [reflexivity|]. split; [rewrite ?cluster_set_trace, ?cluster_set_logs; exact Hcl|].
    split.
    + rewrite Htr0. eexists. split; [rewrite <- !app_assoc; reflexivity|].
      rewrite forallb_app, Hcs0. reflexivity.
    + rewrite Hls0. exists ls0. eexists. rewrite <- app_assoc. reflexivity.
  - exec. rewrite Hfa, Hf1. exec. rewrite Hfa, Hf2. exec.
    split; [reflexivity|]. split; [rewrite ?cluster_set_trace, ?cluster_set_logs; exact Hcl|].
    split.
    + rewrite Htr0. eexists. split; [rewrite <- !app_assoc; reflexivity|].
      rewrite forallb_app, Hcs0. reflexivity.
    + rewrite Hls0. exists ls0. eexists. rewrite <- app_assoc. reflexivity.
Qed.

End ExecutingMore.

(** *** Deletion and unbound datasets, further *)

Section DeletionMore.
Context `{!common.Constants, !utils.Helpers}.

(** For a request that is not marked for deletion the finalizer is kept
    (line 87): the release is deleted and the lock released as usual, and
    that is all.  The request is never updated; after the lock release no
    call is made, nothing changes in the cluster and, when the release
    succeeded, nothing is logged and the result is no-requeue. *)
Theorem deletion_without_timestamp (ctx : reconcileRequestContext.t) (w : World) :
  let databackup := reconcileRequestContext.DataBackup ctx in
  let ns := DataBackup.Namespace databackup in
  let releaseName := utils.GetDataBackupReleaseName (DataBackup.Name databackup) in
  let w1 := after (helm.DeleteReleaseIfExists releaseName ns) w in
  let w2 := after (releaseLockOnTargetDataset ctx) w1 in
  let w' := after (ReconcileDataBackupDeletion ctx) w in
  utils.HasDeletionTimestamp (DataBackup.ObjectMeta databackup) = false ->
  (exists cs, trace w' = trace w ++ cs /\
              forallb (fun c => negb (isRequestUpdate c)) cs = true) /\
  match faults w (helm_DeleteReleaseIfExists releaseName ns) with
  | Some e =>
      outcome (ReconcileDataBackupDeletion ctx) w = Returned (utils.RequeueIfError (Some e))
  | None =>
      trace w' = trace w2 /\ cluster w' = cluster w2 /\
      match outcome (releaseLockOnTargetDataset ctx) w1 with
      | Returned (Some e) =>
          outcome (ReconcileDataBackupDeletion ctx) w = Returned (utils.RequeueIfError (Some e))
      | Returned None =>
          outcome (ReconcileDataBackupDeletion ctx) w = Returned utils.NoRequeue /\
          logs w' = logs w2
      | Panicked msg => outcome (ReconcileDataBackupDeletion ctx) w = Panicked msg
      end
  end.
Proof.
  intros databackup ns releaseName w1 w2 w' Hdel. subst w' w2 w1 releaseName ns databackup.
  unfold ReconcileDataBackupDeletion, releaseLockOnTargetDataset. rewrite Hdel.
  branches; split_and!; try reflexivity; trace_suffix; reflexivity.
Qed.

(** Whatever deletion returns carries the empty result: it is no-requeue,
    or an error for the framework to retry; deletion never asks for an
    immediate or a timed requeue. *)
Theorem deletion_result (ctx : reconcileRequestContext.t) (w : World)
    (r : Result.t * option error) :
  outcome (ReconcileDataBackupDeletion ctx) w = Returned r ->
  r = utils.NoRequeue \/ exists e, r = utils.RequeueIfError (Some e).
Proof.
  revert w r.
  change (yields (fun r => r = utils.NoRequeue \/ exists e, r = utils.RequeueIfError (Some e))
            (ReconcileDataBackupDeletion ctx)).
  unfold ReconcileDataBackupDeletion.
  yields_tac; first [ left; reflexivity | right; eexists; reflexivity ].
Qed.

(** A dataset without a runtime of the accelerate category is only logged
    (lines 130-132 and 214-216) and the runtime is used all the same: when
    [utils.GetRuntimeByCategory] hands back a nil runtime, the Pending
    reconciliation of a request that does not conflict and the Executing
    reconciliation both panic on the dereference, right after the log
    line, with nothing changed in the cluster. *)
Theorem unbound_dataset_panics (ctx : reconcileRequestContext.t) (w : World) :
  let target := reconcileRequestContext.Dataset ctx in
  let nil := "invalid memory address or nil pointer dereference" in
  let line := fun logger =>
    LogInfo logger 0
      "bounded runtime with Accelerate Category is not found on the target dataset" in
  utils.RuntimeNotFound = None ->
  (forall r, In r (DatasetStatus.Runtimes (Dataset.Status target)) ->
             Runtime.Category r <> common.AccelerateCategory) ->
  (conflicting ctx = false ->
     outcome (reconcilePendingDataBackup ctx) w = Panicked nil /\
     cluster (after (reconcilePendingDataBackup ctx) w) = cluster w /\
     logs (after (reconcilePendingDataBackup ctx) w)
     = logs w ++ [line "reconcilePendingDataBackup"]) /\
  outcome (reconcileExecutingDataBackup ctx) w = Panicked nil /\
  cluster (after (reconcileExecutingDataBackup ctx) w) = cluster w /\
  logs (after (reconcileExecutingDataBackup ctx) w)
  = logs w ++ [line "reconcileExecutingDataBackup"].
Proof.
  intros target nil line Hnil Hnone. subst line nil target.
  unfold reconcilePendingDataBackup, reconcileExecutingDataBackup, masterPodName,
    utils.GetRuntimeByCategory.
  rewrite (findRuntime_none _ _ _ Hnone), Hnil.
  split.
  - intros Hc. rewrite Hc. exec. split_and!; reflexivity.
  - exec. split_and!; reflexivity.
Qed.

End DeletionMore.

(** ** The properties on the concrete cluster *)

Section Cluster.
Import Scenario.
#[local] Existing Instance constants.
#[local] Existing Instance helpers.

(** The scenarios of the specification. *)
Example R1_acquires_the_lock :
  outcome (reconcilePendingDataBackup (context R1 free)) wFree
  = Returned utils.RequeueImmediately /\
  storedRef (after (reconcilePendingDataBackup (context R1 free)) wFree) free
  = Some "default/backup1" /\
  storedPhase (after (reconcilePendingDataBackup (context R1 free)) wFree) R1
  = Some PhaseExecuting.
Proof. vm_compute. split_and!; reflexivity. Qed.

Example R2_fails_on_conflict :
  outcome (reconcilePendingDataBackup (context R2 heldByR1)) wHeld
  = Returned utils.RequeueImmediately /\
  storedPhase (after (reconcilePendingDataBackup (context R2 heldByR1)) wHeld) R2
  = Some PhaseFailed /\
  storedRef (after (reconcilePendingDataBackup (context R2 heldByR1)) wHeld) heldByR1
  = Some "default/backup1".
Proof. vm_compute. split_and!; reflexivity. Qed.

Example R1_launches_the_job :
  outcome (reconcileExecutingDataBackup (context executing heldByR1)) wLaunch
  = Returned (utils.RequeueAfterInterval 20000000000) /\
  trace (after (reconcileExecutingDataBackup (context executing heldByR1)) wLaunch)
  = [kubeclient_GetPodByName "hbase-master-0" "default";
     helm_CheckRelease "backup1-charts" "default";
     utils_GetDataset "hbase" "default";
     docker_GetWorkerImage "hbase" "alluxio" "default";
     client_Get_AlluxioRuntime "default" "hbase";
     ioutil_TempFile "/tmp" "default-backup1-alluxio-backuper-values.yaml";
     ioutil_WriteFile "/tmp/default-backup1-alluxio-backuper-values.yaml123456"
       "dataBackup: {}" 256;
     helm_InstallRelease "backup1-charts" "default"
       "/tmp/default-backup1-alluxio-backuper-values.yaml123456"
       "/charts/fluid-databackup/alluxio"].
Proof. vm_compute. split; reflexivity. Qed.

(** C1, counterexample.  R2 conflicts with R1, which holds the dataset,
    and the update of R2's status is refused: the reconciler does not
    requeue immediately, it returns the error, and the stored phase of R2
    is still Pending. *)
Lemma pending_conflict_write_refused :
  conflicting (context R2 heldByR1) = true /\
  outcome (reconcilePendingDataBackup (context R2 heldByR1)) wHeldStatusFault
  = Returned (Result.zero, Some (Err "connection refused")) /\
  outcome (reconcilePendingDataBackup (context R2 heldByR1)) wHeldStatusFault
  <> Returned utils.RequeueImmediately /\
  storedPhase (after (reconcilePendingDataBackup (context R2 heldByR1)) wHeldStatusFault) R2
  = Some PhasePending.
Proof. vm_compute. split_and!; try reflexivity. discriminate. Qed.

(** The amended C1 at R2, which conflicts with R1 holding the dataset. *)
Lemma pending_conflict_witness :
  conflicting (context R2 heldByR1) = true /\
  exists b c,
    trace (after (reconcilePendingDataBackup (context R2 heldByR1)) wHeld)
    = trace wHeld ++ [client_Status_Update_DataBackup b] /\
    DataBackupStatus.Phase (DataBackup.Status b) = PhaseFailed /\
    DataBackupStatus.Conditions (DataBackup.Status b) = [c] /\
    Condition.Reason c = "conflictDataBackupRef".
Proof.
  assert (Hc : conflicting (context R2 heldByR1) = true) by (vm_compute; reflexivity).
  split; [exact Hc|].
  destruct (pending_conflict (context R2 heldByR1) wHeld) as (_ & Hyes & _).
  destruct (Hyes Hc) as (b & c & Ht & _ & _ & Hp & Hcs & _ & Hr & _).
  exists b, c. split_and!; assumption.
Defined.



(** C3, counterexample.  The conditional write of the dataset's
    DataBackupRef succeeds and the update of the request's status is
    refused: the lock is taken, the stored phase is not Executing and the
    reconciler does not requeue immediately, it returns the error. *)
Lemma lock_taken_phase_write_refused :
  lockRefusal (context R1 free) wFreeStatusFault = None /\
  storedRef (after (reconcilePendingDataBackup (context R1 free)) wFreeStatusFault) free
  = Some "default/backup1" /\
  storedPhase (after (reconcilePendingDataBackup (context R1 free)) wFreeStatusFault) R1
  = Some PhasePending /\
  outcome (reconcilePendingDataBackup (context R1 free)) wFreeStatusFault
  = Returned (Result.zero, Some (Err "connection refused")) /\
  outcome (reconcilePendingDataBackup (context R1 free)) wFreeStatusFault
  <> Returned utils.RequeueImmediately.
Proof. vm_compute. split_and!; try reflexivity. discriminate. Qed.

(** The amended C3 at R1 and the free dataset: both writes are accepted. *)
Lemma pending_lock_acquisition_witness :
  conflicting (context R1 free) = false /\
  boundedRuntimeReady (context R1 free) wFree = true /\
  pathNotSupported (context R1 free) = false /\
  outcome (reconcilePendingDataBackup (context R1 free)) wFree
  = Returned utils.RequeueImmediately.
Proof.
  assert (Hc : conflicting (context R1 free) = false) by (vm_compute; reflexivity).
  assert (Hr : boundedRuntimeReady (context R1 free) wFree = true)
    by (vm_compute; reflexivity).
  assert (Hp : pathNotSupported (context R1 free) = false) by (vm_compute; reflexivity).
  assert (Hl : lockRefusal (context R1 free) wFree = None) by (vm_compute; reflexivity).
  assert (Hs : client.refusesStatus wFree (DataBackup.withPhase R1 PhaseExecuting) = None)
    by (vm_compute; reflexivity).
  split_and!; [exact Hc | exact Hr | exact Hp |].
  pose proof (pending_lock_acquisition (context R1 free) wFree Hc Hr Hp) as Hthm.
  cbv zeta in Hthm. rewrite Hl in Hthm. destruct Hthm as [_ Hthm].
  change (reconcileRequestContext.DataBackup (context R1 free)) with R1 in Hthm.
  rewrite Hs in Hthm. exact (proj1 Hthm).
Defined.



(** C5 at the succeeded pod: 4000 - 1000, from the first of its two conditions. *)
Lemma terminal_duration_witness :
  outcome (masterPodName "reconcileExecutingDataBackup" (context executing heldByR1)) wSucceeded
  = Returned ("hbase-master-0", None) /\
  pods wSucceeded !! ("default", "backup1-pod")
  = Some (pod "backup1-pod" PodSucceeded [4000; 4500]) /\
  exists b cs,
    trace (after (reconcileExecutingDataBackup (context executing heldByR1)) wSucceeded)
    = trace wSucceeded ++ cs /\
    statusWrites cs = [b] /\
    DataBackupStatus.Duration (DataBackup.Status b) = 3000 /\
    DataBackupStatus.Phase (DataBackup.Status b) = PhaseComplete.
Proof.
  assert (Hm :
    outcome (masterPodName "reconcileExecutingDataBackup" (context executing heldByR1))
      wSucceeded = Returned ("hbase-master-0", None)) by (vm_compute; reflexivity).
  assert (Hpod :
    pods wSucceeded !! ("default", "backup1-pod")
    = Some (pod "backup1-pod" PodSucceeded [4000; 4500])) by (vm_compute; reflexivity).
  assert (Hrel : ("default", "backup1-charts") ∈ releases wSucceeded)
    by (apply (bool_decide_eq_true_1 _); vm_compute; reflexivity).
  split_and!; [exact Hm | exact Hpod |].
  destruct (terminal_duration (context executing heldByR1) wSucceeded "hbase-master-0"
              (pod "backup1-pod" PodSucceeded [4000; 4500])
              Hm eq_refl eq_refl Hrel eq_refl Hpod (or_introl eq_refl))
    as (b & c & cs & Ht & Hw & _ & Hd & _ & Hp & _).
  exists b, cs. split_and!; [exact Ht | exact Hw | exact Hd | exact Hp].
Defined.

(** C6 at the deleted request: all three steps succeed. *)
Lemma deletion_steps_witness :
  utils.HasDeletionTimestamp (DataBackup.ObjectMeta deleted) = true /\
  outcome (ReconcileDataBackupDeletion (context deleted heldByR1)) wDeleted
  = Returned utils.NoRequeue.
Proof.
  assert (Hdel : utils.HasDeletionTimestamp (DataBackup.ObjectMeta deleted) = true)
    by reflexivity.
  split; [exact Hdel|].
  pose proof (deletion_steps (context deleted heldByR1) wDeleted Hdel) as Hthm.
  cbv zeta in Hthm.
  destruct (faults wDeleted _) eqn:E1 in Hthm; [vm_compute in E1; discriminate|].
  destruct Hthm as [_ Hthm].
  destruct (outcome (releaseLockOnTargetDataset _) _) as [[e|]|msg] eqn:E2 in Hthm;
    [vm_compute in E2; discriminate | | contradiction].
  destruct Hthm as [_ Hthm].
  destruct (client.refusesUpdate _ _) eqn:E3 in Hthm; [vm_compute in E3; discriminate|].
  exact (proj1 Hthm).
Defined.

Example deletion_clears_the_lock :
  storedRef (after (ReconcileDataBackupDeletion (context deleted heldByR1)) wDeleted) heldByR1
  = Some "" /\
  (fun cur => ObjectMeta.Finalizers (DataBackup.ObjectMeta cur))
    <$> databackups (after (ReconcileDataBackupDeletion (context deleted heldByR1)) wDeleted)
          !! ("default", "backup1")
  = Some [].
Proof. vm_compute. split; reflexivity. Qed.

(** C7 at the single-master runtime. *)
Lemma master_pod_name_witness :
  (utils.GetRuntimeByCategory (DatasetStatus.Runtimes (Dataset.Status heldByR1))
     common.AccelerateCategory).2 = Some (runtimeOf "alluxio" 1) /\
  exists rest,
    trace (after (reconcileExecutingDataBackup (context executing heldByR1)) wLaunch)
    = trace wLaunch ++ kubeclient_GetPodByName "hbase-master-0" "default" :: rest /\
    forallb notLeaderQuery rest = true.
Proof.
  assert (Hrt :
    (utils.GetRuntimeByCategory (DatasetStatus.Runtimes (Dataset.Status heldByR1))
       common.AccelerateCategory).2 = Some (runtimeOf "alluxio" 1))
    by (vm_compute; reflexivity).
  split; [exact Hrt|].
  refine (proj1 (master_pod_name (context executing heldByR1) wLaunch
                   (runtimeOf "alluxio" 1) Hrt) _).
  cbn. lia.
Defined.

(** C9, counterexample.  The dataset has no bound runtime at all:
    [generateDataBackupValueFile] aborts with an error, and neither logs
    nor emits an event. *)
Lemma missing_runtime_is_an_error :
  utils.GetRuntimeByCategory (DatasetStatus.Runtimes (Dataset.Status unbound))
    common.AccelerateCategory = (-1, None) /\
  outcome (generateDataBackupValueFile (context executing unbound) None) wUnbound
  = Returned ("", Some (Err "bounded runtime with Accelerate Category is not found on the target dataset")) /\
  logs (after (generateDataBackupValueFile (context executing unbound) None) wUnbound) = [] /\
  events (after (generateDataBackupValueFile (context executing unbound) None) wUnbound) = [].
Proof. vm_compute. split_and!; reflexivity. Qed.

(** The amended C9 at the dataset without a bound runtime. *)
Lemma config_runtime_binding_witness :
  faults wUnbound (utils_GetDataset "hbase" "default") = None /\
  datasets wUnbound !! ("default", "hbase") = Some unbound /\
  outcome (generateDataBackupValueFile (context executing unbound) None) wUnbound
  = Returned ("", Some (Err "bounded runtime with Accelerate Category is not found on the target dataset")).
Proof.
  assert (Hd : datasets wUnbound !! ("default", "hbase") = Some unbound)
    by (vm_compute; reflexivity).
  split_and!; [reflexivity | exact Hd |].
  refine (proj1 (proj1 (config_runtime_binding (context executing unbound) None wUnbound
                          unbound eq_refl Hd) _)).
  intros r [].
Defined.

(** C10 at a default image without a tag. *)
Lemma default_image_tag_out_of_range_witness :
  strings.Contains "registry.example.com/alluxio/alluxio" ":" = false /\
  strings.Split "registry.example.com/alluxio/alluxio" ":"
  = ["registry.example.com/alluxio/alluxio"].
Proof.
  assert (Hc : strings.Contains "registry.example.com/alluxio/alluxio" ":" = false)
    by (vm_compute; reflexivity).
  split; [exact Hc|].
  exact (proj1 (proj2 (proj2 (default_image_tag_out_of_range
                                "registry.example.com/alluxio/alluxio")) Hc)).
Defined.

(** C8.  Two derivations that fall back to a default image without a
    colon.  In the first the dataset is bound to a runtime of a type other
    than Alluxio and GooseFS, and the default image is the empty string it
    was declared with; in the second the runtime is Alluxio and the
    default Alluxio image has no tag.  No image is known for the workers
    and the environment gives none.  Instead of returning an
    image-configuration error, [generateDataBackupValueFile] panics on
    the index out of range, and the "invalid default databackup image!"
    line is not logged. *)
Theorem malformed_default_image_panics :
  (strings.Contains (imageDefaults "jindo").2 ":" = false /\
   outcome (generateDataBackupValueFile (context executing jindo) None) wJindo
   = Panicked "index out of range" /\
   (forall v e,
      outcome (generateDataBackupValueFile (context executing jindo) None) wJindo
      <> Returned (v, Some e)) /\
   logs (after (generateDataBackupValueFile (context executing jindo) None) wJindo)
   = [LogError "generateDataBackupValueFile" (Err "RuntimeNotSupported")
        "The runtime is not supported yet"]) /\
  (strings.Contains (@common.DefaultAlluxioRuntimeImage constantsNoTag) ":" = false /\
   outcome (@generateDataBackupValueFile constantsNoTag helpers
              (context executing heldByR1) None) wLaunch
   = Panicked "index out of range" /\
   (forall v e,
      outcome (@generateDataBackupValueFile constantsNoTag helpers
                 (context executing heldByR1) None) wLaunch
      <> Returned (v, Some e)) /\
   logs (after (@generateDataBackupValueFile constantsNoTag helpers
                  (context executing heldByR1) None) wLaunch) = []).
Proof.
  assert (Hjindo :
    outcome (generateDataBackupValueFile (context executing jindo) None) wJindo
    = Panicked "index out of range") by (vm_compute; reflexivity).
  assert (Hnotag :
    outcome (@generateDataBackupValueFile constantsNoTag helpers
               (context executing heldByR1) None) wLaunch
    = Panicked "index out of range") by (vm_compute; reflexivity).
  split; split_and!.
  - vm_compute. reflexivity.
  - exact Hjindo.
  - intros v e. rewrite Hjindo. discriminate.
  - vm_compute. reflexivity.
  - vm_compute. reflexivity.
  - exact Hnotag.
  - intros v e. rewrite Hnotag. discriminate.
  - vm_compute. reflexivity.
Qed.

End Cluster.

(** ** The further properties on the concrete cluster *)

Section ClusterMore.
Import Scenario.
#[local] Existing Instance constants.
#[local] Existing Instance helpers.

(** R1 takes the free dataset: the result is requeue-immediately. *)
Lemma pending_always_requeues_witness :
  outcome (reconcilePendingDataBackup (context R1 free)) wFree
  = Returned utils.RequeueImmediately /\
  utils.RequeueImmediately <> utils.NoRequeue.
Proof.
  assert (Ho : outcome (reconcilePendingDataBackup (context R1 free)) wFree
               = Returned utils.RequeueImmediately) by (vm_compute; reflexivity).
  split; [exact Ho|].
  exact (proj1 (pending_always_requeues (context R1 free) wFree _ Ho)).
Defined.

(** R1 waits while the Alluxio runtime is not ready. *)
Lemma pending_waits_for_runtime_witness :
  conflicting (context R1 free) = false /\
  (utils.GetRuntimeByCategory (DatasetStatus.Runtimes (Dataset.Status free))
     common.AccelerateCategory).2 = Some (runtimeOf "alluxio" 1) /\
  boundedRuntimeReady (context R1 free) wNotReady = false /\
  outcome (reconcilePendingDataBackup (context R1 free)) wNotReady
  = Returned (utils.RequeueAfterInterval (20 * time.Second)).
Proof.
  assert (Hc : conflicting (context R1 free) = false) by (vm_compute; reflexivity).
  assert (Hrt : (utils.GetRuntimeByCategory (DatasetStatus.Runtimes (Dataset.Status free))
                   common.AccelerateCategory).2 = Some (runtimeOf "alluxio" 1))
    by (vm_compute; reflexivity).
  assert (Hr : boundedRuntimeReady (context R1 free) wNotReady = false)
    by (vm_compute; reflexivity).
  split_and!; [exact Hc | exact Hrt | exact Hr |].
  exact (proj1 (pending_waits_for_runtime (context R1 free) wNotReady
                  (runtimeOf "alluxio" 1) Hc Hrt Hr)).
Defined.

(** R1 has taken the lock; R2 reads the dataset afterwards and conflicts. *)
Lemma winner_excludes_later_requests_witness :
  outcome (reconcilePendingDataBackup (context R1 free)) wFree
  = Returned utils.RequeueImmediately /\
  datasets (after (reconcilePendingDataBackup (context R1 free)) wFree)
    !! ObjectMeta.key (Dataset.ObjectMeta free) = Some lockedByR1 /\
  conflicting (context R2 lockedByR1) = true.
Proof.
  assert (Ho : outcome (reconcilePendingDataBackup (context R1 free)) wFree
               = Returned utils.RequeueImmediately) by (vm_compute; reflexivity).
  assert (Hd : datasets (after (reconcilePendingDataBackup (context R1 free)) wFree)
                 !! ObjectMeta.key (Dataset.ObjectMeta free) = Some lockedByR1)
    by (vm_compute; reflexivity).
  split_and!; [exact Ho | exact Hd |].
  refine (proj1 (winner_excludes_later_requests (context R1 free) (context R2 lockedByR1)
                   wFree _ _ _ Ho _ Hd)).
  - vm_compute. discriminate.
  - vm_compute. discriminate.
  - intros _. vm_compute. reflexivity.
  - eexists. split; vm_compute; reflexivity.
Defined.

(** R1 and R2 both read the free dataset; R1 goes first. *)
Lemma stale_snapshot_loses_the_race_witness :
  client.refusesDataset wFree (datasetToUpdate (context R1 free)) = None /\
  outcome (reconcilePendingDataBackup (context R2 free))
    (after (reconcilePendingDataBackup (context R1 free)) wFree)
  = Returned (utils.RequeueAfterInterval (20 * time.Second)).
Proof.
  assert (Hacc : client.refusesDataset wFree (datasetToUpdate (context R1 free)) = None)
    by (vm_compute; reflexivity).
  split; [exact Hacc|].
  refine (proj1 (stale_snapshot_loses_the_race (context R1 free) (context R2 free) wFree
                   eq_refl eq_refl _ _ _ _ _ Hacc)).
  - vm_compute. discriminate.
  - vm_compute. discriminate.
  - vm_compute. reflexivity.
  - vm_compute. reflexivity.
  - vm_compute. reflexivity.
Defined.

(** R1 launches its job: the result is requeue-after 20 seconds. *)
Lemma executing_always_requeues_witness :
  outcome (reconcileExecutingDataBackup (context executing heldByR1)) wLaunch
  = Returned (utils.RequeueAfterInterval (20 * time.Second)) /\
  utils.RequeueAfterInterval (20 * time.Second) <> utils.NoRequeue.
Proof.
  assert (Ho : outcome (reconcileExecutingDataBackup (context executing heldByR1)) wLaunch
               = Returned (utils.RequeueAfterInterval (20 * time.Second)))
    by (vm_compute; reflexivity).
  split; [exact Ho|].
  exact (proj1 (executing_always_requeues (context executing heldByR1) wLaunch _ Ho)).
Defined.

(** The pod of R1 still runs. *)
Lemma executing_polls_unfinished_pod_witness :
  outcome (masterPodName "reconcileExecutingDataBackup" (context executing heldByR1)) wRunning
  = Returned ("hbase-master-0", None) /\
  kubeclient.IsSucceededPod (pods wRunning !! ("default", "backup1-pod")) = false /\
  kubeclient.IsFailedPod (pods wRunning !! ("default", "backup1-pod")) = false /\
  outcome (reconcileExecutingDataBackup (context executing heldByR1)) wRunning
  = Returned (utils.RequeueAfterInterval (20 * time.Second)).
Proof.
  assert (Hm :
    outcome (masterPodName "reconcileExecutingDataBackup" (context executing heldByR1))
      wRunning = Returned ("hbase-master-0", None)) by (vm_compute; reflexivity).
  assert (Hs : kubeclient.IsSucceededPod (pods wRunning !! ("default", "backup1-pod")) = false)
    by (vm_compute; reflexivity).
  assert (Hf : kubeclient.IsFailedPod (pods wRunning !! ("default", "backup1-pod")) = false)
    by (vm_compute; reflexivity).
  assert (Hrel : ("default", "backup1-charts") ∈ releases wRunning)
    by (apply (bool_decide_eq_true_1 _); vm_compute; reflexivity).
  split_and!; [exact Hm | exact Hs | exact Hf |].
  exact (proj1 (executing_polls_unfinished_pod (context executing heldByR1) wRunning
                  "hbase-master-0" Hm eq_refl eq_refl Hrel eq_refl Hs Hf)).
Defined.

(** The master pod of R1 cannot be looked up. *)
Lemma executing_stops_at_failed_lookup_witness :
  outcome (masterPodName "reconcileExecutingDataBackup" (context executing heldByR1))
    wMasterFault = Returned ("hbase-master-0", None) /\
  faults wMasterFault (kubeclient_GetPodByName "hbase-master-0" "default")
  = Some (Err "connection refused") /\
  outcome (reconcileExecutingDataBackup (context executing heldByR1)) wMasterFault
  = Returned (utils.RequeueIfError (Some (Err "connection refused"))).
Proof.
  assert (Hm :
    outcome (masterPodName "reconcileExecutingDataBackup" (context executing heldByR1))
      wMasterFault = Returned ("hbase-master-0", None)) by (vm_compute; reflexivity).
  assert (Hf : faults wMasterFault (kubeclient_GetPodByName "hbase-master-0" "default")
               = Some (Err "connection refused")) by reflexivity.
  split_and!; [exact Hm | exact Hf |].
  exact (proj1 (executing_stops_at_failed_lookup (context executing heldByR1) wMasterFault
                  "hbase-master-0" (Err "connection refused") Hm (or_introl Hf))).
Defined.

(** The value file of R1 on an Alluxio runtime. *)
Lemma runtime_type_of_value_file_witness :
  strings.Contains "alluxio" "-" = false /\
  strings.Contains "123456" "-" = false /\
  index (strings.Split "/tmp/default-backup1-alluxio-backuper-values.yaml123456" "-")
    (Z.of_nat (length (strings.Split "/tmp/default-backup1-alluxio-backuper-values.yaml123456"
                         "-")) - 3) wFree
  = (Returned "alluxio", wFree).
Proof.
  assert (Hrt : strings.Contains "alluxio" "-" = false) by reflexivity.
  assert (Hsuf : strings.Contains "123456" "-" = false) by reflexivity.
  split_and!; [exact Hrt | exact Hsuf |].
  exact (runtime_type_of_value_file "/tmp/default-backup1" "alluxio" "123456" wFree Hrt Hsuf).
Defined.

(** The default Alluxio image of the scenario. *)
Lemma default_image_split_witness :
  imageDefaults "alluxio"
  = ("ALLUXIO_RUNTIME_IMAGE_ENV", "registry.example.com/alluxio/alluxio" +:+ ":" +:+ "2.3.0") /\
  strings.Contains "registry.example.com/alluxio/alluxio" ":" = false /\
  outcome (resolveImageName "generateDataBackupValueFile" "alluxio" "") wLaunch
  = Returned (inr "registry.example.com/alluxio/alluxio").
Proof.
  assert (Hd : imageDefaults "alluxio"
               = ("ALLUXIO_RUNTIME_IMAGE_ENV",
                  "registry.example.com/alluxio/alluxio" +:+ ":" +:+ "2.3.0"))
    by (vm_compute; reflexivity).
  assert (Hn : strings.Contains "registry.example.com/alluxio/alluxio" ":" = false)
    by (vm_compute; reflexivity).
  split_and!; [exact Hd | exact Hn |].
  exact (proj1 (default_image_split "generateDataBackupValueFile" "alluxio"
                  "ALLUXIO_RUNTIME_IMAGE_ENV" "registry.example.com/alluxio/alluxio" "2.3.0"
                  wLaunch Hd eq_refl eq_refl Hn)).
Defined.

(** The value file written for R1. *)
Lemma value_file_is_written_witness :
  outcome (generateDataBackupValueFile (context executing heldByR1) None) wLaunch
  = Returned ("/tmp/default-backup1-alluxio-backuper-values.yaml123456", None) /\
  exists data,
    files (after (generateDataBackupValueFile (context executing heldByR1) None) wLaunch)
      !! "/tmp/default-backup1-alluxio-backuper-values.yaml123456" = Some data.
Proof.
  assert (Ho : outcome (generateDataBackupValueFile (context executing heldByR1) None) wLaunch
               = Returned ("/tmp/default-backup1-alluxio-backuper-values.yaml123456", None))
    by (vm_compute; reflexivity).
  split; [exact Ho|].
  destruct (value_file_is_written (context executing heldByR1) None wLaunch _ _ Ho)
    as (runtimeType & value & data & cs & _ & _ & _ & _ & _ & _ & _ & _ & Hf).
  exists data. exact Hf.
Defined.

(** R1 names no identity and no AlluxioRuntime is stored: it runs as root. *)
Lemma run_as_precedence_witness :
  outcome (generateDataBackupValueFile (context executing heldByR1) None) wLaunch
  = Returned ("/tmp/default-backup1-alluxio-backuper-values.yaml123456", None) /\
  exists value data,
    yamlMarshal wLaunch value = (data, None) /\
    cdatabackup.User (cdatabackup.userInfo value) = 0 /\
    cdatabackup.Enabled (cdatabackup.initUsers value) = false.
Proof.
  assert (Ho : outcome (generateDataBackupValueFile (context executing heldByR1) None) wLaunch
               = Returned ("/tmp/default-backup1-alluxio-backuper-values.yaml123456", None))
    by (vm_compute; reflexivity).
  split; [exact Ho|].
  destruct (run_as_precedence (context executing heldByR1) None wLaunch _ Ho)
    as (value & data & Hm & _ & Hrun).
  exists value, data. destruct Hrun as (Hu & _ & He). split_and!; assumption.
Defined.

(** A request that runs as a user without a UID. *)
Lemma run_as_without_ids_panics_witness :
  DataBackupSpec.RunAs (DataBackup.Spec asNobody)
  = Some {| User.UID := None; User.GID := Some 1000 |} /\
  outcome (writeValueFile asNobody "node-1" "registry.example.com/alluxio/alluxio" "2.3.0"
             "" "alluxio") wLaunch
  = Panicked "invalid memory address or nil pointer dereference".
Proof.
  split; [reflexivity|].
  exact (proj1 (run_as_without_ids_panics asNobody "node-1"
                  "registry.example.com/alluxio/alluxio" "2.3.0" "" "alluxio" wLaunch
                  {| User.UID := None; User.GID := Some 1000 |}
                  eq_refl (or_introl eq_refl) eq_refl)).
Defined.

(** R1 is not marked for deletion: the lock is released and the result
    is no-requeue. *)
Lemma deletion_without_timestamp_witness :
  utils.HasDeletionTimestamp (DataBackup.ObjectMeta executing) = false /\
  outcome (ReconcileDataBackupDeletion (context executing heldByR1)) wSucceeded
  = Returned utils.NoRequeue.
Proof.
  split; [reflexivity|].
  pose proof (deletion_without_timestamp (context executing heldByR1) wSucceeded eq_refl)
    as Hthm.
  cbv zeta in Hthm. destruct Hthm as [_ Hthm].
  destruct (faults wSucceeded _) eqn:E1 in Hthm; [vm_compute in E1; discriminate|].
  destruct Hthm as (_ & _ & Hthm).
  destruct (outcome (releaseLockOnTargetDataset _) _) as [[e|]|msg] eqn:E2 in Hthm;
    [vm_compute in E2; discriminate | exact (proj1 Hthm) | vm_compute in E2; discriminate].
Defined.

(** The deleted request: the result is no-requeue. *)
Lemma deletion_result_witness :
  outcome (ReconcileDataBackupDeletion (context deleted heldByR1)) wDeleted
  = Returned utils.NoRequeue /\
  (utils.NoRequeue = utils.NoRequeue \/
   exists e, utils.NoRequeue = utils.RequeueIfError (Some e)).
Proof.
  assert (Ho : outcome (ReconcileDataBackupDeletion (context deleted heldByR1)) wDeleted
               = Returned utils.NoRequeue) by (vm_compute; reflexivity).
  split; [exact Ho|].
  exact (deletion_result (context deleted heldByR1) wDeleted _ Ho).
Defined.

(** The dataset without a bound runtime. *)
Lemma unbound_dataset_panics_witness :
  utils.RuntimeNotFound = None /\
  outcome (reconcileExecutingDataBackup (context executing unbound)) wUnbound
  = Panicked "invalid memory address or nil pointer dereference".
Proof.
  split; [reflexivity|].
  refine (proj1 (proj2 (unbound_dataset_panics (context executing unbound) wUnbound
                          eq_refl _))).
  intros r [].
Defined.

End ClusterMore.
